(** * SimpleShader: a shallow embedding of the shader-binding layer

    The development follows SimpleShader.cpp: the abstract base class
    [ISimpleShader] (reflection, binding tables, staging memory, upload
    and activation) and its stage specialisations (vertex, pixel, domain,
    hull, geometry, compute).

    Conventions.
    - [unsigned int] and [UINT] values are integers in [Z]; arithmetic that
      can leave the 32-bit range is wrapped with [u32].
    - staging memory is a [list byte]; [memcpy] is partial and [None]
      stands for an access outside the allocation (undefined behaviour).
    - the four [std::unordered_map] tables are [gmap]s keyed by name; the
      constant-buffer table stores indices into the buffer array where the
      source stores pointers into it.
    - memory that [CleanUp] releases is tracked: the buffer array is
      [Unallocated], [Allocated] or [Freed], an element of the two owning
      vectors is [Live] or [Dangling], and deleting what was deleted
      before is undefined behaviour ([None]), as an access outside an
      allocation is.
    - the Direct3D device is an oracle ([Device]) that decides which
      creation calls succeed; every call made on the device or on the
      device context is appended to a log kept in the shader object.
    - the diagnostic text that [ReportErrors] and [ReportWarnings] switch
      on goes to the console only and is left out. *)

From Stdlib Require Import ZArith String Ascii Bool Lia.
From Stdlib.Strings Require Import Byte.
From Stdlib Require Import Floats.SpecFloat.
From stdpp Require Import base option list gmap strings.

Local Open Scope Z_scope.

(** ** Machine integers and raw memory *)

Definition u32 (x : Z) : Z := x mod 2 ^ 32.

(** [memcpy(dst + off, src, n)] on a destination allocation [dst]. *)
Definition memcpy (dst : list byte) (off : Z) (src : list byte) (n : Z)
  : option (list byte) :=
  if decide (0 <= off /\ 0 <= n /\ off + n <= Z.of_nat (length dst)
             /\ n <= Z.of_nat (length src))
  then Some (take (Z.to_nat off) dst ++ take (Z.to_nat n) src
             ++ drop (Z.to_nat (off + n)) dst)
  else None.

(** [new unsigned char[n]] followed by [ZeroMemory]. *)
Definition ZeroMemory (n : Z) : list byte := replicate (Z.to_nat n) Byte.x00.

(** [std::unordered_map::insert]: an existing key keeps its value. *)
Definition map_insert_pair {V} (k : string) (v : V) (m : gmap string V)
  : gmap string V :=
  match m !! k with
  | Some _ => m
  | None => <[k := v]> m
  end.

(** ** Reflection data (what [D3DReflect] reports for a blob) *)

Inductive D3D_SHADER_INPUT_TYPE :=
| D3D_SIT_CBUFFER | D3D_SIT_TBUFFER | D3D_SIT_TEXTURE | D3D_SIT_SAMPLER
| D3D_SIT_UAV_RWTYPED | D3D_SIT_STRUCTURED | D3D_SIT_UAV_RWSTRUCTURED
| D3D_SIT_BYTEADDRESS | D3D_SIT_UAV_RWBYTEADDRESS
| D3D_SIT_UAV_APPEND_STRUCTURED | D3D_SIT_UAV_CONSUME_STRUCTURED
| D3D_SIT_UAV_RWSTRUCTURED_WITH_COUNTER.

Inductive D3D11_CBUFFER_TYPE :=
| D3D11_CT_CBUFFER | D3D11_CT_TBUFFER | D3D11_CT_INTERFACE_POINTERS
| D3D11_CT_RESOURCE_BIND_INFO.

Inductive D3D_REGISTER_COMPONENT_TYPE :=
| D3D_REGISTER_COMPONENT_UNKNOWN | D3D_REGISTER_COMPONENT_UINT32
| D3D_REGISTER_COMPONENT_SINT32 | D3D_REGISTER_COMPONENT_FLOAT32.

Record D3D11_SHADER_INPUT_BIND_DESC := {
  bindName : string;
  bindType : D3D_SHADER_INPUT_TYPE;
  BindPoint : Z
}.

Record D3D11_SHADER_VARIABLE_DESC := {
  varName : string;
  StartOffset : Z;
  varSize : Z
}.

Record D3D11_SHADER_BUFFER_DESC := {
  bufName : string;
  bufType : D3D11_CBUFFER_TYPE;
  Variables : list D3D11_SHADER_VARIABLE_DESC;
  bufSize : Z
}.

Record D3D11_SIGNATURE_PARAMETER_DESC := {
  SemanticName : string;
  SemanticIndex : Z;
  Mask : Z;
  ComponentType : D3D_REGISTER_COMPONENT_TYPE;
  Stream : Z
}.

Record ShaderReflection := {
  BoundResources : list D3D11_SHADER_INPUT_BIND_DESC;
  ConstantBuffers : list D3D11_SHADER_BUFFER_DESC;
  InputParameters : list D3D11_SIGNATURE_PARAMETER_DESC;
  OutputParameters : list D3D11_SIGNATURE_PARAMETER_DESC;
  ThreadGroupSize : Z * Z * Z
}.

(** A compiled blob is opaque to this layer; only its reflection is read. *)
Record Blob := { D3DReflect : ShaderReflection }.

(** [GetResourceBindingDescByName]: the first bound resource of that name. *)
Definition GetResourceBindingDescByName (refl : ShaderReflection) (name : string)
  : option D3D11_SHADER_INPUT_BIND_DESC :=
  find (fun r => String.eqb (bindName r) name) (BoundResources refl).

(** ** The device and the device context *)

Inductive ShaderStage := VS | PS | DS | HS | GS | CS.

Definition handle := nat.

Inductive DXGI_FORMAT :=
| DXGI_FORMAT_UNKNOWN
| DXGI_FORMAT_R32_UINT | DXGI_FORMAT_R32_SINT | DXGI_FORMAT_R32_FLOAT
| DXGI_FORMAT_R32G32_UINT | DXGI_FORMAT_R32G32_SINT | DXGI_FORMAT_R32G32_FLOAT
| DXGI_FORMAT_R32G32B32_UINT | DXGI_FORMAT_R32G32B32_SINT
| DXGI_FORMAT_R32G32B32_FLOAT
| DXGI_FORMAT_R32G32B32A32_UINT | DXGI_FORMAT_R32G32B32A32_SINT
| DXGI_FORMAT_R32G32B32A32_FLOAT.

Inductive D3D11_INPUT_CLASSIFICATION :=
| D3D11_INPUT_PER_VERTEX_DATA | D3D11_INPUT_PER_INSTANCE_DATA.

Record D3D11_INPUT_ELEMENT_DESC := {
  elSemanticName : string;
  elSemanticIndex : Z;
  Format : DXGI_FORMAT;
  InputSlot : Z;
  InputSlotClass : D3D11_INPUT_CLASSIFICATION;
  InstanceDataStepRate : Z
}.

Record D3D11_SO_DECLARATION_ENTRY := {
  soStream : Z;
  soSemanticName : string;
  soSemanticIndex : Z;
  StartComponent : Z;
  ComponentCount : Z;
  OutputSlot : Z
}.

Inductive BufferBind := BIND_CONSTANT_BUFFER | BIND_STREAM_OUTPUT_VERTEX_BUFFER.

Record D3D11_BUFFER_DESC := {
  ByteWidth : Z;
  BindFlags : BufferBind
}.

(** Calls made on [ID3D11Device]. *)
Inductive DeviceCall :=
| CreateShaderCall (st : ShaderStage) (b : Blob)
| CreateGeometryShaderWithStreamOutputCall
    (b : Blob) (decl : list D3D11_SO_DECLARATION_ENTRY) (rast : Z)
| CreateInputLayoutCall (els : list D3D11_INPUT_ELEMENT_DESC) (b : Blob)
| CreateBufferCall (d : D3D11_BUFFER_DESC).

(** The outcome of each device call: [Some h] for [S_OK] with the created
    object, [None] for a failure code.  [D3DReadFileToBlob] is the file
    system. *)
Record Device := {
  D3DReadFileToBlob : string -> option Blob;
  deviceCreate : DeviceCall -> option handle
}.

(** Calls made on [ID3D11DeviceContext]. *)
Inductive ContextCall :=
| UpdateSubresource (buf : option handle) (data : list byte)
| IASetInputLayout (layout : option handle)
| SetShaderCall (st : ShaderStage) (sh : option handle)
| SetConstantBuffers (st : ShaderStage) (slot : Z) (buf : option handle)
| SetShaderResources (st : ShaderStage) (slot : Z) (srv : handle)
| SetSamplers (st : ShaderStage) (slot : Z) (samp : handle)
| CSSetUnorderedAccessViews (slot : Z) (uav : handle) (offset : Z)
| Dispatch (x y z : Z)
| SOSetTargets (n : Z).

(** ** The shader object *)

Record SimpleShaderVariable := {
  ByteOffset : Z;
  Size : Z;
  ConstantBufferIndex : Z
}.

Record SimpleSRV := { srvIndex : Z; srvBindIndex : Z }.

Record SimpleSampler := { sampIndex : Z; sampBindIndex : Z }.

Record SimpleConstantBuffer := {
  Name : string;
  cbSize : Z;
  BindIndex : Z;
  ConstantBuffer : option handle;
  LocalDataBuffer : list byte;
  cbVariables : list SimpleShaderVariable;
  cbType : D3D11_CBUFFER_TYPE
}.

Definition set_LocalDataBuffer (data : list byte) (cb : SimpleConstantBuffer)
  : SimpleConstantBuffer :=
  {| Name := Name cb; cbSize := cbSize cb; BindIndex := BindIndex cb;
     ConstantBuffer := ConstantBuffer cb; LocalDataBuffer := data;
     cbVariables := cbVariables cb; cbType := cbType cb |}.

Definition push_Variable (v : SimpleShaderVariable) (cb : SimpleConstantBuffer)
  : SimpleConstantBuffer :=
  {| Name := Name cb; cbSize := cbSize cb; BindIndex := BindIndex cb;
     ConstantBuffer := ConstantBuffer cb; LocalDataBuffer := LocalDataBuffer cb;
     cbVariables := cbVariables cb ++ [v]; cbType := cbType cb |}.

(** An element of the [shaderResourceViews] / [samplerStates] vectors: the
    vectors hold owning raw pointers that [CleanUp] deletes without
    removing them from the vector. *)
Inductive ptr (A : Type) := Live (a : A) | Dangling.
Arguments Live {A} a.
Arguments Dangling {A}.

(** [delete p]: the object is released and the pointer keeps its value;
    deleting it a second time is undefined. *)
Definition delete {A} (p : ptr A) : option (ptr A) :=
  match p with
  | Live _ => Some Dangling
  | Dangling => None
  end.

(** What the pointer [constantBuffers] addresses: nothing (it is null in a
    new object), the array made by [new SimpleConstantBuffer[n]], or that
    array after [delete[]], which leaves the pointer as it was. *)
Inductive Allocation := Unallocated | Allocated | Freed.

(** The members of [ISimpleShader]; [derived] holds the members that the
    concrete subclass adds.  [constantBuffers] is the contents of the
    buffer array, [constantBufferCount] its length and
    [constantBuffersAlloc] the state of its allocation. *)
Record ISimpleShader (E : Type) := mkShader {
  shaderValid : bool;
  shaderBlob : option Blob;
  constantBuffers : list SimpleConstantBuffer;
  constantBuffersAlloc : Allocation;
  shaderResourceViews : list (ptr SimpleSRV);
  samplerStates : list (ptr SimpleSampler);
  varTable : gmap string SimpleShaderVariable;
  cbTable : gmap string nat;
  textureTable : gmap string SimpleSRV;
  samplerTable : gmap string SimpleSampler;
  derived : E;
  deviceCalls : list DeviceCall;
  contextCalls : list ContextCall
}.
Arguments mkShader {E}.
Arguments shaderValid {E}.
Arguments shaderBlob {E}.
Arguments constantBuffers {E}.
Arguments constantBuffersAlloc {E}.
Arguments shaderResourceViews {E}.
Arguments samplerStates {E}.
Arguments varTable {E}.
Arguments cbTable {E}.
Arguments textureTable {E}.
Arguments samplerTable {E}.
Arguments derived {E}.
Arguments deviceCalls {E}.
Arguments contextCalls {E}.

Section Updates.
Context {E : Type}.
Implicit Type s : ISimpleShader E.

Definition constantBufferCount s : Z := Z.of_nat (length (constantBuffers s)).

Definition set_shaderValid (b : bool) s :=
  mkShader b (shaderBlob s) (constantBuffers s) (constantBuffersAlloc s)
    (shaderResourceViews s) (samplerStates s) (varTable s) (cbTable s)
    (textureTable s) (samplerTable s) (derived s) (deviceCalls s)
    (contextCalls s).

Definition set_shaderBlob (b : option Blob) s :=
  mkShader (shaderValid s) b (constantBuffers s) (constantBuffersAlloc s)
    (shaderResourceViews s) (samplerStates s) (varTable s) (cbTable s)
    (textureTable s) (samplerTable s) (derived s) (deviceCalls s)
    (contextCalls s).

Definition set_constantBuffers (cbs : list SimpleConstantBuffer) s :=
  mkShader (shaderValid s) (shaderBlob s) cbs (constantBuffersAlloc s)
    (shaderResourceViews s) (samplerStates s) (varTable s) (cbTable s)
    (textureTable s) (samplerTable s) (derived s) (deviceCalls s)
    (contextCalls s).

Definition set_shaderResourceViews (l : list (ptr SimpleSRV)) s :=
  mkShader (shaderValid s) (shaderBlob s) (constantBuffers s)
    (constantBuffersAlloc s) l (samplerStates s) (varTable s) (cbTable s)
    (textureTable s) (samplerTable s) (derived s) (deviceCalls s)
    (contextCalls s).

Definition set_samplerStates (l : list (ptr SimpleSampler)) s :=
  mkShader (shaderValid s) (shaderBlob s) (constantBuffers s)
    (constantBuffersAlloc s) (shaderResourceViews s) l (varTable s)
    (cbTable s) (textureTable s) (samplerTable s) (derived s)
    (deviceCalls s) (contextCalls s).

Definition set_varTable (m : gmap string SimpleShaderVariable) s :=
  mkShader (shaderValid s) (shaderBlob s) (constantBuffers s)
    (constantBuffersAlloc s) (shaderResourceViews s) (samplerStates s) m
    (cbTable s) (textureTable s) (samplerTable s) (derived s)
    (deviceCalls s) (contextCalls s).

Definition set_cbTable (m : gmap string nat) s :=
  mkShader (shaderValid s) (shaderBlob s) (constantBuffers s)
    (constantBuffersAlloc s) (shaderResourceViews s) (samplerStates s)
    (varTable s) m (textureTable s) (samplerTable s) (derived s)
    (deviceCalls s) (contextCalls s).

Definition set_textureTable (m : gmap string SimpleSRV) s :=
  mkShader (shaderValid s) (shaderBlob s) (constantBuffers s)
    (constantBuffersAlloc s) (shaderResourceViews s) (samplerStates s)
    (varTable s) (cbTable s) m (samplerTable s) (derived s) (deviceCalls s)
    (contextCalls s).

Definition set_samplerTable (m : gmap string SimpleSampler) s :=
  mkShader (shaderValid s) (shaderBlob s) (constantBuffers s)
    (constantBuffersAlloc s) (shaderResourceViews s) (samplerStates s)
    (varTable s) (cbTable s) (textureTable s) m (derived s) (deviceCalls s)
    (contextCalls s).

Definition set_derived (e : E) s :=
  mkShader (shaderValid s) (shaderBlob s) (constantBuffers s)
    (constantBuffersAlloc s) (shaderResourceViews s) (samplerStates s)
    (varTable s) (cbTable s) (textureTable s) (samplerTable s) e
    (deviceCalls s) (contextCalls s).

(** [constantBuffers = new SimpleConstantBuffer[n]]: a new array, whose
    elements the buffer loop of [LoadShaderFile] fills in one by one. *)
Definition new_constantBuffers s :=
  mkShader (shaderValid s) (shaderBlob s) [] Allocated
    (shaderResourceViews s) (samplerStates s) (varTable s) (cbTable s)
    (textureTable s) (samplerTable s) (derived s) (deviceCalls s)
    (contextCalls s).

(** The device performs [cs], in order. *)
Definition on_device (cs : list DeviceCall) s :=
  mkShader (shaderValid s) (shaderBlob s) (constantBuffers s)
    (constantBuffersAlloc s) (shaderResourceViews s) (samplerStates s)
    (varTable s) (cbTable s) (textureTable s) (samplerTable s) (derived s)
    (deviceCalls s ++ cs) (contextCalls s).

(** The device context performs [cs], in order. *)
Definition on_context (cs : list ContextCall) s :=
  mkShader (shaderValid s) (shaderBlob s) (constantBuffers s)
    (constantBuffersAlloc s) (shaderResourceViews s) (samplerStates s)
    (varTable s) (cbTable s) (textureTable s) (samplerTable s) (derived s)
    (deviceCalls s) (contextCalls s ++ cs).
End Updates.

(** What a concrete shader class contributes to the base class: its
    pipeline stage, the part of [CleanUp] and of [CreateShader] that acts
    on its own members, whether its [CreateShader] runs [CleanUp] a second
    time before it creates the shader object (the stream-out path of the
    geometry shader does), and the calls with which [SetShaderAndCBs] sets
    the shader object. *)
Class ShaderClass (E : Type) := {
  stage : ShaderStage;
  CleanUpDerived : E -> E;
  CleanUpTwice : E -> bool;
  CreateShaderDerived : Device -> Blob -> E -> bool * E * list DeviceCall;
  SetShaderCalls : E -> list ContextCall
}.

(** ** ISimpleShader: loading *)

Section Base.
Context {E : Type} `{ShaderClass E}.
Variable dev : Device.
Implicit Type s : ISimpleShader E.

(** The first two statements of [ISimpleShader::CleanUp]: the staging
    arrays of the [constantBufferCount] elements are deleted, then the
    array itself if the pointer is not null, which also sets the count to
    zero.  The pointer is never reset: on an array that was deleted
    before, [delete[]] runs a second time. *)
Definition delete_constantBuffers s : option Allocation :=
  match constantBuffersAlloc s, constantBuffers s with
  | Allocated, _ => Some Freed
  | Unallocated, [] => Some Unallocated
  | Unallocated, _ :: _ => None
  | Freed, _ => None
  end.

(** [ISimpleShader::CleanUp] together with the override of the subclass.
    The buffer array is released; every element of the two vectors is
    deleted and stays in its vector, which is never cleared; the four
    tables are cleared.  [None]: something is deleted a second time. *)
Definition CleanUp s : option (ISimpleShader E) :=
  alloc ← delete_constantBuffers s;
  srvs ← mapM delete (shaderResourceViews s);
  samplers ← mapM delete (samplerStates s);
  Some (mkShader (shaderValid s) (shaderBlob s) [] alloc srvs samplers
          ∅ ∅ ∅ ∅ (CleanUpDerived (derived s)) (deviceCalls s)
          (contextCalls s)).

(** The destructor of each of the six classes is a call of [CleanUp]. *)
Definition Destructor s : option (ISimpleShader E) := CleanUp s.

(** The virtual [CreateShader]: every override starts with [CleanUp],
    [SimpleGeometryShader::CreateShaderWithStreamOut] with another one,
    and then works on the members of its own class. *)
Definition CreateShader (blob : Blob) s : option (bool * ISimpleShader E) :=
  s1 ← CleanUp s;
  s2 ← (if CleanUpTwice (derived s1) then CleanUp s1 else Some s1);
  let '(ok, e, calls) := CreateShaderDerived dev blob (derived s2) in
  Some (ok, on_device calls (set_derived e s2)).

(** One iteration of the bound-resource loop of [LoadShaderFile]. *)
Definition load_resource (rd : D3D11_SHADER_INPUT_BIND_DESC) s
  : ISimpleShader E :=
  match bindType rd with
  | D3D_SIT_STRUCTURED | D3D_SIT_TEXTURE =>
      let srv := {| srvIndex := Z.of_nat (length (shaderResourceViews s));
                    srvBindIndex := BindPoint rd |} in
      set_shaderResourceViews (shaderResourceViews s ++ [Live srv])
        (set_textureTable
           (map_insert_pair (bindName rd) srv (textureTable s)) s)
  | D3D_SIT_SAMPLER =>
      let samp := {| sampIndex := Z.of_nat (length (samplerStates s));
                     sampBindIndex := BindPoint rd |} in
      set_samplerStates (samplerStates s ++ [Live samp])
        (set_samplerTable
           (map_insert_pair (bindName rd) samp (samplerTable s)) s)
  | _ => s
  end.

(** The descriptor built for a reflected variable of buffer number [b]. *)
Definition varStruct (b : nat) (vd : D3D11_SHADER_VARIABLE_DESC)
  : SimpleShaderVariable :=
  {| ByteOffset := StartOffset vd; Size := varSize vd;
     ConstantBufferIndex := Z.of_nat b |}.

(** One iteration of the variable loop, for buffer number [b]: the
    variable goes into the variable table and into the buffer's list. *)
Definition load_variable (b : nat)
    (acc : gmap string SimpleShaderVariable * SimpleConstantBuffer)
    (vd : D3D11_SHADER_VARIABLE_DESC)
  : gmap string SimpleShaderVariable * SimpleConstantBuffer :=
  (map_insert_pair (varName vd) (varStruct b vd) acc.1,
   push_Variable (varStruct b vd) acc.2).

(** One iteration of the constant-buffer loop: [constantBuffers[b]] is
    filled in (the array is allocated up front in the source and its
    entry [b] is first read after this iteration, so the model appends
    to the array that [new_constantBuffers] left empty).
    The bind point is that of the bound resource with the buffer's name;
    reflection lists every buffer among the bound resources, and the
    model takes slot 0 where it would not. *)
Definition load_buffer (refl : ShaderReflection) (b : nat)
    (bd : D3D11_SHADER_BUFFER_DESC) s : ISimpleShader E :=
  let bindPoint :=
    default 0 (BindPoint <$> GetResourceBindingDescByName refl (bufName bd)) in
  let create :=
    CreateBufferCall {| ByteWidth := bufSize bd;
                        BindFlags := BIND_CONSTANT_BUFFER |} in
  let cb := {| Name := bufName bd; cbSize := bufSize bd;
               BindIndex := bindPoint;
               ConstantBuffer := deviceCreate dev create;
               LocalDataBuffer := ZeroMemory (bufSize bd);
               cbVariables := []; cbType := bufType bd |} in
  let '(vars, cb) := fold_left (load_variable b) (Variables bd) (varTable s, cb) in
  on_device [create]
    (set_varTable vars
       (set_cbTable (map_insert_pair (bufName bd) b (cbTable s))
          (set_constantBuffers (constantBuffers s ++ [cb]) s))).

Fixpoint load_buffers (refl : ShaderReflection) (b : nat)
    (bds : list D3D11_SHADER_BUFFER_DESC) s : ISimpleShader E :=
  match bds with
  | [] => s
  | bd :: rest => load_buffers refl (S b) rest (load_buffer refl b bd s)
  end.

(** [ISimpleShader::LoadShaderFile].  [None]: the [CleanUp] that
    [CreateShader] starts with deletes something a second time. *)
Definition LoadShaderFile (shaderFile : string) s
  : option (bool * ISimpleShader E) :=
  match D3DReadFileToBlob dev shaderFile with
  | None => Some (false, s)
  | Some blob =>
      '(ok, s1) ← CreateShader blob (set_shaderBlob (Some blob) s);
      let s2 := set_shaderValid ok s1 in
      if negb ok then Some (false, s2)
      else
        let refl := D3DReflect blob in
        let s3 := fold_left (fun acc rd => load_resource rd acc)
                    (BoundResources refl) (new_constantBuffers s2) in
        Some (true, load_buffers refl 0 (ConstantBuffers refl) s3)
  end.

(** The base-class constructor: a null buffer pointer, a count of zero,
    empty vectors and tables, not valid. *)
Definition ISimpleShader_new (e : E) : ISimpleShader E :=
  mkShader false None [] Unallocated [] [] ∅ ∅ ∅ ∅ e [] [].

(** The constructors of the six classes: the base-class constructor, the
    members of the class set to [e], then [LoadShaderFile], whose result
    is dropped.  A new object holds nothing that [CleanUp] could delete
    twice, so this load is always defined ([LoadShaderFile_new]) and the
    second branch is never taken. *)
Definition construct (shaderFile : string) (e : E) : ISimpleShader E :=
  match LoadShaderFile shaderFile (ISimpleShader_new e) with
  | Some (_, s) => s
  | None => ISimpleShader_new e
  end.

(** ** ISimpleShader: lookups *)

Definition FindVariable (name : string) (size : Z) s
  : option SimpleShaderVariable :=
  match varTable s !! name with
  | None => None
  | Some var =>
      if (0 <? size) && negb (Size var =? size) then None else Some var
  end.

(** The table stores a pointer into [constantBuffers]; here its index. *)
Definition FindConstantBuffer (name : string) s : option nat :=
  cbTable s !! name.

Definition HasVariable (name : string) s : bool :=
  bool_decide (is_Some (FindVariable name (-1) s)).

Definition GetVariableInfo (name : string) s : option SimpleShaderVariable :=
  FindVariable name (-1) s.

Definition GetShaderResourceViewInfo (name : string) s : option SimpleSRV :=
  textureTable s !! name.

Definition GetShaderResourceViewInfo_index (index : nat) s
  : option (ptr SimpleSRV) :=
  if decide (length (shaderResourceViews s) <= index)%nat then None
  else shaderResourceViews s !! index.

Definition GetSamplerInfo (name : string) s : option SimpleSampler :=
  samplerTable s !! name.

Definition GetSamplerInfo_index (index : nat) s : option (ptr SimpleSampler) :=
  if decide (length (samplerStates s) <= index)%nat then None
  else samplerStates s !! index.

Definition HasShaderResourceView (name : string) s : bool :=
  bool_decide (is_Some (GetShaderResourceViewInfo name s)).

Definition HasSamplerState (name : string) s : bool :=
  bool_decide (is_Some (GetSamplerInfo name s)).

Definition GetBufferCount s : Z := constantBufferCount s.

(** Returns [-1] converted to [unsigned int] for an index out of range. *)
Definition GetBufferSize (index : nat) s : Z :=
  if decide (length (constantBuffers s) <= index)%nat then u32 (-1)
  else default 0 (cbSize <$> constantBuffers s !! index).

Definition GetBufferInfo (name : string) s : option SimpleConstantBuffer :=
  i ← FindConstantBuffer name s; constantBuffers s !! i.

Definition GetBufferInfo_index (index : nat) s : option SimpleConstantBuffer :=
  if decide (length (constantBuffers s) <= index)%nat then None
  else constantBuffers s !! index.

(** ** ISimpleShader: staging, upload and activation *)

(** [SetData].  [None] is undefined behaviour: the variable's buffer
    index is outside [constantBuffers], or [memcpy] leaves an allocation. *)
Definition SetData (name : string) (data : list byte) (size : Z) s
  : option (bool * ISimpleShader E) :=
  match FindVariable name (-1) s with
  | None => Some (false, s)
  | Some var =>
      if Size var <? size then Some (false, s)
      else
        let b := Z.to_nat (ConstantBufferIndex var) in
        cb ← constantBuffers s !! b;
        buf ← memcpy (LocalDataBuffer cb) (ByteOffset var) data size;
        Some (true,
              set_constantBuffers
                (<[b := set_LocalDataBuffer buf cb]> (constantBuffers s)) s)
  end.

(** The typed setters; [data] is the object representation of the
    argument ([sizeof(int) = sizeof(float) = 4]). *)
Definition SetInt (name : string) (data : list byte) s := SetData name data 4 s.
Definition SetFloat (name : string) (data : list byte) s := SetData name data 4 s.
Definition SetFloat2 (name : string) (data : list byte) s :=
  SetData name data (4 * 2) s.
Definition SetFloat3 (name : string) (data : list byte) s :=
  SetData name data (4 * 3) s.
Definition SetFloat4 (name : string) (data : list byte) s :=
  SetData name data (4 * 4) s.
Definition SetMatrix4x4 (name : string) (data : list byte) s :=
  SetData name data (4 * 16) s.

Definition upload (cb : SimpleConstantBuffer) : ContextCall :=
  UpdateSubresource (ConstantBuffer cb) (LocalDataBuffer cb).

Definition CopyAllBufferData s : ISimpleShader E :=
  if negb (shaderValid s) then s
  else on_context (upload <$> constantBuffers s) s.

Definition CopyBufferData (index : nat) s : ISimpleShader E :=
  if negb (shaderValid s) then s
  else if decide (length (constantBuffers s) <= index)%nat then s
  else match constantBuffers s !! index with
       | Some cb => on_context [upload cb] s
       | None => s
       end.

(** [None]: the table entry points outside the buffer array. *)
Definition CopyBufferData_name (bufferName : string) s
  : option (ISimpleShader E) :=
  if negb (shaderValid s) then Some s
  else match FindConstantBuffer bufferName s with
       | None => Some s
       | Some i => cb ← constantBuffers s !! i; Some (on_context [upload cb] s)
       end.

(** The constant-buffer loop shared by the six [SetShaderAndCBs]. *)
Definition bind_cbuffer (cb : SimpleConstantBuffer) : option ContextCall :=
  match cbType cb with
  | D3D11_CT_CBUFFER =>
      Some (SetConstantBuffers stage (BindIndex cb) (ConstantBuffer cb))
  | _ => None
  end.

Definition SetShaderAndCBs s : ISimpleShader E :=
  if negb (shaderValid s) then s
  else on_context (SetShaderCalls (derived s)
                   ++ omap bind_cbuffer (constantBuffers s)) s.

Definition SetShader s : ISimpleShader E :=
  if negb (shaderValid s) then s else SetShaderAndCBs s.

(** The six overrides differ in the pipeline stage of the call only. *)
Definition SetShaderResourceView (name : string) (srv : handle) s
  : bool * ISimpleShader E :=
  match GetShaderResourceViewInfo name s with
  | None => (false, s)
  | Some srvInfo =>
      (true, on_context [SetShaderResources stage (srvBindIndex srvInfo) srv] s)
  end.

Definition SetSamplerState (name : string) (samplerState : handle) s
  : bool * ISimpleShader E :=
  match GetSamplerInfo name s with
  | None => (false, s)
  | Some sampInfo =>
      (true,
       on_context [SetSamplers stage (sampBindIndex sampInfo) samplerState] s)
  end.

(** ** The public operations of the base class, as one interface *)

Inductive Call :=
| CallSetShader
| CallCopyAllBufferData
| CallCopyBufferData (index : nat)
| CallCopyBufferData_name (bufferName : string)
| CallSetData (name : string) (data : list byte) (size : Z)
| CallSetInt (name : string) (data : list byte)
| CallSetFloat (name : string) (data : list byte)
| CallSetFloat2 (name : string) (data : list byte)
| CallSetFloat3 (name : string) (data : list byte)
| CallSetFloat4 (name : string) (data : list byte)
| CallSetMatrix4x4 (name : string) (data : list byte)
| CallHasVariable (name : string)
| CallHasShaderResourceView (name : string)
| CallHasSamplerState (name : string)
| CallGetVariableInfo (name : string)
| CallGetShaderResourceViewInfo (name : string)
| CallGetShaderResourceViewInfo_index (index : nat)
| CallGetSamplerInfo (name : string)
| CallGetSamplerInfo_index (index : nat)
| CallGetBufferCount
| CallGetBufferSize (index : nat)
| CallGetBufferInfo (name : string)
| CallGetBufferInfo_index (index : nat)
| CallSetShaderResourceView (name : string) (srv : handle)
| CallSetSamplerState (name : string) (samplerState : handle).

Inductive Ret :=
| RVoid
| RBool (b : bool)
| RCount (n : Z)
| RSize (n : Z)
| RVariable (v : option SimpleShaderVariable)
| RSRV (v : option SimpleSRV)
| RSRVptr (v : option (ptr SimpleSRV))
| RSampler (v : option SimpleSampler)
| RSamplerPtr (v : option (ptr SimpleSampler))
| RBuffer (v : option SimpleConstantBuffer).

Definition ret_bool (r : option (bool * ISimpleShader E))
  : option (Ret * ISimpleShader E) :=
  '(b, s') ← r; Some (RBool b, s').

Definition exec (c : Call) s : option (Ret * ISimpleShader E) :=
  match c with
  | CallSetShader => Some (RVoid, SetShader s)
  | CallCopyAllBufferData => Some (RVoid, CopyAllBufferData s)
  | CallCopyBufferData i => Some (RVoid, CopyBufferData i s)
  | CallCopyBufferData_name n => s' ← CopyBufferData_name n s; Some (RVoid, s')
  | CallSetData n d sz => ret_bool (SetData n d sz s)
  | CallSetInt n d => ret_bool (SetInt n d s)
  | CallSetFloat n d => ret_bool (SetFloat n d s)
  | CallSetFloat2 n d => ret_bool (SetFloat2 n d s)
  | CallSetFloat3 n d => ret_bool (SetFloat3 n d s)
  | CallSetFloat4 n d => ret_bool (SetFloat4 n d s)
  | CallSetMatrix4x4 n d => ret_bool (SetMatrix4x4 n d s)
  | CallHasVariable n => Some (RBool (HasVariable n s), s)
  | CallHasShaderResourceView n => Some (RBool (HasShaderResourceView n s), s)
  | CallHasSamplerState n => Some (RBool (HasSamplerState n s), s)
  | CallGetVariableInfo n => Some (RVariable (GetVariableInfo n s), s)
  | CallGetShaderResourceViewInfo n =>
      Some (RSRV (GetShaderResourceViewInfo n s), s)
  | CallGetShaderResourceViewInfo_index i =>
      Some (RSRVptr (GetShaderResourceViewInfo_index i s), s)
  | CallGetSamplerInfo n => Some (RSampler (GetSamplerInfo n s), s)
  | CallGetSamplerInfo_index i => Some (RSamplerPtr (GetSamplerInfo_index i s), s)
  | CallGetBufferCount => Some (RCount (GetBufferCount s), s)
  | CallGetBufferSize i => Some (RSize (GetBufferSize i s), s)
  | CallGetBufferInfo n => Some (RBuffer (GetBufferInfo n s), s)
  | CallGetBufferInfo_index i => Some (RBuffer (GetBufferInfo_index i s), s)
  | CallSetShaderResourceView n h =>
      let '(b, s') := SetShaderResourceView n h s in Some (RBool b, s')
  | CallSetSamplerState n h =>
      let '(b, s') := SetSamplerState n h s in Some (RBool b, s')
  end.

(** A result that reports failure or absence: [false], a null pointer,
    a count of zero, the size [-1]. *)
Definition negative (r : Ret) : Prop :=
  match r with
  | RVoid => True
  | RBool b => b = false
  | RCount n => n = 0
  | RSize n => n = u32 (-1)
  | RVariable v => v = None
  | RSRV v => v = None
  | RSRVptr v => v = None
  | RSampler v => v = None
  | RSamplerPtr v => v = None
  | RBuffer v => v = None
  end.
End Base.

(** ** SimplePixelShader, SimpleDomainShader, SimpleHullShader *)

Record PlainData (st : ShaderStage) := { plainShader : option handle }.
Arguments plainShader {st}.

Definition Plain_CreateShader (st : ShaderStage) (dev : Device) (blob : Blob)
    (e : PlainData st) : bool * PlainData st * list DeviceCall :=
  let create := CreateShaderCall st blob in
  match deviceCreate dev create with
  | Some h => (true, {| plainShader := Some h |}, [create])
  | None => (false, e, [create])
  end.

Definition PlainShaderClass (st : ShaderStage) : ShaderClass (PlainData st) :=
  {| stage := st;
     CleanUpDerived := fun e => e;
     CleanUpTwice := fun _ => false;
     CreateShaderDerived := Plain_CreateShader st;
     SetShaderCalls := fun e => [SetShaderCall st (plainShader e)] |}.

#[export] Instance SimplePixelShader : ShaderClass (PlainData PS) :=
  PlainShaderClass PS.
#[export] Instance SimpleDomainShader : ShaderClass (PlainData DS) :=
  PlainShaderClass DS.
#[export] Instance SimpleHullShader : ShaderClass (PlainData HS) :=
  PlainShaderClass HS.

Definition SimplePlainShader_new (st : ShaderStage) `{ShaderClass (PlainData st)}
    (dev : Device) (shaderFile : string) : ISimpleShader (PlainData st) :=
  construct dev shaderFile {| plainShader := None |}.

(** ** SimpleVertexShader *)

Record VertexData := {
  vsShader : option handle;
  inputLayout : option handle;
  perInstanceCompatible : bool
}.

(** The test on the semantic name: [lenDiff >= 0] and the last
    [perInstanceStr.size()] characters compare equal to the marker. *)
Definition perInstanceStr : string := "_PER_INSTANCE".

Definition isPerInstance (sem : string) : bool :=
  let lenDiff := Z.of_nat (String.length sem)
                 - Z.of_nat (String.length perInstanceStr) in
  (0 <=? lenDiff)
  && String.eqb (substring (Z.to_nat lenDiff) (String.length perInstanceStr) sem)
                perInstanceStr.

(** "Determine DXGI format"; a format that no branch assigns stays zero. *)
Definition by_type (t : D3D_REGISTER_COMPONENT_TYPE) (u i f : DXGI_FORMAT)
  : DXGI_FORMAT :=
  match t with
  | D3D_REGISTER_COMPONENT_UINT32 => u
  | D3D_REGISTER_COMPONENT_SINT32 => i
  | D3D_REGISTER_COMPONENT_FLOAT32 => f
  | D3D_REGISTER_COMPONENT_UNKNOWN => DXGI_FORMAT_UNKNOWN
  end.

Definition format_of (mask : Z) (t : D3D_REGISTER_COMPONENT_TYPE) : DXGI_FORMAT :=
  if mask =? 1 then
    by_type t DXGI_FORMAT_R32_UINT DXGI_FORMAT_R32_SINT DXGI_FORMAT_R32_FLOAT
  else if mask <=? 3 then
    by_type t DXGI_FORMAT_R32G32_UINT DXGI_FORMAT_R32G32_SINT
      DXGI_FORMAT_R32G32_FLOAT
  else if mask <=? 7 then
    by_type t DXGI_FORMAT_R32G32B32_UINT DXGI_FORMAT_R32G32B32_SINT
      DXGI_FORMAT_R32G32B32_FLOAT
  else if mask <=? 15 then
    by_type t DXGI_FORMAT_R32G32B32A32_UINT DXGI_FORMAT_R32G32B32A32_SINT
      DXGI_FORMAT_R32G32B32A32_FLOAT
  else DXGI_FORMAT_UNKNOWN.

(** The element description built for one input parameter. *)
Definition input_element (paramDesc : D3D11_SIGNATURE_PARAMETER_DESC)
  : D3D11_INPUT_ELEMENT_DESC :=
  let per := isPerInstance (SemanticName paramDesc) in
  {| elSemanticName := SemanticName paramDesc;
     elSemanticIndex := SemanticIndex paramDesc;
     Format := format_of (Mask paramDesc) (ComponentType paramDesc);
     InputSlot := if per then 1 else 0;
     InputSlotClass := if per then D3D11_INPUT_PER_INSTANCE_DATA
                       else D3D11_INPUT_PER_VERTEX_DATA;
     InstanceDataStepRate := if per then 1 else 0 |}.

(** The loop over the input parameters: the layout description grows by
    one element per parameter and a per-instance parameter sets the flag. *)
Definition layout_step (acc : list D3D11_INPUT_ELEMENT_DESC * bool)
    (paramDesc : D3D11_SIGNATURE_PARAMETER_DESC)
  : list D3D11_INPUT_ELEMENT_DESC * bool :=
  (acc.1 ++ [input_element paramDesc],
   if isPerInstance (SemanticName paramDesc) then true else acc.2).

Definition build_input_layout (params : list D3D11_SIGNATURE_PARAMETER_DESC)
    (flag : bool) : list D3D11_INPUT_ELEMENT_DESC * bool :=
  fold_left layout_step params ([], flag).

Definition Vertex_CreateShader (dev : Device) (blob : Blob) (e : VertexData)
  : bool * VertexData * list DeviceCall :=
  let create := CreateShaderCall VS blob in
  match deviceCreate dev create with
  | None => (false, e, [create])
  | Some h =>
      match inputLayout e with
      | Some l =>
          (true, {| vsShader := Some h; inputLayout := Some l;
                    perInstanceCompatible := perInstanceCompatible e |},
           [create])
      | None =>
          let '(inputLayoutDesc, flag) :=
            build_input_layout (InputParameters (D3DReflect blob))
              (perInstanceCompatible e) in
          let createLayout := CreateInputLayoutCall inputLayoutDesc blob in
          (true, {| vsShader := Some h;
                    inputLayout := deviceCreate dev createLayout;
                    perInstanceCompatible := flag |},
           [create; createLayout])
      end
  end.

#[export] Instance SimpleVertexShader : ShaderClass VertexData :=
  {| stage := VS;
     CleanUpDerived := fun e => e;
     CleanUpTwice := fun _ => false;
     CreateShaderDerived := Vertex_CreateShader;
     SetShaderCalls := fun e =>
       [IASetInputLayout (inputLayout e); SetShaderCall VS (vsShader e)] |}.

(** The two constructors. *)
Definition SimpleVertexShader_new (dev : Device) (shaderFile : string)
  : ISimpleShader VertexData :=
  construct dev shaderFile
    {| vsShader := None; inputLayout := None; perInstanceCompatible := false |}.

Definition SimpleVertexShader_new_layout (dev : Device) (shaderFile : string)
    (layout : option handle) (perInstance : bool) : ISimpleShader VertexData :=
  construct dev shaderFile
    {| vsShader := None; inputLayout := layout;
       perInstanceCompatible := perInstance |}.

(** ** SimpleGeometryShader *)

Record GeometryData := {
  gsShader : option handle;
  useStreamOut : bool;
  allowStreamOutRasterization : bool;
  streamOutVertexSize : Z
}.

Definition b2z (b : bool) : Z := if b then 1 else 0.

Definition CalcComponentCount (mask : Z) : Z :=
  b2z (Z.land mask 1 =? 1) + b2z (Z.land mask 2 =? 2)
  + b2z (Z.land mask 4 =? 4) + b2z (Z.land mask 8 =? 8).

Definition so_entry (paramDesc : D3D11_SIGNATURE_PARAMETER_DESC)
  : D3D11_SO_DECLARATION_ENTRY :=
  {| soStream := Stream paramDesc;
     soSemanticName := SemanticName paramDesc;
     soSemanticIndex := SemanticIndex paramDesc;
     StartComponent := 0;
     ComponentCount := CalcComponentCount (Mask paramDesc);
     OutputSlot := 0 |}.

(** One iteration of the output-signature loop; [sizeof(float) = 4] and
    the running size is an [unsigned int]. *)
Definition so_step (acc : list D3D11_SO_DECLARATION_ENTRY * Z)
    (paramDesc : D3D11_SIGNATURE_PARAMETER_DESC)
  : list D3D11_SO_DECLARATION_ENTRY * Z :=
  let entry := so_entry paramDesc in
  (acc.1 ++ [entry], u32 (acc.2 + ComponentCount entry * 4)).

Definition build_so_declaration (params : list D3D11_SIGNATURE_PARAMETER_DESC)
  : list D3D11_SO_DECLARATION_ENTRY * Z :=
  fold_left so_step params ([], 0).

Definition D3D11_SO_NO_RASTERIZED_STREAM : Z := 4294967295.

(** What [CreateShaderWithStreamOut] does after its own [CleanUp] (the one
    that [CleanUpTwice] stands for). *)
Definition CreateShaderWithStreamOut (dev : Device) (blob : Blob)
    (e : GeometryData) : bool * GeometryData * list DeviceCall :=
  let '(soDecl, size) := build_so_declaration (OutputParameters (D3DReflect blob)) in
  let rast := if allowStreamOutRasterization e then 0
              else D3D11_SO_NO_RASTERIZED_STREAM in
  let create := CreateGeometryShaderWithStreamOutputCall blob soDecl rast in
  let result := deviceCreate dev create in
  (bool_decide (is_Some result),
   {| gsShader := match result with Some h => Some h | None => gsShader e end;
      useStreamOut := useStreamOut e;
      allowStreamOutRasterization := allowStreamOutRasterization e;
      streamOutVertexSize := size |},
   [create]).

Definition Geometry_CreateShader (dev : Device) (blob : Blob) (e : GeometryData)
  : bool * GeometryData * list DeviceCall :=
  if useStreamOut e then CreateShaderWithStreamOut dev blob e
  else
    let create := CreateShaderCall GS blob in
    match deviceCreate dev create with
    | Some h =>
        (true, {| gsShader := Some h; useStreamOut := useStreamOut e;
                  allowStreamOutRasterization := allowStreamOutRasterization e;
                  streamOutVertexSize := streamOutVertexSize e |}, [create])
    | None => (false, e, [create])
    end.

#[export] Instance SimpleGeometryShader : ShaderClass GeometryData :=
  {| stage := GS;
     CleanUpDerived := fun e => e;
     CleanUpTwice := useStreamOut;
     CreateShaderDerived := Geometry_CreateShader;
     SetShaderCalls := fun e => [SetShaderCall GS (gsShader e)] |}.

Definition SimpleGeometryShader_new (dev : Device) (shaderFile : string)
    (streamOut allowRasterization : bool) : ISimpleShader GeometryData :=
  construct dev shaderFile
    {| gsShader := None; useStreamOut := streamOut;
       allowStreamOutRasterization := allowRasterization;
       streamOutVertexSize := 0 |}.

(** [CreateCompatibleStreamOutBuffer]: [vertexCount] is an [int]; the
    byte width is the [unsigned int] product. *)
Definition CreateCompatibleStreamOutBuffer (dev : Device) (vertexCount : Z)
    (s : ISimpleShader GeometryData) : bool * ISimpleShader GeometryData :=
  if negb (useStreamOut (derived s)) || negb (shaderValid s)
     || (streamOutVertexSize (derived s) =? 0)
  then (false, s)
  else
    let desc := {| ByteWidth := u32 (streamOutVertexSize (derived s) * vertexCount);
                   BindFlags := BIND_STREAM_OUTPUT_VERTEX_BUFFER |} in
    let create := CreateBufferCall desc in
    (bool_decide (is_Some (deviceCreate dev create)), on_device [create] s).

(** [UnbindStreamOutStage]: the call is made on the context that the
    caller passes; the model keeps one log for all context calls. *)
Definition UnbindStreamOutStage (s : ISimpleShader GeometryData)
  : ISimpleShader GeometryData :=
  on_context [SOSetTargets 4] s.

(** ** Single-precision arithmetic used by the compute shader

    [float] is IEEE 754 binary32: 24 bits of precision, infinities at
    exponent 128, round to nearest with ties to even. *)

Definition float := spec_float.

(** [(float)n] for an [unsigned int] [n]. *)
Definition float_of_uint (n : Z) : float := binary_normalize 24 128 n 0 false.

Definition fdiv (x y : float) : float := SFdiv 24 128 x y.

(** [ceil]: the least integer not below [x]; infinities, NaN and zeros are
    returned as they are. *)
Definition ceilf (x : float) : float :=
  match x with
  | S754_finite sg m e =>
      let v := cond_Zopp sg (Z.pos m) in
      let c := if 0 <=? e then v * 2 ^ e else - ((- v) / 2 ^ (- e)) in
      binary_normalize 24 128 c 0 sg
  | _ => x
  end.

(** The integer part of a finite value (truncation toward zero). *)
Definition truncf (x : float) : option Z :=
  match x with
  | S754_zero _ => Some 0
  | S754_finite sg m e =>
      Some (cond_Zopp sg (if 0 <=? e then Z.pos m * 2 ^ e
                          else Z.pos m / 2 ^ (- e)))
  | _ => None
  end.

(** The [max] macro of the Windows headers. *)
Definition max_macro (a b : Z) : Z := if b <? a then a else b.

(** ** SimpleComputeShader *)

Record ComputeData := {
  csShader : option handle;
  threadsX : Z;
  threadsY : Z;
  threadsZ : Z;
  threadsTotal : Z;
  uavTable : gmap string Z
}.

Definition is_uav (t : D3D_SHADER_INPUT_TYPE) : bool :=
  match t with
  | D3D_SIT_UAV_APPEND_STRUCTURED | D3D_SIT_UAV_CONSUME_STRUCTURED
  | D3D_SIT_UAV_RWBYTEADDRESS | D3D_SIT_UAV_RWSTRUCTURED
  | D3D_SIT_UAV_RWSTRUCTURED_WITH_COUNTER | D3D_SIT_UAV_RWTYPED => true
  | _ => false
  end.

Definition load_uav (t : gmap string Z) (rd : D3D11_SHADER_INPUT_BIND_DESC)
  : gmap string Z :=
  if is_uav (bindType rd) then map_insert_pair (bindName rd) (BindPoint rd) t
  else t.

Definition Compute_CreateShader (dev : Device) (blob : Blob) (e : ComputeData)
  : bool * ComputeData * list DeviceCall :=
  let create := CreateShaderCall CS blob in
  match deviceCreate dev create with
  | None => (false, e, [create])
  | Some h =>
      let refl := D3DReflect blob in
      let '(x, y, z) := ThreadGroupSize refl in
      (true,
       {| csShader := Some h; threadsX := x; threadsY := y; threadsZ := z;
          threadsTotal := x * y * z;
          uavTable := fold_left load_uav (BoundResources refl) (uavTable e) |},
       [create])
  end.

Definition Compute_CleanUp (e : ComputeData) : ComputeData :=
  {| csShader := csShader e; threadsX := threadsX e; threadsY := threadsY e;
     threadsZ := threadsZ e; threadsTotal := threadsTotal e; uavTable := ∅ |}.

#[export] Instance SimpleComputeShader : ShaderClass ComputeData :=
  {| stage := CS;
     CleanUpDerived := Compute_CleanUp;
     CleanUpTwice := fun _ => false;
     CreateShaderDerived := Compute_CreateShader;
     SetShaderCalls := fun e => [SetShaderCall CS (csShader e)] |}.

Definition SimpleComputeShader_new (dev : Device) (shaderFile : string)
  : ISimpleShader ComputeData :=
  construct dev shaderFile
    {| csShader := None; threadsX := 0; threadsY := 0; threadsZ := 0;
       threadsTotal := 0; uavTable := ∅ |}.

(** [unsigned int] to [int]. *)
Definition s32 (x : Z) : Z := if x <? 2 ^ 31 then x else x - 2 ^ 32.

Definition GetUnorderedAccessViewIndex (name : string)
    (s : ISimpleShader ComputeData) : Z :=
  match uavTable (derived s) !! name with
  | None => -1
  | Some slot => s32 slot
  end.

Definition HasUnorderedAccessView (name : string)
    (s : ISimpleShader ComputeData) : bool :=
  negb (GetUnorderedAccessViewIndex name s =? -1).

Definition SetUnorderedAccessView (name : string) (uav : handle)
    (appendConsumeOffset : Z) (s : ISimpleShader ComputeData)
  : bool * ISimpleShader ComputeData :=
  let bindIndex := u32 (GetUnorderedAccessViewIndex name s) in
  if bindIndex =? u32 (-1) then (false, s)
  else (true,
        on_context [CSSetUnorderedAccessViews bindIndex uav appendConsumeOffset] s).

Definition DispatchByGroups (groupsX groupsY groupsZ : Z)
    (s : ISimpleShader ComputeData) : ISimpleShader ComputeData :=
  on_context [Dispatch groupsX groupsY groupsZ] s.

Section Dispatch.
(** Converting a [float] whose integer part is not an [unsigned int]
    (or an infinity or NaN, which division by an unset group size
    produces) is undefined in the language; the processor still leaves
    some 32-bit pattern in the result.  [out_of_range] names it. *)
Variable out_of_range : float -> Z.

(** [(unsigned int)x]. *)
Definition uint_of_float (x : float) : Z :=
  match truncf x with
  | Some n => if (0 <=? n) && (n <? 2 ^ 32) then n else u32 (out_of_range x)
  | None => u32 (out_of_range x)
  end.

(** One argument of the [Dispatch] call in [DispatchByThreads]. *)
Definition group_count (threads perGroup : Z) : Z :=
  max_macro
    (uint_of_float (ceilf (fdiv (float_of_uint threads) (float_of_uint perGroup))))
    1.

Definition DispatchByThreads (tX tY tZ : Z) (s : ISimpleShader ComputeData)
  : ISimpleShader ComputeData :=
  on_context
    [Dispatch (group_count tX (threadsX (derived s)))
              (group_count tY (threadsY (derived s)))
              (group_count tZ (threadsZ (derived s)))] s.
End Dispatch.

(** ** The stage-specific public operations *)

Inductive ComputeCall :=
| CallDispatchByGroups (groupsX groupsY groupsZ : Z)
| CallDispatchByThreads (tX tY tZ : Z)
| CallHasUnorderedAccessView (name : string)
| CallSetUnorderedAccessView (name : string) (uav : handle) (offset : Z).

Definition exec_compute (out_of_range : float -> Z) (c : ComputeCall)
    (s : ISimpleShader ComputeData) : Ret * ISimpleShader ComputeData :=
  match c with
  | CallDispatchByGroups x y z => (RVoid, DispatchByGroups x y z s)
  | CallDispatchByThreads x y z => (RVoid, DispatchByThreads out_of_range x y z s)
  | CallHasUnorderedAccessView n => (RBool (HasUnorderedAccessView n s), s)
  | CallSetUnorderedAccessView n h off =>
      let '(b, s') := SetUnorderedAccessView n h off s in (RBool b, s')
  end.

Inductive GeometryCall :=
| CallCreateCompatibleStreamOutBuffer (vertexCount : Z)
| CallUnbindStreamOutStage.

Definition exec_geometry (dev : Device) (c : GeometryCall)
    (s : ISimpleShader GeometryData) : Ret * ISimpleShader GeometryData :=
  match c with
  | CallCreateCompatibleStreamOutBuffer n =>
      let '(b, s') := CreateCompatibleStreamOutBuffer dev n s in (RBool b, s')
  | CallUnbindStreamOutStage => (RVoid, UnbindStreamOutStage s)
  end.

(** ** Invariants and specification-side notions *)

(** Byte [i] of the staging array of buffer [b]. *)
Definition staging {E} (s : ISimpleShader E) (b i : nat) : option byte :=
  cb ← constantBuffers s !! b; LocalDataBuffer cb !! i.

(** Every staging array is as long as its buffer. *)
Definition staging_sized {E} (s : ISimpleShader E) : Prop :=
  Forall (fun cb => Z.of_nat (length (LocalDataBuffer cb)) = cbSize cb)
         (constantBuffers s).

(** A variable lies inside the buffer it names. *)
Definition var_in_bounds (cbs : list SimpleConstantBuffer)
    (v : SimpleShaderVariable) : Prop :=
  match cbs !! Z.to_nat (ConstantBufferIndex v) with
  | Some cb => 0 <= ByteOffset v /\ 0 <= Size v
               /\ ByteOffset v + Size v <= cbSize cb
  | None => False
  end.

#[export] Instance var_in_bounds_dec cbs v : Decision (var_in_bounds cbs v).
Proof. unfold var_in_bounds. destruct (cbs !! _); apply _. Defined.

(** The state invariant of a built program. *)
Definition wf {E} (s : ISimpleShader E) : Prop :=
  staging_sized s
  /\ map_Forall (fun _ v => var_in_bounds (constantBuffers s) v) (varTable s)
  /\ map_Forall (fun _ i => (i < length (constantBuffers s))%nat) (cbTable s).

#[export] Instance wf_dec {E} (s : ISimpleShader E) : Decision (wf s).
Proof. unfold wf, staging_sized. apply _. Defined.

(** A program without buffers, resources or table entries that is not
    valid: what a failed load leaves behind a constructor. *)
Definition blank {E} (s : ISimpleShader E) : Prop :=
  shaderValid s = false
  /\ constantBuffers s = [] /\ shaderResourceViews s = []
  /\ samplerStates s = []
  /\ varTable s = ∅ /\ cbTable s = ∅ /\ textureTable s = ∅
  /\ samplerTable s = ∅.

(** Nothing that [CleanUp] deletes was deleted before: the buffer array
    is allocated, or the pointer is null with a count of zero, and every
    element of the two vectors is live. *)
Definition is_live {A} (p : ptr A) : bool :=
  match p with
  | Live _ => true
  | Dangling => false
  end.

Definition unfreed {E} (s : ISimpleShader E) : Prop :=
  match constantBuffersAlloc s with
  | Allocated => True
  | Unallocated => constantBuffers s = []
  | Freed => False
  end
  /\ Forall (fun p => is_live p = true) (shaderResourceViews s)
  /\ Forall (fun p => is_live p = true) (samplerStates s).

#[export] Instance unfreed_dec {E} (s : ISimpleShader E) : Decision (unfreed s).
Proof. unfold unfreed. destruct (constantBuffersAlloc s); apply _. Defined.

(** The object owns no memory at all, as a new object does. *)
Definition holds_nothing {E} (s : ISimpleShader E) : Prop :=
  constantBuffersAlloc s = Unallocated /\ constantBuffers s = []
  /\ shaderResourceViews s = [] /\ samplerStates s = [].

#[export] Instance Allocation_eq_dec : EqDecision Allocation.
Proof. solve_decision. Defined.

#[export] Instance holds_nothing_dec {E} (s : ISimpleShader E) :
  Decision (holds_nothing s).
Proof. unfold holds_nothing. apply _. Defined.

(** The members of the subclass when [CreateShader] has cleaned up. *)
Definition cleaned {E} `{ShaderClass E} (e : E) : E :=
  if CleanUpTwice (CleanUpDerived e) then CleanUpDerived (CleanUpDerived e)
  else CleanUpDerived e.

(** [CreateShader] can clean up: nothing was deleted before, and where the
    class cleans up twice there is nothing to delete the first time. *)
Definition loadable {E} `{ShaderClass E} (s : ISimpleShader E) : Prop :=
  unfreed s /\ (CleanUpTwice (CleanUpDerived (derived s)) = true -> holds_nothing s).

#[export] Instance loadable_dec {E} `{ShaderClass E} (s : ISimpleShader E) :
  Decision (loadable s).
Proof. unfold loadable. apply _. Defined.

(** The allocation state of the buffer array after [CleanUp]. *)
Definition released (a : Allocation) : Allocation :=
  match a with
  | Allocated => Freed
  | _ => a
  end.

(** The object that the [CleanUp] calls of [CreateShader] leave, with the
    members [e] of the subclass. *)
Definition cleaned_up {E} (s : ISimpleShader E) (e : E) : ISimpleShader E :=
  mkShader (shaderValid s) (shaderBlob s) []
    (released (constantBuffersAlloc s))
    ((fun _ => Dangling) <$> shaderResourceViews s)
    ((fun _ => Dangling) <$> samplerStates s)
    ∅ ∅ ∅ ∅ e (deviceCalls s) (contextCalls s).

(** Reflected sizes are [unsigned int]s. *)
Definition sizes_unsigned (refl : ShaderReflection) : Prop :=
  Forall (fun bd => 0 <= bufSize bd) (ConstantBuffers refl).

#[export] Instance sizes_unsigned_dec refl : Decision (sizes_unsigned refl).
Proof. unfold sizes_unsigned. apply _. Defined.

(** A staging write: buffer [i] gets new contents of the same length. *)
Definition rewrites_buffer {E} (s s' : ISimpleShader E) : Prop :=
  exists (i : nat) cb buf,
    constantBuffers s !! i = Some cb
    /\ length buf = length (LocalDataBuffer cb)
    /\ s' = set_constantBuffers
              (<[i := set_LocalDataBuffer buf cb]> (constantBuffers s)) s.

(** Nothing that the invariant reads has changed. *)
Definition same_store {E} (s s' : ISimpleShader E) : Prop :=
  constantBuffers s' = constantBuffers s /\ varTable s' = varTable s
  /\ cbTable s' = cbTable s.

(** Reflection is consistent: sizes are unsigned and every variable lies
    inside its buffer. *)
Definition buffer_desc_ok (bd : D3D11_SHADER_BUFFER_DESC) : Prop :=
  0 <= bufSize bd
  /\ Forall (fun vd => 0 <= StartOffset vd /\ 0 <= varSize vd
                       /\ StartOffset vd + varSize vd <= bufSize bd)
            (Variables bd).

Definition reflection_ok (refl : ShaderReflection) : Prop :=
  Forall buffer_desc_ok (ConstantBuffers refl).

#[export] Instance reflection_ok_dec refl : Decision (reflection_ok refl).
Proof. unfold reflection_ok, buffer_desc_ok. apply _. Defined.

(** The names of all reflected variables, buffer after buffer. *)
Definition variable_names (refl : ShaderReflection) : list string :=
  bd ← ConstantBuffers refl; varName <$> Variables bd.

(** The payload of a staging call holds the bytes that the call reads. *)
Definition payload_ok (c : Call) : Prop :=
  match c with
  | CallSetData _ d sz => 0 <= sz <= Z.of_nat (length d)
  | CallSetInt _ d | CallSetFloat _ d => 4 <= Z.of_nat (length d)
  | CallSetFloat2 _ d => 8 <= Z.of_nat (length d)
  | CallSetFloat3 _ d => 12 <= Z.of_nat (length d)
  | CallSetFloat4 _ d => 16 <= Z.of_nat (length d)
  | CallSetMatrix4x4 _ d => 64 <= Z.of_nat (length d)
  | _ => True
  end.

(** [sem] ends with [suffix]. *)
Definition ends_with (suffix sem : string) : Prop :=
  exists pre, sem = (pre ++ suffix)%string.

(** The number of set bits of a mask. *)
Fixpoint popcount_pos (p : positive) : Z :=
  match p with
  | xH => 1
  | xO q => popcount_pos q
  | xI q => 1 + popcount_pos q
  end.

Definition popcount (mask : Z) : Z :=
  match mask with
  | Z.pos p => popcount_pos p
  | _ => 0
  end.

(** The stride as the specification words it: four bytes per set bit. *)
Definition stride_spec (params : list D3D11_SIGNATURE_PARAMETER_DESC) : Z :=
  foldr (fun p acc => popcount (Mask p) * 4 + acc) 0 params.

(** The group count as the specification words it: [max(ceil(t/g), 1)]. *)
Definition ceil_div (t g : Z) : Z := (t + g - 1) / g.

Definition group_count_spec (t g : Z) : Z := Z.max (ceil_div t g) 1.

(** The inputs [0 .. n-1]. *)
Definition upto (n : nat) : list Z := Z.of_nat <$> seq 0 n.

(** The computed count agrees with the specified one for all thread
    counts below [n] and all group sizes from 1 to [m]. *)
Definition agree_below (out_of_range : float -> Z) (n m : nat) : bool :=
  forallb (fun t =>
     forallb (fun g => group_count out_of_range t (g + 1)
                       =? group_count_spec t (g + 1)) (upto m))
    (upto n).

(** ** A sample shader and sample devices, for concrete instances *)

Definition sample_reflection : ShaderReflection :=
  {| BoundResources :=
       [ {| bindName := "externalData"; bindType := D3D_SIT_CBUFFER; BindPoint := 0 |};
         {| bindName := "perFrame"; bindType := D3D_SIT_CBUFFER; BindPoint := 1 |};
         {| bindName := "diffuse"; bindType := D3D_SIT_TEXTURE; BindPoint := 0 |};
         {| bindName := "basicSampler"; bindType := D3D_SIT_SAMPLER; BindPoint := 0 |};
         {| bindName := "particles"; bindType := D3D_SIT_UAV_RWSTRUCTURED;
            BindPoint := 2 |} ];
     ConstantBuffers :=
       [ {| bufName := "externalData"; bufType := D3D11_CT_CBUFFER;
            Variables := [ {| varName := "world"; StartOffset := 0; varSize := 64 |};
                           {| varName := "color"; StartOffset := 64; varSize := 16 |} ];
            bufSize := 80 |};
         {| bufName := "perFrame"; bufType := D3D11_CT_CBUFFER;
            Variables := [ {| varName := "time"; StartOffset := 0; varSize := 4 |} ];
            bufSize := 16 |} ];
     InputParameters :=
       [ {| SemanticName := "POSITION"; SemanticIndex := 0; Mask := 7;
            ComponentType := D3D_REGISTER_COMPONENT_FLOAT32; Stream := 0 |};
         {| SemanticName := "COLOR_PER_INSTANCE"; SemanticIndex := 0; Mask := 15;
            ComponentType := D3D_REGISTER_COMPONENT_FLOAT32; Stream := 0 |} ];
     OutputParameters :=
       [ {| SemanticName := "SV_POSITION"; SemanticIndex := 0; Mask := 15;
            ComponentType := D3D_REGISTER_COMPONENT_FLOAT32; Stream := 0 |};
         {| SemanticName := "TEXCOORD"; SemanticIndex := 0; Mask := 3;
            ComponentType := D3D_REGISTER_COMPONENT_FLOAT32; Stream := 0 |} ];
     ThreadGroupSize := (5, 2, 2) |}.

Definition sample_blob : Blob := {| D3DReflect := sample_reflection |}.

(** Every file holds the sample blob and every creation succeeds. *)
Definition good_device : Device :=
  {| D3DReadFileToBlob := fun _ => Some sample_blob;
     deviceCreate := fun _ => Some 1%nat |}.

(** No file can be read. *)
Definition no_file_device : Device :=
  {| D3DReadFileToBlob := fun _ => None;
     deviceCreate := fun _ => Some 1%nat |}.

(** Files are read but no shader object can be created from them. *)
Definition rejecting_device : Device :=
  {| D3DReadFileToBlob := fun _ => Some sample_blob;
     deviceCreate := fun c =>
       match c with
       | CreateShaderCall _ _ => None
       | CreateGeometryShaderWithStreamOutputCall _ _ _ => None
       | _ => Some 1%nat
       end |}.

(** Everything succeeds but the creation of an input layout. *)
Definition no_layout_device : Device :=
  {| D3DReadFileToBlob := fun _ => Some sample_blob;
     deviceCreate := fun c =>
       match c with
       | CreateInputLayoutCall _ _ => None
       | _ => Some 1%nat
       end |}.

Definition sample_pixel_shader : ISimpleShader (PlainData PS) :=
  SimplePlainShader_new PS good_device "PixelShader.cso".

(** A compute shader whose shader object could not be created. *)
Definition invalid_compute_shader : ISimpleShader ComputeData :=
  SimpleComputeShader_new rejecting_device "ComputeShader.cso".

Definition sample_compute_shader : ISimpleShader ComputeData :=
  SimpleComputeShader_new good_device "ComputeShader.cso".

(** A compute shader declared with [numthreads(1024, 1, 1)]. *)
Definition wide_blob : Blob :=
  {| D3DReflect :=
       {| BoundResources := []; ConstantBuffers := []; InputParameters := [];
          OutputParameters := []; ThreadGroupSize := (1024, 1, 1) |} |}.

Definition wide_device : Device :=
  {| D3DReadFileToBlob := fun _ => Some wide_blob;
     deviceCreate := fun _ => Some 1%nat |}.

Definition wide_compute_shader : ISimpleShader ComputeData :=
  SimpleComputeShader_new wide_device "Particles.cso".

Definition sample_stream_out_shader : ISimpleShader GeometryData :=
  SimpleGeometryShader_new good_device "Geometry.cso" true false.

Definition sample_geometry_shader : ISimpleShader GeometryData :=
  SimpleGeometryShader_new good_device "Geometry.cso" false false.

Definition sample_payload : list byte := [Byte.x01; Byte.x02; Byte.x03].

(** ** Reflection in the order in which the loader meets it *)

(** The reflected variables with the number of their buffer, the first
    buffer of the list being number [b]. *)
Fixpoint indexed_variables (b : nat) (bds : list D3D11_SHADER_BUFFER_DESC)
  : list (nat * D3D11_SHADER_VARIABLE_DESC) :=
  match bds with
  | [] => []
  | bd :: rest => (pair b <$> Variables bd) ++ indexed_variables (S b) rest
  end.

(** The first reflected variable called [name]. *)
Definition first_variable (refl : ShaderReflection) (name : string)
  : option (nat * D3D11_SHADER_VARIABLE_DESC) :=
  find (fun p => String.eqb (varName p.2) name)
       (indexed_variables 0 (ConstantBuffers refl)).

(** The kinds of bound resource that the loader records. *)
Definition is_texture (t : D3D_SHADER_INPUT_TYPE) : bool :=
  match t with
  | D3D_SIT_STRUCTURED | D3D_SIT_TEXTURE => true
  | _ => false
  end.

Definition is_sampler (t : D3D_SHADER_INPUT_TYPE) : bool :=
  match t with
  | D3D_SIT_SAMPLER => true
  | _ => false
  end.

(** The first bound resource of a kind called [name]. *)
Definition first_resource (kind : D3D_SHADER_INPUT_TYPE -> bool)
    (refl : ShaderReflection) (name : string)
  : option D3D11_SHADER_INPUT_BIND_DESC :=
  find (fun rd => kind (bindType rd) && String.eqb (bindName rd) name)
       (BoundResources refl).

(** Two structured buffers: reflection reports one buffer description for
    each, both with a single variable called [$Element]. *)
Definition structured_reflection : ShaderReflection :=
  {| BoundResources :=
       [ {| bindName := "positions"; bindType := D3D_SIT_STRUCTURED; BindPoint := 0 |};
         {| bindName := "velocities"; bindType := D3D_SIT_STRUCTURED; BindPoint := 1 |} ];
     ConstantBuffers :=
       [ {| bufName := "positions"; bufType := D3D11_CT_RESOURCE_BIND_INFO;
            Variables := [ {| varName := "$Element"; StartOffset := 0; varSize := 12 |} ];
            bufSize := 12 |};
         {| bufName := "velocities"; bufType := D3D11_CT_RESOURCE_BIND_INFO;
            Variables := [ {| varName := "$Element"; StartOffset := 0; varSize := 16 |} ];
            bufSize := 16 |} ];
     InputParameters := []; OutputParameters := [];
     ThreadGroupSize := (64, 1, 1) |}.

Definition structured_blob : Blob := {| D3DReflect := structured_reflection |}.

Definition structured_device : Device :=
  {| D3DReadFileToBlob := fun _ => Some structured_blob;
     deviceCreate := fun _ => Some 1%nat |}.

(** The [CreateBuffer] call that the loader makes for a reflected buffer. *)
Definition buffer_create (bd : D3D11_SHADER_BUFFER_DESC) : DeviceCall :=
  CreateBufferCall {| ByteWidth := bufSize bd; BindFlags := BIND_CONSTANT_BUFFER |}.

(** The store entry of reflected buffer number [b], as reflection and the
    device determine it. *)
Definition reflected_buffer (dev : Device) (refl : ShaderReflection) (b : nat)
    (bd : D3D11_SHADER_BUFFER_DESC) : SimpleConstantBuffer :=
  {| Name := bufName bd; cbSize := bufSize bd;
     BindIndex :=
       default 0 (BindPoint <$> GetResourceBindingDescByName refl (bufName bd));
     ConstantBuffer := deviceCreate dev (buffer_create bd);
     LocalDataBuffer := ZeroMemory (bufSize bd);
     cbVariables := varStruct b <$> Variables bd;
     cbType := bufType bd |}.

Fixpoint reflected_buffers (dev : Device) (refl : ShaderReflection) (b : nat)
    (bds : list D3D11_SHADER_BUFFER_DESC) : list SimpleConstantBuffer :=
  match bds with
  | [] => []
  | bd :: rest => reflected_buffer dev refl b bd :: reflected_buffers dev refl (S b) rest
  end.



(** The descriptors that the bound-resource loop creates for the
    texture-like resources, with their names, when the vector already
    holds [n] elements. *)
Fixpoint srv_entries (n : nat) (rds : list D3D11_SHADER_INPUT_BIND_DESC)
  : list (string * SimpleSRV) :=
  match rds with
  | [] => []
  | rd :: rest =>
      if is_texture (bindType rd)
      then (bindName rd, {| srvIndex := Z.of_nat n; srvBindIndex := BindPoint rd |})
           :: srv_entries (S n) rest
      else srv_entries n rest
  end.

(** The same for the samplers. *)
Fixpoint sampler_entries (n : nat) (rds : list D3D11_SHADER_INPUT_BIND_DESC)
  : list (string * SimpleSampler) :=
  match rds with
  | [] => []
  | rd :: rest =>
      if is_sampler (bindType rd)
      then (bindName rd, {| sampIndex := Z.of_nat n; sampBindIndex := BindPoint rd |})
           :: sampler_entries (S n) rest
      else sampler_entries n rest
  end.

(** The sample pixel shader after its file was loaded a second time
    (that load is defined and returns true). *)
Definition reloaded_pixel_shader : ISimpleShader (PlainData PS) :=
  match LoadShaderFile good_device "PixelShader.cso" sample_pixel_shader with
  | Some (_, s) => s
  | None => sample_pixel_shader
  end.

(** The call with which activation binds a reflected buffer, if it is a
    true constant buffer. *)
Definition reflected_binding (dev : Device) (refl : ShaderReflection)
    (st : ShaderStage) (bd : D3D11_SHADER_BUFFER_DESC) : option ContextCall :=
  match bufType bd with
  | D3D11_CT_CBUFFER =>
      Some (SetConstantBuffers st
              (default 0 (BindPoint <$> GetResourceBindingDescByName refl (bufName bd)))
              (deviceCreate dev (buffer_create bd)))
  | _ => None
  end.

(** Byte [i] of buffer [b] lies in the first [size] bytes of variable [v]. *)
Definition in_variable (v : SimpleShaderVariable) (size : Z) (b i : nat) : Prop :=
  b = Z.to_nat (ConstantBufferIndex v)
  /\ (Z.to_nat (ByteOffset v) <= i < Z.to_nat (ByteOffset v) + Z.to_nat size)%nat.

#[export] Instance in_variable_dec v size b i : Decision (in_variable v size b i).
Proof. unfold in_variable. apply _. Defined.

(** The first [size1] bytes of [v1] and the first [size2] bytes of [v2]
    share no byte. *)
Definition disjoint_writes (v1 : SimpleShaderVariable) (size1 : Z)
    (v2 : SimpleShaderVariable) (size2 : Z) : Prop :=
  Z.to_nat (ConstantBufferIndex v1) <> Z.to_nat (ConstantBufferIndex v2)
  \/ ByteOffset v1 + size1 <= ByteOffset v2
  \/ ByteOffset v2 + size2 <= ByteOffset v1.

(** Two store entries describe the same buffer: they differ at most in
    the contents of a staging array of the same length. *)
Definition same_descriptor (cb cb' : SimpleConstantBuffer) : Prop :=
  Name cb' = Name cb /\ cbSize cb' = cbSize cb /\ BindIndex cb' = BindIndex cb
  /\ ConstantBuffer cb' = ConstantBuffer cb
  /\ cbVariables cb' = cbVariables cb /\ cbType cb' = cbType cb
  /\ length (LocalDataBuffer cb') = length (LocalDataBuffer cb).

(** The operations that only read: the existence probes and accessors. *)
Definition reads_only (c : Call) : bool :=
  match c with
  | CallHasVariable _ | CallHasShaderResourceView _ | CallHasSamplerState _
  | CallGetVariableInfo _ | CallGetShaderResourceViewInfo _
  | CallGetShaderResourceViewInfo_index _ | CallGetSamplerInfo _
  | CallGetSamplerInfo_index _ | CallGetBufferCount | CallGetBufferSize _
  | CallGetBufferInfo _ | CallGetBufferInfo_index _ => true
  | _ => false
  end.

(** The operations that write staging memory. *)
Definition writes_staging (c : Call) : bool :=
  match c with
  | CallSetData _ _ _ | CallSetInt _ _ | CallSetFloat _ _ | CallSetFloat2 _ _
  | CallSetFloat3 _ _ | CallSetFloat4 _ _ | CallSetMatrix4x4 _ _ => true
  | _ => false
  end.

(** The variable table has [name], with room for [width] bytes. *)
Definition fits {E} (s : ISimpleShader E) (name : string) (width : Z) : Prop :=
  exists var, varTable s !! name = Some var /\ width <= Size var.

(** The typed setters with the width of their type. *)
Definition typed_setters {E}
  : list ((string -> list byte -> ISimpleShader E
           -> option (bool * ISimpleShader E)) * Z) :=
  [ (SetInt, 4); (SetFloat, 4); (SetFloat2, 8); (SetFloat3, 12);
    (SetFloat4, 16); (SetMatrix4x4, 64) ].

(** The number of 32-bit components of a format and their scalar type. *)
Definition format_components (f : DXGI_FORMAT) : Z :=
  match f with
  | DXGI_FORMAT_UNKNOWN => 0
  | DXGI_FORMAT_R32_UINT | DXGI_FORMAT_R32_SINT | DXGI_FORMAT_R32_FLOAT => 1
  | DXGI_FORMAT_R32G32_UINT | DXGI_FORMAT_R32G32_SINT
  | DXGI_FORMAT_R32G32_FLOAT => 2
  | DXGI_FORMAT_R32G32B32_UINT | DXGI_FORMAT_R32G32B32_SINT
  | DXGI_FORMAT_R32G32B32_FLOAT => 3
  | DXGI_FORMAT_R32G32B32A32_UINT | DXGI_FORMAT_R32G32B32A32_SINT
  | DXGI_FORMAT_R32G32B32A32_FLOAT => 4
  end.

Definition format_scalar (f : DXGI_FORMAT) : D3D_REGISTER_COMPONENT_TYPE :=
  match f with
  | DXGI_FORMAT_UNKNOWN => D3D_REGISTER_COMPONENT_UNKNOWN
  | DXGI_FORMAT_R32_UINT | DXGI_FORMAT_R32G32_UINT
  | DXGI_FORMAT_R32G32B32_UINT | DXGI_FORMAT_R32G32B32A32_UINT =>
      D3D_REGISTER_COMPONENT_UINT32
  | DXGI_FORMAT_R32_SINT | DXGI_FORMAT_R32G32_SINT
  | DXGI_FORMAT_R32G32B32_SINT | DXGI_FORMAT_R32G32B32A32_SINT =>
      D3D_REGISTER_COMPONENT_SINT32
  | DXGI_FORMAT_R32_FLOAT | DXGI_FORMAT_R32G32_FLOAT
  | DXGI_FORMAT_R32G32B32_FLOAT | DXGI_FORMAT_R32G32B32A32_FLOAT =>
      D3D_REGISTER_COMPONENT_FLOAT32
  end.

(** A vertex shader loaded with an input layout made by the caller. *)
Definition sample_layout_shader : ISimpleShader VertexData :=
  SimpleVertexShader_new_layout good_device "VertexShader.cso" (Some 9%nat) false.

(** A sequence of base-class operations, one after the other; [None] as
    soon as one of them is undefined. *)
Fixpoint run {E} `{ShaderClass E} (cs : list Call) (s : ISimpleShader E)
  : option (ISimpleShader E) :=
  match cs with
  | [] => Some s
  | c :: rest => '(_, s') ← exec c s; run rest s'
  end.

(** Byte [i] of buffer [b] belongs to no variable of the table. *)
Definition outside_variables {E} (s : ISimpleShader E) (b i : nat) : Prop :=
  map_Forall (fun _ v => ~ in_variable v (Size v) b i) (varTable s).

#[export] Instance outside_variables_dec {E} (s : ISimpleShader E) b i :
  Decision (outside_variables s b i).
Proof. unfold outside_variables. apply _. Defined.

(** * Properties *)

(** ** Raw memory *)

Lemma memcpy_defined dst off src n :
  0 <= off -> 0 <= n -> off + n <= Z.of_nat (length dst) ->
  n <= Z.of_nat (length src) ->
  memcpy dst off src n
  = Some (take (Z.to_nat off) dst ++ take (Z.to_nat n) src
          ++ drop (Z.to_nat (off + n)) dst).
Proof.
  intros. unfold memcpy. case_decide as Hc; [done | lia].
Qed.

Lemma memcpy_length dst off src n buf :
  memcpy dst off src n = Some buf -> length buf = length dst.
Proof.
  unfold memcpy. case_decide as Hc; [| done].
  intros [= <-]. rewrite !length_app, !length_take, length_drop. lia.
Qed.

Lemma memcpy_lookup dst off src n buf (i : nat) :
  memcpy dst off src n = Some buf ->
  buf !! i =
    if decide (Z.to_nat off <= i < Z.to_nat off + Z.to_nat n)%nat
    then src !! (i - Z.to_nat off)%nat
    else dst !! i.
Proof.
  unfold memcpy. case_decide as Hc; [| done].
  intros [= <-]. destruct Hc as (Hoff & Hn & Hdst & Hsrc).
  assert (length (take (Z.to_nat off) dst) = Z.to_nat off) as Hl1
    by (rewrite length_take; lia).
  assert (length (take (Z.to_nat n) src) = Z.to_nat n) as Hl2
    by (rewrite length_take; lia).
  case_decide as Hi.
  - rewrite lookup_app_r by lia. rewrite Hl1.
    rewrite lookup_app_l by lia. apply lookup_take_lt. lia.
  - destruct (decide (i < Z.to_nat off)%nat) as [Hlt | Hge].
    + rewrite lookup_app_l by lia. apply lookup_take_lt. lia.
    + rewrite lookup_app_r by lia. rewrite Hl1.
      rewrite lookup_app_r by lia. rewrite Hl2, lookup_drop.
      f_equal. lia.
Qed.

(** ** Staging: [SetData] *)

Lemma staging_set_constantBuffers {E} (s : ISimpleShader E) cbs b i :
  staging (set_constantBuffers cbs s) b i
  = cb ← cbs !! b; LocalDataBuffer cb !! i.
Proof. reflexivity. Qed.

(** C1.  When the variable table maps [name] to a variable of size [S] at
    offset [O] of buffer [B] and the payload holds [size <= S] bytes,
    [SetData] returns true; afterwards the staging bytes [O .. O+size) of
    buffer [B] are the first [size] payload bytes and every other staging
    byte of every buffer is what it was. *)
Theorem SetData_copies_payload {E} (s : ISimpleShader E) name var data size :
  wf s ->
  varTable s !! name = Some var ->
  0 <= size <= Size var ->
  size <= Z.of_nat (length data) ->
  exists s',
    SetData name data size s = Some (true, s')
    /\ forall b i : nat,
        staging s' b i =
          if decide (b = Z.to_nat (ConstantBufferIndex var)
                     /\ (Z.to_nat (ByteOffset var) <= i
                         < Z.to_nat (ByteOffset var) + Z.to_nat size)%nat)
          then data !! (i - Z.to_nat (ByteOffset var))%nat
          else staging s b i.
Proof.
  intros (Hsized & Hvars & _) Hvar Hsize Hdata.
  pose proof (Hvars _ _ Hvar) as Hin. unfold var_in_bounds in Hin.
  destruct (constantBuffers s !! Z.to_nat (ConstantBufferIndex var))
    as [cb |] eqn:Hcb; [| done].
  destruct Hin as (Hoff & HS & Hfit).
  assert (Z.of_nat (length (LocalDataBuffer cb)) = cbSize cb) as Hlen.
  { eapply (proj1 (Forall_lookup _ _) Hsized); eauto. }
  pose proof (memcpy_defined (LocalDataBuffer cb) (ByteOffset var) data size)
    as Hcpy.
  unfold SetData, FindVariable. rewrite Hvar. simpl.
  destruct (Size var <? size) eqn:Hlt; [lia |].
  rewrite Hcb. simpl. rewrite Hcpy by lia. simpl.
  eexists. split; [reflexivity |].
  intros b i. rewrite staging_set_constantBuffers. unfold staging.
  destruct (decide (b = Z.to_nat (ConstantBufferIndex var))) as [-> | Hne].
  - rewrite list_lookup_insert_eq by (eapply lookup_lt_Some; eauto).
    rewrite Hcb. simpl.
    rewrite (memcpy_lookup _ _ _ _ _ i (Hcpy ltac:(lia) ltac:(lia) ltac:(lia) ltac:(lia))).
    repeat case_decide; try done; tauto.
  - rewrite list_lookup_insert_ne by done.
    case_decide as Hc; [tauto | done].
Qed.

(** C2.  When [name] is not in the variable table, or [size] exceeds the
    size of the variable it names, [SetData] returns false and the shader
    object, with all its staging arrays, is exactly what it was. *)
Theorem SetData_rejects {E} (s : ISimpleShader E) name data size :
  varTable s !! name = None
  \/ (exists var, varTable s !! name = Some var /\ Size var < size) ->
  SetData name data size s = Some (false, s).
Proof.
  intros Hcase.
  unfold SetData, FindVariable.
  destruct Hcase as [-> | (var & -> & Hlt)]; [done |]. simpl.
  destruct (Size var <? size) eqn:Hcmp; [done | lia].
Qed.

Lemma SetData_copies_payload_witness :
  exists s',
    SetData "color" sample_payload 3 sample_pixel_shader = Some (true, s')
    /\ staging s' 0 64 = Some Byte.x01
    /\ staging s' 0 66 = Some Byte.x03
    /\ staging s' 0 67 = staging sample_pixel_shader 0 67
    /\ staging s' 1 0 = staging sample_pixel_shader 1 0.
Proof.
  destruct (SetData_copies_payload sample_pixel_shader "color"
              {| ByteOffset := 64; Size := 16; ConstantBufferIndex := 0 |}
              sample_payload 3) as (s' & Hrun & Hbytes).
  - apply (bool_decide_unpack _). vm_compute. exact I.
  - vm_compute. reflexivity.
  - simpl. lia.
  - simpl. lia.
  - exists s'. split; [exact Hrun |].
    rewrite !Hbytes. repeat split; reflexivity.
Defined.

Lemma SetData_rejects_witness :
  SetData "missing" sample_payload 3 sample_pixel_shader
  = Some (false, sample_pixel_shader)
  /\ SetData "time" (sample_payload ++ sample_payload) 6 sample_pixel_shader
     = Some (false, sample_pixel_shader).
Proof.
  split.
  - apply SetData_rejects. left. vm_compute. reflexivity.
  - apply SetData_rejects. right.
    exists {| ByteOffset := 0; Size := 4; ConstantBufferIndex := 1 |}.
    split; [vm_compute; reflexivity | simpl; lia].
Defined.

(** ** Loading: when [CleanUp] is defined, and what the loops leave alone *)

Section LoadFrame.
Context {E : Type} `{ShaderClass E}.
Variable dev : Device.
Implicit Type s : ISimpleShader E.

(** Deleting the elements of a vector is defined when all are live. *)
Lemma mapM_delete {A} (l : list (ptr A)) :
  mapM delete l
  = if decide (Forall (fun p => is_live p = true) l)
    then Some ((fun _ => Dangling) <$> l)
    else None.
Proof.
  induction l as [| p l IH]; [done |].
  cbn [mapM]. rewrite IH. destruct p as [a |]; simpl.
  - destruct (decide (Forall (fun p => is_live p = true) l)) as [Hl | Hl]; simpl.
    + rewrite decide_True; [done | by constructor].
    + rewrite decide_False; [done |]. by intros [_ ?]%Forall_cons.
  - done.
Qed.

Lemma deleted_not_live {A} (l : list (ptr A)) :
  Forall (fun p : ptr A => is_live p = true) ((fun _ => Dangling) <$> l) ->
  l = [].
Proof. destruct l as [| p l]; [done |]. by intros [? _]%Forall_cons. Qed.

(** [CleanUp] in closed form. *)
Lemma CleanUp_unfreed s :
  unfreed s -> CleanUp s = Some (cleaned_up s (CleanUpDerived (derived s))).
Proof.
  intros (Ha & Hv & Hs). unfold CleanUp, delete_constantBuffers, cleaned_up.
  rewrite !mapM_delete, !decide_True by done.
  destruct (constantBuffersAlloc s); simpl; [by rewrite Ha | done | done].
Qed.

Lemma CleanUp_freed s : ~ unfreed s -> CleanUp s = None.
Proof.
  intros Hn. unfold CleanUp, delete_constantBuffers. rewrite !mapM_delete.
  destruct (constantBuffersAlloc s) eqn:Ha; simpl; [| | done].
  - destruct (constantBuffers s) eqn:Hc; simpl; [| done].
    repeat case_decide; simpl; try done.
    exfalso. apply Hn. unfold unfreed. by rewrite Ha.
  - repeat case_decide; simpl; try done.
    exfalso. apply Hn. unfold unfreed. by rewrite Ha.
Qed.

(** A second [CleanUp] right after the first is defined only on an object
    that owned nothing. *)
Lemma cleaned_up_unfreed s e :
  unfreed s -> unfreed (cleaned_up s e) -> holds_nothing s.
Proof.
  intros (Ha & _) (Ha' & Hv' & Hs'). simpl in *.
  apply deleted_not_live in Hv'. apply deleted_not_live in Hs'.
  unfold holds_nothing. by destruct (constantBuffersAlloc s).
Qed.

Lemma cleaned_up_nothing s e e' :
  holds_nothing s -> cleaned_up (cleaned_up s e) e' = cleaned_up s e'
                     /\ unfreed (cleaned_up s e).
Proof.
  intros (Ha & Hc & Hv & Hs). unfold cleaned_up, unfreed. simpl.
  rewrite Ha, Hv, Hs. simpl. by repeat split.
Qed.

(** [CreateShader] in closed form. *)
Lemma CreateShader_loadable blob s :
  loadable s ->
  CreateShader dev blob s
  = Some ((CreateShaderDerived dev blob (cleaned (derived s))).1.1,
          on_device (CreateShaderDerived dev blob (cleaned (derived s))).2
            (set_derived (CreateShaderDerived dev blob (cleaned (derived s))).1.2
               (cleaned_up s (cleaned (derived s))))).
Proof.
  intros (Hun & Htwice). unfold CreateShader, cleaned.
  rewrite (CleanUp_unfreed s Hun). simpl.
  destruct (CleanUpTwice (CleanUpDerived (derived s))) eqn:Ht.
  - destruct (cleaned_up_nothing s (CleanUpDerived (derived s))
                (CleanUpDerived (CleanUpDerived (derived s))) (Htwice eq_refl))
      as [Heq Hun'].
    rewrite (CleanUp_unfreed _ Hun'). simpl. rewrite Heq.
    by destruct (CreateShaderDerived _ _ _) as [[ok e'] calls].
  - simpl. by destruct (CreateShaderDerived _ _ _) as [[ok e'] calls].
Qed.

Lemma CreateShader_not_loadable blob s :
  ~ loadable s -> CreateShader dev blob s = None.
Proof.
  intros Hn. unfold CreateShader.
  destruct (decide (unfreed s)) as [Hun | Hun];
    [| by rewrite (CleanUp_freed s Hun)].
  rewrite (CleanUp_unfreed s Hun). simpl.
  destruct (CleanUpTwice (CleanUpDerived (derived s))) eqn:Ht.
  - rewrite CleanUp_freed; [done |]. intros Hun'.
    apply Hn. split; [done |]. intros _. by eapply cleaned_up_unfreed.
  - exfalso. apply Hn. split; [done |]. congruence.
Qed.

Lemma load_resources_frame rds s :
  let s' := fold_left (fun acc rd => load_resource rd acc) rds s in
  shaderValid s' = shaderValid s /\ derived s' = derived s
  /\ constantBuffers s' = constantBuffers s /\ varTable s' = varTable s
  /\ cbTable s' = cbTable s /\ contextCalls s' = contextCalls s.
Proof.
  revert s. induction rds as [| rd rds IH]; intros s; simpl; [done |].
  destruct (IH (load_resource rd s)) as (-> & -> & -> & -> & -> & ->).
  unfold load_resource. by destruct (bindType rd).
Qed.

Lemma load_buffer_frame refl b bd s :
  let s' := load_buffer dev refl b bd s in
  shaderValid s' = shaderValid s /\ derived s' = derived s
  /\ contextCalls s' = contextCalls s
  /\ shaderResourceViews s' = shaderResourceViews s
  /\ samplerStates s' = samplerStates s
  /\ textureTable s' = textureTable s /\ samplerTable s' = samplerTable s.
Proof.
  unfold load_buffer. by destruct (fold_left _ _ _).
Qed.

Lemma load_buffers_frame refl bds b s :
  let s' := load_buffers dev refl b bds s in
  shaderValid s' = shaderValid s /\ derived s' = derived s
  /\ contextCalls s' = contextCalls s
  /\ shaderResourceViews s' = shaderResourceViews s
  /\ samplerStates s' = samplerStates s
  /\ textureTable s' = textureTable s /\ samplerTable s' = samplerTable s.
Proof.
  revert b s. induction bds as [| bd bds IH]; intros b s; simpl; [done |].
  destruct (IH (S b) (load_buffer dev refl b bd s))
    as (-> & -> & -> & -> & -> & -> & ->).
  apply load_buffer_frame.
Qed.

Lemma load_resources_alloc rds s :
  constantBuffersAlloc (fold_left (fun acc rd => load_resource rd acc) rds s)
  = constantBuffersAlloc s.
Proof.
  revert s. induction rds as [| rd rds IH]; intros s; simpl; [done |].
  rewrite IH. unfold load_resource. by destruct (bindType rd).
Qed.

Lemma load_buffers_alloc refl bds b s :
  constantBuffersAlloc (load_buffers dev refl b bds s) = constantBuffersAlloc s.
Proof.
  revert b s. induction bds as [| bd bds IH]; intros b s; simpl; [done |].
  rewrite IH. unfold load_buffer. by destruct (fold_left _ _ _).
Qed.

Lemma load_loops_frame refl s :
  let s' := load_buffers dev refl 0 (ConstantBuffers refl)
              (fold_left (fun acc rd => load_resource rd acc)
                 (BoundResources refl) s) in
  shaderValid s' = shaderValid s /\ derived s' = derived s
  /\ contextCalls s' = contextCalls s.
Proof.
  simpl.
  destruct (load_buffers_frame refl (ConstantBuffers refl) 0%nat
              (fold_left (fun acc rd => load_resource rd acc)
                 (BoundResources refl) s)) as (-> & -> & -> & _).
  by destruct (load_resources_frame (BoundResources refl) s)
    as (-> & -> & _ & _ & _ & ->).
Qed.

(** [LoadShaderFile] in closed form: what it returns when the file cannot
    be read, when [CreateShader] cannot clean up, and otherwise. *)
Lemma LoadShaderFile_unreadable file s :
  D3DReadFileToBlob dev file = None ->
  LoadShaderFile dev file s = Some (false, s).
Proof. intros Hread. unfold LoadShaderFile. by rewrite Hread. Qed.

Lemma LoadShaderFile_not_loadable file s blob :
  D3DReadFileToBlob dev file = Some blob -> ~ loadable s ->
  LoadShaderFile dev file s = None.
Proof.
  intros Hread Hn. unfold LoadShaderFile. rewrite Hread.
  by rewrite CreateShader_not_loadable.
Qed.

Lemma LoadShaderFile_loadable file s blob :
  D3DReadFileToBlob dev file = Some blob -> loadable s ->
  let created := CreateShaderDerived dev blob (cleaned (derived s)) in
  let s2 := set_shaderValid created.1.1
              (on_device created.2
                 (set_derived created.1.2
                    (cleaned_up (set_shaderBlob (Some blob) s)
                       (cleaned (derived s))))) in
  LoadShaderFile dev file s
  = Some (if created.1.1
          then (true,
                load_buffers dev (D3DReflect blob) 0
                  (ConstantBuffers (D3DReflect blob))
                  (fold_left (fun acc rd => load_resource rd acc)
                     (BoundResources (D3DReflect blob))
                     (new_constantBuffers s2)))
          else (false, s2)).
Proof.
  intros Hread Hl. simpl. unfold LoadShaderFile. rewrite Hread.
  rewrite (CreateShader_loadable blob (set_shaderBlob (Some blob) s) Hl).
  simpl. by destruct (CreateShaderDerived dev blob _) as [[[] e'] calls].
Qed.

(** A load that returns has read the file or left the object alone. *)
Lemma LoadShaderFile_returns file s r :
  LoadShaderFile dev file s = Some r ->
  (D3DReadFileToBlob dev file = None /\ r = (false, s))
  \/ (exists blob, D3DReadFileToBlob dev file = Some blob /\ loadable s).
Proof.
  intros Hload.
  destruct (D3DReadFileToBlob dev file) as [blob |] eqn:Hread.
  - right. exists blob. split; [done |].
    destruct (decide (loadable s)) as [Hl | Hl]; [done |].
    by rewrite (LoadShaderFile_not_loadable file s blob Hread Hl) in Hload.
  - left. rewrite (LoadShaderFile_unreadable file s Hread) in Hload.
    by injection Hload as <-.
Qed.

(** A load that returns true could clean up, created the shader object
    and ran its two loops on the cleaned-up object with a new array. *)
Lemma LoadShaderFile_true file s0 blob s :
  D3DReadFileToBlob dev file = Some blob ->
  LoadShaderFile dev file s0 = Some (true, s) ->
  let created := CreateShaderDerived dev blob (cleaned (derived s0)) in
  loadable s0 /\ created.1.1 = true
  /\ s = load_buffers dev (D3DReflect blob) 0
           (ConstantBuffers (D3DReflect blob))
           (fold_left (fun acc rd => load_resource rd acc)
              (BoundResources (D3DReflect blob))
              (new_constantBuffers
                 (set_shaderValid true
                    (on_device created.2
                       (set_derived created.1.2
                          (cleaned_up (set_shaderBlob (Some blob) s0)
                             (cleaned (derived s0)))))))).
Proof.
  intros Hread Hload. simpl.
  destruct (LoadShaderFile_returns file s0 _ Hload)
    as [[Hnone _] | (blob' & Hread' & Hl)]; [congruence |].
  split; [done |].
  rewrite (LoadShaderFile_loadable file s0 blob Hread Hl) in Hload.
  destruct (CreateShaderDerived dev blob _) as [[[] e'] calls];
    simpl in *; [| done].
  by injection Hload as <-.
Qed.

(** [LoadShaderFile] returns the validity flag it leaves in the object,
    when it is run on an object that is not valid yet. *)
Lemma LoadShaderFile_result file s ok s' :
  LoadShaderFile dev file s = Some (ok, s') ->
  shaderValid s = false -> shaderValid s' = ok.
Proof.
  intros Hload Hs.
  destruct (LoadShaderFile_returns file s _ Hload)
    as [[_ [= -> ->]] | (blob & Hread & Hl)]; [done |].
  rewrite (LoadShaderFile_loadable file s blob Hread Hl) in Hload.
  destruct (CreateShaderDerived dev blob _) as [[[] e'] calls];
    simpl in Hload; injection Hload as <- <-; [| done].
  by destruct (load_loops_frame (D3DReflect blob)
                 (new_constantBuffers
                    (set_shaderValid true
                       (on_device calls
                          (set_derived e'
                             (cleaned_up (set_shaderBlob (Some blob) s)
                                (cleaned (derived s)))))))) as (-> & _).
Qed.

(** A new object owns nothing, so its constructor's load is defined. *)
Lemma new_loadable (e : E) : loadable (ISimpleShader_new e).
Proof. by repeat split. Qed.

Lemma LoadShaderFile_new file (e : E) :
  exists ok,
    LoadShaderFile dev file (ISimpleShader_new e)
    = Some (ok, construct dev file e).
Proof.
  unfold construct.
  destruct (D3DReadFileToBlob dev file) as [blob |] eqn:Hread.
  - rewrite (LoadShaderFile_loadable file _ blob Hread (new_loadable e)).
    destruct (CreateShaderDerived dev blob _) as [[[] e'] calls]; by eexists.
  - rewrite (LoadShaderFile_unreadable file _ Hread). by eexists.
Qed.

Lemma construct_load file (e : E) ok s :
  LoadShaderFile dev file (ISimpleShader_new e) = Some (ok, s) ->
  construct dev file e = s.
Proof. unfold construct. by intros ->. Qed.

(** The constructed object in closed form. *)
Lemma construct_unreadable file (e : E) :
  D3DReadFileToBlob dev file = None ->
  construct dev file e = ISimpleShader_new e.
Proof.
  intros Hread. apply (construct_load file e false).
  by apply LoadShaderFile_unreadable.
Qed.

Lemma construct_readable file blob (e : E) :
  D3DReadFileToBlob dev file = Some blob ->
  let created := CreateShaderDerived dev blob (cleaned e) in
  let s2 := set_shaderValid created.1.1
              (on_device created.2
                 (set_derived created.1.2
                    (cleaned_up (set_shaderBlob (Some blob) (ISimpleShader_new e))
                       (cleaned e)))) in
  construct dev file e
  = if created.1.1
    then load_buffers dev (D3DReflect blob) 0
           (ConstantBuffers (D3DReflect blob))
           (fold_left (fun acc rd => load_resource rd acc)
              (BoundResources (D3DReflect blob))
              (new_constantBuffers s2))
    else s2.
Proof.
  intros Hread. simpl. unfold construct.
  rewrite (LoadShaderFile_loadable file _ blob Hread (new_loadable e)).
  simpl. by destruct (CreateShaderDerived dev blob _) as [[[] e'] calls].
Qed.

(** The validity flag and the subclass members of a constructed object
    are those that [CreateShader] produced. *)
Lemma construct_created file blob (e : E) :
  D3DReadFileToBlob dev file = Some blob ->
  shaderValid (construct dev file e)
  = (CreateShaderDerived dev blob (cleaned e)).1.1
  /\ derived (construct dev file e)
     = (CreateShaderDerived dev blob (cleaned e)).1.2.
Proof.
  intros Hread. rewrite (construct_readable file blob e Hread).
  destruct (CreateShaderDerived dev blob _) as [[[] e'] calls]; simpl; [| done].
  match goal with |- context [new_constantBuffers ?s] =>
    by destruct (load_loops_frame (D3DReflect blob) (new_constantBuffers s))
      as (-> & -> & _) end.
Qed.

(** A failed load behind the constructor leaves a blank program. *)
Lemma failed_load_blank file (e : E) :
  shaderValid (construct dev file e) = false ->
  blank (construct dev file e).
Proof.
  destruct (LoadShaderFile_new file e) as [ok Hload].
  rewrite (LoadShaderFile_result _ _ _ _ Hload eq_refl). intros ->.
  destruct (LoadShaderFile_returns _ _ _ Hload)
    as [[_ [= ->]] | (blob & Hread & Hl)]; [by repeat split |].
  rewrite (LoadShaderFile_loadable file _ blob Hread Hl) in Hload.
  destruct (CreateShaderDerived dev blob _) as [[[] e'] calls];
    simpl in Hload; [done |].
  injection Hload as <-. by repeat split.
Qed.

(** On a blank program every base-class operation returns a negative
    result and leaves the object as it is. *)
Lemma blank_exec s c :
  blank s -> exists r, exec c s = Some (r, s) /\ negative r.
Proof.
  intros (Hv & Hcb & Hsrv & Hsamp & Hvar & Hcbt & Htex & Hst).
  destruct c; unfold exec, ret_bool, SetInt, SetFloat, SetFloat2, SetFloat3,
    SetFloat4, SetMatrix4x4, SetData, FindVariable, SetShader,
    CopyAllBufferData, CopyBufferData, CopyBufferData_name,
    HasVariable, HasShaderResourceView, HasSamplerState, GetVariableInfo,
    FindVariable, GetShaderResourceViewInfo, GetShaderResourceViewInfo_index,
    GetSamplerInfo, GetSamplerInfo_index, GetBufferCount, constantBufferCount,
    GetBufferSize, GetBufferInfo, FindConstantBuffer, GetBufferInfo_index,
    SetShaderResourceView, SetSamplerState, GetShaderResourceViewInfo,
    GetSamplerInfo;
    rewrite ?Hv, ?Hcb, ?Hsrv, ?Hsamp, ?Hvar, ?Hcbt, ?Htex, ?Hst,
      ?lookup_empty; simpl;
    try (eexists; split; [reflexivity | simpl; try done]).
  all: try (case_decide; [done | simpl in *; lia]).
  all: try (apply bool_decide_eq_false; by intros [? ?]).
Qed.
End LoadFrame.

(** ** Invalid programs *)

(** C3, as the code has it.  A program whose load failed behind its
    constructor answers every base-class operation, and the compute and
    geometry operations that test a table or the validity flag, with a
    negative result and is left as it was: no staging byte, table or call
    log changes.  The two dispatch operations and [UnbindStreamOutStage]
    never look at the validity flag and always issue their call on the
    device context. *)
Theorem invalid_program_is_inert :
  (forall E (C : ShaderClass E) dev file (e : E) (c : Call),
      let s := construct dev file e in
      shaderValid s = false ->
      exists r, exec c s = Some (r, s) /\ negative r)
  /\ (forall dev file oor name uav offset,
         let s := SimpleComputeShader_new dev file in
         shaderValid s = false ->
         exec_compute oor (CallHasUnorderedAccessView name) s = (RBool false, s)
         /\ exec_compute oor (CallSetUnorderedAccessView name uav offset) s
            = (RBool false, s))
  /\ (forall dev dev' file streamOut allowRast vertexCount,
         let s := SimpleGeometryShader_new dev file streamOut allowRast in
         shaderValid s = false ->
         exec_geometry dev' (CallCreateCompatibleStreamOutBuffer vertexCount) s
         = (RBool false, s))
  /\ (forall oor (s : ISimpleShader ComputeData) x y z,
         contextCalls (DispatchByGroups x y z s)
         = contextCalls s ++ [Dispatch x y z]
         /\ exists gx gy gz,
             contextCalls (DispatchByThreads oor x y z s)
             = contextCalls s ++ [Dispatch gx gy gz])
  /\ (forall s : ISimpleShader GeometryData,
         contextCalls (UnbindStreamOutStage s) = contextCalls s ++ [SOSetTargets 4]).
Proof.
  split; [| split; [| split; [| split]]].
  - intros E C dev file e c s Hinv. apply blank_exec.
    by apply failed_load_blank.
  - intros dev file oor name uav offset s Hinv.
    assert (uavTable (derived s) = ∅) as Huav.
    { revert Hinv. unfold s, SimpleComputeShader_new.
      destruct (D3DReadFileToBlob dev file) as [blob |] eqn:Hread;
        [| by rewrite (construct_unreadable dev file _ Hread)].
      destruct (construct_created dev file blob
                  {| csShader := None; threadsX := 0; threadsY := 0;
                     threadsZ := 0; threadsTotal := 0; uavTable := ∅ |} Hread)
        as [-> ->].
      cbn. unfold Compute_CreateShader.
      destruct (deviceCreate dev _); [| done].
      by destruct (ThreadGroupSize _) as [[? ?] ?]. }
    unfold exec_compute, SetUnorderedAccessView, HasUnorderedAccessView,
      GetUnorderedAccessViewIndex.
    rewrite Huav, lookup_empty. done.
  - intros dev dev' file streamOut allowRast vertexCount s Hinv.
    unfold exec_geometry, CreateCompatibleStreamOutBuffer.
    rewrite Hinv. simpl. by rewrite orb_true_r.
  - intros oor s x y z. split; [done |]. by eexists _, _, _.
  - done.
Qed.

Lemma invalid_program_is_inert_witness :
  shaderValid (SimplePlainShader_new PS rejecting_device "PixelShader.cso") = false
  /\ exists r,
      exec (CallSetFloat "time" [Byte.x00; Byte.x00; Byte.x00; Byte.x00])
        (SimplePlainShader_new PS rejecting_device "PixelShader.cso")
      = Some (r, SimplePlainShader_new PS rejecting_device "PixelShader.cso")
      /\ negative r.
Proof.
  split; [reflexivity |].
  destruct invalid_program_is_inert as (Hbase & _).
  apply (Hbase (PlainData PS) SimplePixelShader rejecting_device
           "PixelShader.cso" {| plainShader := None |}).
  reflexivity.
Defined.

(** C3 as stated fails: on an invalid compute program both dispatch
    operations reach the device context. *)
Lemma invalid_program_dispatch_counterexample :
  shaderValid invalid_compute_shader = false
  /\ contextCalls invalid_compute_shader = []
  /\ contextCalls (DispatchByGroups 4 1 1 invalid_compute_shader)
     = [Dispatch 4 1 1]
  /\ contextCalls (DispatchByThreads (fun _ => 0) 8 8 8 invalid_compute_shader)
     = [Dispatch 1 1 1].
Proof. vm_compute. repeat split; reflexivity. Qed.

(** ** Compute: dispatch arithmetic *)

Lemma max_macro_lower a b : b <= max_macro a b.
Proof. unfold max_macro. destruct (b <? a) eqn:Hc; lia. Qed.

Lemma group_count_at_least_1 oor t g : 1 <= group_count oor t g.
Proof. apply max_macro_lower. Qed.

(** On everyday inputs the single-precision computation is the
    specified one. *)
Lemma group_count_small_inputs oor : agree_below oor 256 32 = true.
Proof. vm_compute. reflexivity. Qed.

(** C4.  [DispatchByThreads] issues one [Dispatch] whose three counts are
    computed per axis and are at least 1 whatever the per-group size
    (zero included); with (5,2,2) threads per group and (10,3,3) threads
    wanted the counts are (2,2,2).  The count is computed in single
    precision and is not [max(ceil(t/g), 1)] for every input: with 1024
    threads per group and 16777217 threads wanted it is 16384, one less,
    so fewer threads than wanted are launched. *)
Theorem DispatchByThreads_group_counts :
  (forall oor tX tY tZ (s : ISimpleShader ComputeData),
      exists gx gy gz,
        contextCalls (DispatchByThreads oor tX tY tZ s)
        = contextCalls s ++ [Dispatch gx gy gz]
        /\ gx = group_count oor tX (threadsX (derived s))
        /\ gy = group_count oor tY (threadsY (derived s))
        /\ gz = group_count oor tZ (threadsZ (derived s))
        /\ 1 <= gx /\ 1 <= gy /\ 1 <= gz)
  /\ (forall oor,
         (threadsX (derived sample_compute_shader),
          threadsY (derived sample_compute_shader),
          threadsZ (derived sample_compute_shader)) = (5, 2, 2)
         /\ contextCalls (DispatchByThreads oor 10 3 3 sample_compute_shader)
            = [Dispatch 2 2 2])
  /\ (forall oor,
         threadsX (derived wide_compute_shader) = 1024
         /\ contextCalls (DispatchByThreads oor 16777217 1 1 wide_compute_shader)
            = [Dispatch 16384 1 1]
         /\ group_count_spec 16777217 1024 = 16385
         /\ 16384 * 1024 < 16777217).
Proof.
  split; [| split].
  - intros oor tX tY tZ s. eexists _, _, _.
    split; [reflexivity |].
    repeat split; apply group_count_at_least_1.
  - intros oor. split; reflexivity.
  - intros oor. repeat split.
Qed.

(** ** Vertex: input-layout synthesis *)

Lemma substring_all s : substring 0 (String.length s) s = s.
Proof. induction s as [| c s IH]; simpl; [done | by rewrite IH]. Qed.

Lemma substring_append_r pre suf :
  substring (String.length pre) (String.length suf) (pre ++ suf)%string = suf.
Proof. induction pre as [| c pre IH]; simpl; [apply substring_all | done]. Qed.

Lemma string_length_append (a b : string) :
  String.length (a ++ b)%string = (String.length a + String.length b)%nat.
Proof. induction a as [| c a IH]; simpl; [done | by rewrite IH]. Qed.

Lemma substring_split (n : nat) s :
  (n <= String.length s)%nat ->
  s = (substring 0 n s ++ substring n (String.length s - n) s)%string.
Proof.
  revert s. induction n as [| n IH]; intros s Hn.
  - rewrite Nat.sub_0_r, substring_all. by destruct s.
  - destruct s as [| c s]; simpl in *; [lia |].
    transitivity
      (String c (substring 0 n s ++ substring n (String.length s - n) s)%string);
      [| reflexivity].
    f_equal. apply IH. lia.
Qed.

(** The test of the source is the suffix test. *)
Lemma isPerInstance_spec sem :
  isPerInstance sem = true <-> ends_with perInstanceStr sem.
Proof.
  unfold isPerInstance, ends_with. split.
  - intros [Hlen Heq]%andb_prop.
    apply Z.leb_le in Hlen. apply String.eqb_eq in Heq.
    set (n := (String.length sem - String.length perInstanceStr)%nat).
    replace (Z.to_nat _) with n in Heq by lia.
    pose proof (substring_split n sem ltac:(lia)) as Hsplit.
    replace (String.length sem - n)%nat
      with (String.length perInstanceStr) in Hsplit by lia.
    rewrite Heq in Hsplit. by exists (substring 0 n sem).
  - intros [pre ->]. rewrite string_length_append.
    apply andb_true_intro. split; [apply Z.leb_le; lia |].
    apply String.eqb_eq.
    replace (Z.to_nat _) with (String.length pre) by lia.
    apply substring_append_r.
Qed.

Lemma layout_fold params acc flag :
  fold_left layout_step params (acc, flag)
  = (acc ++ (input_element <$> params),
     flag || existsb (fun p => isPerInstance (SemanticName p)) params).
Proof.
  revert acc flag. induction params as [| p params IH]; intros acc flag; simpl.
  - by rewrite app_nil_r, orb_false_r.
  - unfold layout_step at 2. simpl. rewrite IH, <- app_assoc. simpl.
    f_equal. destruct (isPerInstance (SemanticName p)); simpl; [| done].
    by rewrite orb_true_r.
Qed.

Lemma build_input_layout_spec params flag :
  build_input_layout params flag
  = (input_element <$> params,
     flag || existsb (fun p => isPerInstance (SemanticName p)) params).
Proof. apply layout_fold. Qed.

Lemma input_element_slot p :
  (ends_with perInstanceStr (SemanticName p) ->
   InputSlot (input_element p) = 1
   /\ InputSlotClass (input_element p) = D3D11_INPUT_PER_INSTANCE_DATA
   /\ InstanceDataStepRate (input_element p) = 1)
  /\ (~ ends_with perInstanceStr (SemanticName p) ->
      InputSlot (input_element p) = 0
      /\ InputSlotClass (input_element p) = D3D11_INPUT_PER_VERTEX_DATA
      /\ InstanceDataStepRate (input_element p) = 0).
Proof.
  unfold input_element. simpl.
  destruct (isPerInstance (SemanticName p)) eqn:Hper.
  - apply isPerInstance_spec in Hper. split; [done | tauto].
  - split; [| done]. intros Hends%isPerInstance_spec. congruence.
Qed.

(** C5.  When the vertex shader object is created and no input layout was
    supplied, the layout requested from the device has one element per
    input parameter, in order; an element is on slot 1 with the
    per-instance class and step rate 1 when its semantic name ends with
    the marker, and on slot 0 with the per-vertex class and step rate 0
    when it does not; the instancing flag is true afterwards exactly when
    it was true before or some parameter is per-instance. *)
Theorem input_layout_synthesis dev blob e h :
  deviceCreate dev (CreateShaderCall VS blob) = Some h ->
  inputLayout e = None ->
  let params := InputParameters (D3DReflect blob) in
  exists descs e',
    Vertex_CreateShader dev blob e
    = (true, e', [CreateShaderCall VS blob; CreateInputLayoutCall descs blob])
    /\ length descs = length params
    /\ (forall (i : nat) p,
           params !! i = Some p ->
           exists d,
             descs !! i = Some d
             /\ elSemanticName d = SemanticName p
             /\ (ends_with perInstanceStr (SemanticName p) ->
                 InputSlot d = 1
                 /\ InputSlotClass d = D3D11_INPUT_PER_INSTANCE_DATA
                 /\ InstanceDataStepRate d = 1)
             /\ (~ ends_with perInstanceStr (SemanticName p) ->
                 InputSlot d = 0
                 /\ InputSlotClass d = D3D11_INPUT_PER_VERTEX_DATA
                 /\ InstanceDataStepRate d = 0))
    /\ (perInstanceCompatible e' = true <->
        perInstanceCompatible e = true
        \/ exists p, p ∈ params /\ ends_with perInstanceStr (SemanticName p)).
Proof.
  intros Hcreate Hnone params.
  unfold Vertex_CreateShader. rewrite Hcreate, Hnone.
  rewrite build_input_layout_spec. fold params.
  eexists _, _. split; [reflexivity |]. simpl.
  split; [by rewrite length_fmap |]. split.
  - intros i p Hp. exists (input_element p).
    rewrite list_lookup_fmap, Hp. split; [done |]. split; [done |].
    apply input_element_slot.
  - rewrite orb_true_iff, existsb_exists.
    split; (intros [Hflag | (p & Hin & Hper)]; [by left | right; exists p]).
    + split; [by apply list_elem_of_In | by apply isPerInstance_spec].
    + split; [by apply list_elem_of_In | by apply isPerInstance_spec].
Qed.

Lemma input_layout_synthesis_witness :
  exists descs e',
    Vertex_CreateShader good_device sample_blob
      {| vsShader := None; inputLayout := None; perInstanceCompatible := false |}
    = (true, e',
       [CreateShaderCall VS sample_blob; CreateInputLayoutCall descs sample_blob])
    /\ InputSlot <$> descs = [0; 1]
    /\ perInstanceCompatible e' = true.
Proof.
  destruct (input_layout_synthesis good_device sample_blob
              {| vsShader := None; inputLayout := None;
                 perInstanceCompatible := false |} 1%nat)
    as (descs & e' & Hrun & _).
  - reflexivity.
  - reflexivity.
  - exists descs, e'. split; [exact Hrun |].
    vm_compute in Hrun. injection Hrun as <- <-. split; reflexivity.
Defined.

(** ** Geometry: the stream-output declaration *)

Lemma CalcComponentCount_range mask : 0 <= CalcComponentCount mask <= 4.
Proof.
  unfold CalcComponentCount, b2z.
  repeat match goal with |- context [if ?c then _ else _] => destruct c end; lia.
Qed.

Lemma CalcComponentCount_popcount mask :
  0 <= mask < 16 -> CalcComponentCount mask = popcount mask.
Proof.
  intros Hm.
  assert (mask = 0 \/ mask = 1 \/ mask = 2 \/ mask = 3 \/ mask = 4 \/ mask = 5
          \/ mask = 6 \/ mask = 7 \/ mask = 8 \/ mask = 9 \/ mask = 10
          \/ mask = 11 \/ mask = 12 \/ mask = 13 \/ mask = 14 \/ mask = 15)
    as Hcases by lia.
  repeat (destruct Hcases as [-> | Hcases]; [reflexivity |]).
  by subst.
Qed.

Lemma popcount_range mask : 0 <= mask < 16 -> 0 <= popcount mask <= 4.
Proof.
  intros Hm. rewrite <- CalcComponentCount_popcount by done.
  apply CalcComponentCount_range.
Qed.

Lemma stride_spec_nonneg params :
  Forall (fun p => 0 <= Mask p < 16) params -> 0 <= stride_spec params.
Proof.
  induction 1 as [| p params Hp _ IH]; simpl; [done |].
  pose proof (popcount_range _ Hp). lia.
Qed.

Lemma so_fold params acc size :
  Forall (fun p => 0 <= Mask p < 16) params ->
  0 <= size -> size + stride_spec params < 2 ^ 32 ->
  fold_left so_step params (acc, size)
  = (acc ++ (so_entry <$> params), size + stride_spec params).
Proof.
  intros Hmasks. revert acc size.
  induction Hmasks as [| p params Hp Hmasks IH]; intros acc size Hsize Hfit;
    simpl in *.
  - by rewrite app_nil_r, Z.add_0_r.
  - pose proof (popcount_range _ Hp) as Hpc.
    pose proof (stride_spec_nonneg _ Hmasks) as Hnn.
    unfold so_step at 2. simpl.
    rewrite (CalcComponentCount_popcount _ Hp).
    unfold u32. rewrite Z.mod_small by lia.
    rewrite IH by lia. rewrite <- app_assoc. simpl. f_equal. lia.
Qed.

Lemma so_fold_entries params acc size :
  (fold_left so_step params (acc, size)).1 = acc ++ (so_entry <$> params).
Proof.
  revert acc size. induction params as [| p params IH]; intros acc size; simpl.
  - by rewrite app_nil_r.
  - unfold so_step at 2. simpl. rewrite IH, <- app_assoc. done.
Qed.

Lemma CalcComponentCount_low_bits mask :
  CalcComponentCount mask = popcount (Z.land mask 15).
Proof.
  assert (0 <= Z.land mask 15 < 16) as Hlow.
  { split; [apply Z.land_nonneg; lia |].
    assert (Z.land mask 15 <= 15); [| lia].
    change 15 with (Z.ones 4) at 1.
    rewrite Z.land_ones by lia.
    pose proof (Z.mod_pos_bound mask (2 ^ 4)). lia. }
  rewrite <- (CalcComponentCount_popcount _ Hlow).
  unfold CalcComponentCount.
  by rewrite <- !Z.land_assoc.
Qed.

(** The derived members after the constructor's load are those that
    [CreateShader] produced. *)
Lemma constructor_derived {E} `{ShaderClass E} dev file blob (e : E) :
  D3DReadFileToBlob dev file = Some blob ->
  derived (construct dev file e)
  = (CreateShaderDerived dev blob (cleaned e)).1.2.
Proof. intros Hread. by destruct (construct_created dev file blob e Hread). Qed.

(** C6.  A geometry program built with stream output asks the device for
    a declaration with one entry per output parameter, in order, whose
    component count is the number of set bits among the four component
    bits of the mask, between 0 and 4; for four-bit masks the stride it
    records is the sum of four bytes per set bit (as long as that sum is
    an [unsigned int]). *)
Theorem stream_out_declaration dev file blob allowRast :
  D3DReadFileToBlob dev file = Some blob ->
  let params := OutputParameters (D3DReflect blob) in
  let e := {| gsShader := None; useStreamOut := true;
              allowStreamOutRasterization := allowRast;
              streamOutVertexSize := 0 |} in
  let s := SimpleGeometryShader_new dev file true allowRast in
  (exists ok e' decl rast,
      Geometry_CreateShader dev blob e
      = (ok, e', [CreateGeometryShaderWithStreamOutputCall blob decl rast])
      /\ derived s = e'
      /\ length decl = length params
      /\ forall (i : nat) p,
          params !! i = Some p ->
          exists en,
            decl !! i = Some en
            /\ soSemanticName en = SemanticName p
            /\ soSemanticIndex en = SemanticIndex p
            /\ ComponentCount en = popcount (Z.land (Mask p) 15)
            /\ 0 <= ComponentCount en <= 4)
  /\ (Forall (fun p => 0 <= Mask p < 16) params ->
      stride_spec params < 2 ^ 32 ->
      streamOutVertexSize (derived s) = stride_spec params).
Proof.
  intros Hread params e s.
  assert (derived s = (Geometry_CreateShader dev blob e).1.2) as Hderived.
  { unfold s, SimpleGeometryShader_new.
    by rewrite (constructor_derived dev file blob _ Hread). }
  rewrite Hderived. unfold Geometry_CreateShader, CreateShaderWithStreamOut.
  simpl. unfold build_so_declaration. fold params.
  pose proof (so_fold_entries params [] 0) as Hentries.
  split.
  - destruct (fold_left so_step params ([], 0)) as [decl size]. simpl in *.
    subst decl. eexists _, _, _, _. split; [reflexivity |].
    split; [reflexivity |]. split; [by rewrite length_fmap |].
    intros i p Hp. exists (so_entry p).
    rewrite list_lookup_fmap, Hp. simpl.
    repeat split; try apply CalcComponentCount_range.
    apply CalcComponentCount_low_bits.
  - intros Hmasks Hfit.
    rewrite (so_fold params [] 0 Hmasks) by lia. simpl. lia.
Qed.

Lemma stream_out_declaration_witness :
  streamOutVertexSize
    (derived (SimpleGeometryShader_new good_device "Geometry.cso" true false))
  = 24.
Proof.
  destruct (stream_out_declaration good_device "Geometry.cso" sample_blob false)
    as (_ & Hstride).
  - reflexivity.
  - rewrite Hstride; [reflexivity | | reflexivity].
    apply (bool_decide_unpack _). vm_compute. exact I.
Defined.

(** ** Loading: the tables and the buffer store *)

Section InsertPair.
Context {V : Type}.
Implicit Type m : gmap string V.

Lemma map_insert_pair_old k v m k' v' :
  m !! k' = Some v' -> map_insert_pair k v m !! k' = Some v'.
Proof.
  intros Hk'. unfold map_insert_pair.
  destruct (m !! k) eqn:Hk; [done |].
  rewrite lookup_insert_ne; [done | congruence].
Qed.

Lemma map_insert_pair_new k v m :
  m !! k = None -> map_insert_pair k v m !! k = Some v.
Proof.
  intros Hk. unfold map_insert_pair. rewrite Hk. apply lookup_insert_eq.
Qed.

Lemma map_insert_pair_ne k v m k' :
  k <> k' -> map_insert_pair k v m !! k' = m !! k'.
Proof.
  intros Hne. unfold map_insert_pair.
  destruct (m !! k); [done |]. by apply lookup_insert_ne.
Qed.

Lemma map_insert_pair_Forall (P : string -> V -> Prop) k v m :
  map_Forall P m -> P k v -> map_Forall P (map_insert_pair k v m).
Proof.
  intros Hm Hkv. unfold map_insert_pair.
  destruct (m !! k); [done |]. by apply map_Forall_insert_2.
Qed.
End InsertPair.

Section LoadTables.
Context {E : Type} `{ShaderClass E}.
Variable dev : Device.
Implicit Type s : ISimpleShader E.

Lemma load_variables_buffer b vds m cb :
  cbSize (fold_left (load_variable b) vds (m, cb)).2 = cbSize cb
  /\ LocalDataBuffer (fold_left (load_variable b) vds (m, cb)).2
     = LocalDataBuffer cb.
Proof.
  revert m cb. induction vds as [| vd vds IH]; intros m cb; simpl; [done |].
  unfold load_variable at 2 4. simpl.
  destruct (IH (map_insert_pair (varName vd) (varStruct b vd) m)
              (push_Variable (varStruct b vd) cb)) as [-> ->]. done.
Qed.

Lemma load_variables_old b vds m cb name v :
  m !! name = Some v ->
  (fold_left (load_variable b) vds (m, cb)).1 !! name = Some v.
Proof.
  revert m cb. induction vds as [| vd vds IH]; intros m cb Hm; simpl; [done |].
  apply IH. simpl. by apply map_insert_pair_old.
Qed.

Lemma load_variables_other b vds m cb name :
  name ∉ varName <$> vds ->
  (fold_left (load_variable b) vds (m, cb)).1 !! name = m !! name.
Proof.
  revert m cb. induction vds as [| vd vds IH]; intros m cb Hnot; simpl; [done |].
  rewrite fmap_cons, not_elem_of_cons in Hnot. destruct Hnot as [Hne Hnot].
  etrans; [by apply IH |]. simpl. by apply map_insert_pair_ne.
Qed.

Lemma load_variables_new b vds m cb vd :
  NoDup (varName <$> vds) -> vd ∈ vds -> m !! varName vd = None ->
  (fold_left (load_variable b) vds (m, cb)).1 !! varName vd
  = Some (varStruct b vd).
Proof.
  revert m cb. induction vds as [| vd' vds IH]; intros m cb Hnd Hin Hm; simpl.
  - by apply elem_of_nil in Hin.
  - rewrite fmap_cons, NoDup_cons in Hnd. destruct Hnd as [Hfresh Hnd].
    apply elem_of_cons in Hin as [-> | Hin].
    + apply load_variables_old. simpl. by apply map_insert_pair_new.
    + apply IH; [done | done |]. simpl.
      rewrite map_insert_pair_ne; [done |].
      intros Heq. apply Hfresh. rewrite Heq.
      by apply list_elem_of_fmap_2.
Qed.

Lemma load_variables_Forall (P : string -> SimpleShaderVariable -> Prop)
    b vds m cb :
  map_Forall P m ->
  Forall (fun vd => P (varName vd) (varStruct b vd)) vds ->
  map_Forall P (fold_left (load_variable b) vds (m, cb)).1.
Proof.
  intros Hm Hvds. revert m cb Hm.
  induction Hvds as [| vd vds Hvd _ IH]; intros m cb Hm; simpl; [done |].
  apply IH. simpl. by apply map_insert_pair_Forall.
Qed.

(** What one iteration of the buffer loop does to the tables and to the
    buffer array. *)
Lemma load_buffer_spec refl b bd s :
  exists cb,
    varTable (load_buffer dev refl b bd s)
    = (fold_left (load_variable b) (Variables bd) (varTable s, cb)).1
    /\ constantBuffers (load_buffer dev refl b bd s)
       = constantBuffers s
         ++ [(fold_left (load_variable b) (Variables bd) (varTable s, cb)).2]
    /\ cbTable (load_buffer dev refl b bd s)
       = map_insert_pair (bufName bd) b (cbTable s)
    /\ cbSize cb = bufSize bd
    /\ LocalDataBuffer cb = ZeroMemory (bufSize bd).
Proof.
  unfold load_buffer.
  match goal with |- context [fold_left _ _ (_, ?c)] => exists c end.
  by destruct (fold_left _ _ _) as [vars cb'].
Qed.

Lemma load_buffers_old refl bds b s name v :
  varTable s !! name = Some v ->
  varTable (load_buffers dev refl b bds s) !! name = Some v.
Proof.
  revert b s. induction bds as [| bd bds IH]; intros b s Hs; simpl; [done |].
  apply IH. destruct (load_buffer_spec refl b bd s) as (cb & -> & _).
  by apply load_variables_old.
Qed.

Lemma load_buffers_new refl bds b s (k : nat) bd vd :
  NoDup (bd' ← bds; varName <$> Variables bd') ->
  bds !! k = Some bd -> vd ∈ Variables bd ->
  varTable s !! varName vd = None ->
  varTable (load_buffers dev refl b bds s) !! varName vd
  = Some (varStruct (b + k) vd).
Proof.
  revert b s k.
  induction bds as [| bd' bds IH]; intros b s k Hnd Hk Hvd Hs; [done |].
  rewrite bind_cons, NoDup_app in Hnd. destruct Hnd as (Hhead & Hsep & Htail).
  simpl. destruct (load_buffer_spec refl b bd' s) as (cb & Hvars & _).
  destruct k as [| k]; simpl in Hk.
  - injection Hk as ->. apply load_buffers_old. rewrite Hvars, Nat.add_0_r.
    by apply load_variables_new.
  - replace (b + S k)%nat with (S b + k)%nat by lia.
    apply IH; [done | done | done |].
    rewrite Hvars, load_variables_other; [done |].
    intros Hin. apply (Hsep _ Hin).
    apply list_elem_of_bind. exists bd. split.
    + by apply list_elem_of_fmap_2.
    + by eapply list_elem_of_lookup_2.
Qed.

(** The buffers appended by the loop: sized and zeroed as reflected. *)
Lemma load_buffers_buffers refl bds b s :
  exists cbs,
    constantBuffers (load_buffers dev refl b bds s) = constantBuffers s ++ cbs
    /\ Forall2 (fun bd cb => cbSize cb = bufSize bd
                             /\ LocalDataBuffer cb = ZeroMemory (bufSize bd))
               bds cbs.
Proof.
  revert b s. induction bds as [| bd bds IH]; intros b s; simpl.
  - exists []. by rewrite app_nil_r.
  - destruct (IH (S b) (load_buffer dev refl b bd s)) as (cbs & -> & Hcbs).
    destruct (load_buffer_spec refl b bd s) as (cb & _ & -> & _ & Hsz & Hzero).
    destruct (load_variables_buffer b (Variables bd) (varTable s) cb)
      as [Hsz' Hdata'].
    eexists (_ :: cbs). rewrite <- app_assoc. split; [reflexivity |].
    constructor; [| done]. by rewrite Hsz', Hdata'.
Qed.
End LoadTables.

Section LoadInvariant.
Context {E : Type} `{ShaderClass E}.
Variable dev : Device.
Implicit Type s : ISimpleShader E.

Lemma ZeroMemory_length n : 0 <= n -> Z.of_nat (length (ZeroMemory n)) = n.
Proof. intros Hn. unfold ZeroMemory. rewrite length_replicate. lia. Qed.

Lemma var_in_bounds_app cbs cb v :
  var_in_bounds cbs v -> var_in_bounds (cbs ++ [cb]) v.
Proof.
  unfold var_in_bounds.
  destruct (cbs !! Z.to_nat (ConstantBufferIndex v)) as [cb' |] eqn:Hcb;
    [| done].
  by rewrite (lookup_app_l_Some _ _ _ _ Hcb).
Qed.

Lemma load_buffer_wf refl b bd s :
  b = length (constantBuffers s) -> buffer_desc_ok bd -> wf s ->
  wf (load_buffer dev refl b bd s).
Proof.
  intros -> (Hsize & Hvds) (Hsized & Hvars & Hcbt).
  set (b := length (constantBuffers s)).
  destruct (load_buffer_spec dev refl b bd s)
    as (cb & Hv & Hc & Ht & Hsz & Hzero).
  destruct (load_variables_buffer b (Variables bd) (varTable s) cb)
    as [Hsz' Hdata'].
  unfold wf, staging_sized. rewrite Hv, Hc, Ht. split; [| split].
  - apply Forall_app. split; [done |]. constructor; [| done].
    cbv beta. rewrite Hdata', Hsz', Hzero, Hsz. by apply ZeroMemory_length.
  - apply (load_variables_Forall
             (fun _ v => var_in_bounds
                (constantBuffers s
                 ++ [(fold_left (load_variable b) (Variables bd)
                        (varTable s, cb)).2]) v)).
    + intros name v Hname. apply var_in_bounds_app. by eapply Hvars.
    + eapply Forall_impl; [exact Hvds |].
      intros vd (Hoff & Hvsz & Hfit). unfold var_in_bounds. simpl.
      rewrite Nat2Z.id. unfold b at 1.
      rewrite lookup_app_r, Nat.sub_diag by lia. simpl.
      rewrite Hsz', Hsz. done.
  - apply map_insert_pair_Forall.
    + intros name i Hi. rewrite length_app. simpl.
      pose proof (Hcbt _ _ Hi). simpl in *. lia.
    + rewrite length_app. simpl. unfold b. lia.
Qed.

Lemma load_buffers_wf refl bds b s :
  b = length (constantBuffers s) -> Forall buffer_desc_ok bds -> wf s ->
  wf (load_buffers dev refl b bds s).
Proof.
  intros Hb Hbds. revert b s Hb.
  induction Hbds as [| bd bds Hbd _ IH]; intros b s Hb Hwf; simpl; [done |].
  apply IH; [| by apply load_buffer_wf].
  destruct (load_buffer_spec dev refl b bd s) as (cb & _ & -> & _).
  rewrite length_app. simpl. lia.
Qed.

(** A successful load runs the buffer loop on an object without buffers
    and with empty variable and buffer tables. *)
Lemma LoadShaderFile_success file s0 blob s :
  D3DReadFileToBlob dev file = Some blob ->
  LoadShaderFile dev file s0 = Some (true, s) ->
  exists s3,
    s = load_buffers dev (D3DReflect blob) 0
          (ConstantBuffers (D3DReflect blob)) s3
    /\ constantBuffers s3 = [] /\ varTable s3 = ∅ /\ cbTable s3 = ∅.
Proof.
  intros Hread Hload.
  destruct (LoadShaderFile_true dev file s0 blob s Hread Hload) as (_ & _ & ->).
  eexists. split; [reflexivity |].
  match goal with |- constantBuffers (fold_left _ _ ?s) = _ /\ _ =>
    destruct (load_resources_frame (BoundResources (D3DReflect blob)) s)
      as (_ & _ & -> & -> & -> & _) end.
  done.
Qed.

Lemma LoadShaderFile_wf file s0 blob s :
  D3DReadFileToBlob dev file = Some blob ->
  LoadShaderFile dev file s0 = Some (true, s) ->
  reflection_ok (D3DReflect blob) ->
  wf s.
Proof.
  intros Hread Hload Hrefl.
  destruct (LoadShaderFile_success file s0 blob s Hread Hload)
    as (s3 & -> & Hcbs & Hvars & Hcbt).
  apply load_buffers_wf; [by rewrite Hcbs | done |].
  unfold wf, staging_sized. rewrite Hcbs, Hvars, Hcbt.
  split; [constructor |]. split; apply map_Forall_empty.
Qed.

(** After a successful load the buffers are the reflected ones, each with
    a zeroed staging array of the reflected size. *)
Lemma LoadShaderFile_buffers file s0 blob s :
  D3DReadFileToBlob dev file = Some blob ->
  LoadShaderFile dev file s0 = Some (true, s) ->
  Forall2 (fun bd cb => cbSize cb = bufSize bd
                        /\ LocalDataBuffer cb = ZeroMemory (bufSize bd))
          (ConstantBuffers (D3DReflect blob)) (constantBuffers s).
Proof.
  intros Hread Hload.
  destruct (LoadShaderFile_success file s0 blob s Hread Hload)
    as (s3 & -> & Hcbs & _).
  destruct (load_buffers_buffers dev (D3DReflect blob)
              (ConstantBuffers (D3DReflect blob)) 0 s3) as (cbs & -> & Hall).
  by rewrite Hcbs.
Qed.

(** Loading again, successfully or not, keeps the staging arrays sized. *)
Lemma LoadShaderFile_sized file s0 ok s :
  staging_sized s0 ->
  (forall blob, D3DReadFileToBlob dev file = Some blob ->
                sizes_unsigned (D3DReflect blob)) ->
  LoadShaderFile dev file s0 = Some (ok, s) ->
  staging_sized s.
Proof.
  intros Hs0 Hrefl Hload.
  destruct (LoadShaderFile_returns dev file s0 _ Hload)
    as [[_ [= -> ->]] | (blob & Hread & Hl)]; [done |].
  destruct ok.
  - pose proof (LoadShaderFile_buffers file s0 blob s Hread Hload) as Hall.
    specialize (Hrefl blob Hread). unfold sizes_unsigned in Hrefl.
    unfold staging_sized. apply Forall_forall. intros cb Hcb.
    apply list_elem_of_lookup in Hcb as [b Hcb].
    destruct (Forall2_lookup_r _ _ _ _ _ Hall Hcb) as (bd & Hbd & -> & ->).
    apply ZeroMemory_length.
    by eapply (proj1 (Forall_lookup _ _) Hrefl).
  - rewrite (LoadShaderFile_loadable dev file s0 blob Hread Hl) in Hload.
    destruct (CreateShaderDerived dev blob _) as [[[] e'] calls];
      simpl in Hload; [done |].
    injection Hload as <-. constructor.
Qed.
End LoadInvariant.

(** ** Lookup of reflected variables *)

(** C7.  After a successful load, for every variable that reflection
    reports in some constant buffer, [GetVariableInfo] on its name finds a
    descriptor with the reflected size (and offset, and the number of that
    buffer), provided no two reflected variables share a name. *)
Theorem reflected_variables_found {E} `{ShaderClass E} dev file blob
    (s0 s : ISimpleShader E) :
  D3DReadFileToBlob dev file = Some blob ->
  LoadShaderFile dev file s0 = Some (true, s) ->
  NoDup (variable_names (D3DReflect blob)) ->
  forall (b : nat) bd vd,
    ConstantBuffers (D3DReflect blob) !! b = Some bd ->
    vd ∈ Variables bd ->
    exists v,
      GetVariableInfo (varName vd) s = Some v
      /\ Size v = varSize vd
      /\ ByteOffset v = StartOffset vd
      /\ ConstantBufferIndex v = Z.of_nat b.
Proof.
  intros Hread Hok Hnd b bd vd Hbd Hvd.
  destruct (LoadShaderFile_success dev file s0 blob s Hread Hok)
    as (s3 & -> & _ & Hvars & _).
  exists (varStruct b vd). split; [| done].
  unfold GetVariableInfo, FindVariable.
  rewrite (load_buffers_new dev (D3DReflect blob) _ 0 s3 b bd vd Hnd Hbd Hvd).
  - done.
  - by rewrite Hvars, lookup_empty.
Qed.

Lemma reflected_variables_found_witness :
  exists v,
    GetVariableInfo "color" sample_pixel_shader = Some v /\ Size v = 16.
Proof.
  destruct (reflected_variables_found good_device "PixelShader.cso" sample_blob
              (ISimpleShader_new {| plainShader := None |}) sample_pixel_shader)
    with (b := 0%nat)
         (bd := {| bufName := "externalData"; bufType := D3D11_CT_CBUFFER;
                   Variables :=
                     [ {| varName := "world"; StartOffset := 0; varSize := 64 |};
                       {| varName := "color"; StartOffset := 64; varSize := 16 |} ];
                   bufSize := 80 |})
         (vd := {| varName := "color"; StartOffset := 64; varSize := 16 |})
    as (v & Hv & Hsize & _).
  - reflexivity.
  - vm_compute. reflexivity.
  - apply (bool_decide_unpack _). vm_compute. exact I.
  - reflexivity.
  - apply list_elem_of_In. simpl. tauto.
  - exists v. split; [exact Hv | exact Hsize].
Defined.

(** ** The staging arrays keep their length *)

Section Preservation.
Context {E : Type} `{ShaderClass E}.
Implicit Type s : ISimpleShader E.

Lemma SetData_inv name data size s b s' :
  SetData name data size s = Some (b, s') ->
  same_store s s' \/ rewrites_buffer s s'.
Proof.
  unfold SetData.
  destruct (FindVariable name (-1) s) as [var |]; [| by intros [= <- <-]; left].
  destruct (Size var <? size); [by intros [= <- <-]; left |].
  destruct (constantBuffers s !! Z.to_nat (ConstantBufferIndex var))
    as [cb |] eqn:Hcb; [| done]. simpl.
  destruct (memcpy (LocalDataBuffer cb) (ByteOffset var) data size)
    as [buf |] eqn:Hcpy; [| done]. simpl.
  intros [= <- <-]. right.
  exists (Z.to_nat (ConstantBufferIndex var)), cb, buf.
  split; [exact Hcb |]. split; [by eapply memcpy_length | done].
Qed.

Lemma exec_inv c s r s' :
  exec c s = Some (r, s') -> same_store s s' \/ rewrites_buffer s s'.
Proof.
  destruct c; unfold exec, ret_bool, SetInt, SetFloat, SetFloat2, SetFloat3,
    SetFloat4, SetMatrix4x4; simpl;
    try (by intros [= <- <-]; left);
    try (match goal with
         | |- context [SetData ?n ?d ?z s] =>
             destruct (SetData n d z s) as [[b s1] |] eqn:Hset; [| done];
             simpl; intros [= <- <-]; by eapply SetData_inv
         end).
  - intros [= <- <-]. left. unfold SetShader, SetShaderAndCBs.
    by destruct (shaderValid s).
  - intros [= <- <-]. left. unfold CopyAllBufferData.
    by destruct (shaderValid s).
  - intros [= <- <-]. left. unfold CopyBufferData.
    destruct (shaderValid s); simpl; [| done].
    case_decide; [done |]. by destruct (constantBuffers s !! index).
  - unfold CopyBufferData_name.
    destruct (shaderValid s); simpl; [| by intros [= <- <-]; left].
    destruct (FindConstantBuffer bufferName s) as [i |];
      [| by intros [= <- <-]; left].
    destruct (constantBuffers s !! i); [| done].
    simpl. intros [= <- <-]. by left.
  - unfold SetShaderResourceView.
    destruct (GetShaderResourceViewInfo name s); intros [= <- <-]; by left.
  - unfold SetSamplerState.
    destruct (GetSamplerInfo name s); intros [= <- <-]; by left.
Qed.

Lemma staging_sized_rewrite s s' :
  staging_sized s -> rewrites_buffer s s' -> staging_sized s'.
Proof.
  intros Hsized (i & cb & buf & Hcb & Hlen & ->).
  unfold staging_sized in *. simpl. apply Forall_insert; [done |].
  simpl. rewrite Hlen. by eapply (proj1 (Forall_lookup _ _) Hsized).
Qed.

Lemma wf_rewrite s s' : wf s -> rewrites_buffer s s' -> wf s'.
Proof.
  intros (Hsized & Hvars & Hcbt) Hrw.
  split; [by eapply staging_sized_rewrite |].
  destruct Hrw as (i & cb & buf & Hcb & Hlen & ->). simpl. split.
  - intros name v Hv. specialize (Hvars _ _ Hv). simpl in Hvars.
    unfold var_in_bounds in *.
    destruct (decide (i = Z.to_nat (ConstantBufferIndex v))) as [Heq | Hne].
    + rewrite <- Heq in *.
      rewrite list_lookup_insert_eq by (by eapply lookup_lt_Some).
      by rewrite Hcb in Hvars.
    + by rewrite list_lookup_insert_ne.
  - intros name j Hj. rewrite length_insert. by eapply Hcbt.
Qed.

Lemma wf_same_store s s' : wf s -> same_store s s' -> wf s'.
Proof. intros Hwf (Hc & Hv & Ht). unfold wf, staging_sized. by rewrite Hc, Hv, Ht. Qed.

Lemma SetData_progress name data size s :
  wf s -> size <= Z.of_nat (length data) -> 0 <= size ->
  is_Some (SetData name data size s).
Proof.
  intros (Hsized & Hvars & _) Hdata Hsize. unfold SetData, FindVariable.
  destruct (varTable s !! name) as [var |] eqn:Hvar; [| done]. simpl.
  destruct (Size var <? size) eqn:Hcmp; [done |].
  pose proof (Hvars _ _ Hvar) as Hin. unfold var_in_bounds in Hin.
  destruct (constantBuffers s !! Z.to_nat (ConstantBufferIndex var))
    as [cb |] eqn:Hcb; [| done]. simpl.
  assert (Z.of_nat (length (LocalDataBuffer cb)) = cbSize cb) as Hlen.
  { eapply (proj1 (Forall_lookup _ _) Hsized); eauto. }
  rewrite memcpy_defined by lia. done.
Qed.

Lemma exec_progress c s :
  wf s -> payload_ok c -> is_Some (exec c s).
Proof.
  intros Hwf Hpay.
  destruct c; unfold exec, ret_bool, SetInt, SetFloat, SetFloat2, SetFloat3,
    SetFloat4, SetMatrix4x4; simpl in *; try done;
    try (match goal with
         | |- context [SetData ?n ?d ?z s] =>
             destruct (SetData_progress n d z s Hwf) as [[b s1] ->];
             [lia | lia | done]
         end).
  - unfold CopyBufferData_name.
    destruct (shaderValid s); simpl; [| done].
    destruct (FindConstantBuffer bufferName s) as [i |] eqn:Hi; [| done].
    destruct Hwf as (_ & _ & Hcbt). apply Hcbt in Hi.
    apply lookup_lt_is_Some_2 in Hi as [cb ->]. done.
  - by destruct (SetShaderResourceView name srv s).
  - by destruct (SetSamplerState name samplerState s).
Qed.
End Preservation.

(** C8.  A load returns true whenever the file is read, the shader
    object is created and [CreateShader] can clean up, as it always can
    on a new object.  After every load that returned true the buffers are
    the reflected ones, in order, each with a staging array that is as
    long as the reflected size and holds zero bytes only; with consistent
    reflection data the program satisfies [wf].  Every base-class
    operation that returns keeps every staging array as long as its
    buffer; on a [wf] program every operation whose payload holds the
    bytes it reads does return, and leaves a [wf] program.  The compute
    and geometry operations do not touch the buffers, and a load on a
    loaded object or a [CleanUp], where it is defined, leaves the arrays
    sized. *)
Theorem staging_length_invariant :
  (forall E (C : ShaderClass E) dev file blob (s0 : ISimpleShader E),
      D3DReadFileToBlob dev file = Some blob ->
      loadable s0 ->
      (CreateShaderDerived dev blob (cleaned (derived s0))).1.1 = true ->
      exists s, LoadShaderFile dev file s0 = Some (true, s))
  /\ (forall E (C : ShaderClass E) (e : E), loadable (ISimpleShader_new e))
  /\ (forall E (C : ShaderClass E) dev file blob (s0 s : ISimpleShader E),
         D3DReadFileToBlob dev file = Some blob ->
         LoadShaderFile dev file s0 = Some (true, s) ->
         sizes_unsigned (D3DReflect blob) ->
         staging_sized s
         /\ length (constantBuffers s)
            = length (ConstantBuffers (D3DReflect blob))
         /\ forall (b : nat) bd,
             ConstantBuffers (D3DReflect blob) !! b = Some bd ->
             exists cb,
               constantBuffers s !! b = Some cb
               /\ cbSize cb = bufSize bd
               /\ Z.of_nat (length (LocalDataBuffer cb)) = bufSize bd
               /\ LocalDataBuffer cb = replicate (Z.to_nat (bufSize bd)) Byte.x00)
  /\ (forall E (C : ShaderClass E) dev file blob (s0 s : ISimpleShader E),
         D3DReadFileToBlob dev file = Some blob ->
         LoadShaderFile dev file s0 = Some (true, s) ->
         reflection_ok (D3DReflect blob) ->
         wf s)
  /\ (forall E (C : ShaderClass E) (s : ISimpleShader E) c r s',
         staging_sized s -> exec c s = Some (r, s') -> staging_sized s')
  /\ (forall E (C : ShaderClass E) (s : ISimpleShader E) c,
         wf s -> payload_ok c ->
         exists r s', exec c s = Some (r, s') /\ wf s')
  /\ (forall oor c s, constantBuffers (exec_compute oor c s).2 = constantBuffers s)
  /\ (forall dev c s, constantBuffers (exec_geometry dev c s).2 = constantBuffers s)
  /\ (forall E (C : ShaderClass E) dev file (s s' : ISimpleShader E) ok,
         staging_sized s ->
         (forall blob, D3DReadFileToBlob dev file = Some blob ->
                       sizes_unsigned (D3DReflect blob)) ->
         LoadShaderFile dev file s = Some (ok, s') ->
         staging_sized s')
  /\ (forall E (C : ShaderClass E) (s s' : ISimpleShader E),
         CleanUp s = Some s' -> staging_sized s').
Proof.
  repeat apply conj.
  - intros E C dev file blob s0 Hread Hl Hcreated.
    rewrite (LoadShaderFile_loadable dev file s0 blob Hread Hl), Hcreated.
    by eexists.
  - intros E C e. apply new_loadable.
  - intros E C dev file blob s0 s Hread Hload Hsizes.
    pose proof (LoadShaderFile_buffers dev file s0 blob s Hread Hload) as Hall.
    assert (forall (b : nat) bd,
               ConstantBuffers (D3DReflect blob) !! b = Some bd ->
               exists cb,
                 constantBuffers s !! b = Some cb
                 /\ cbSize cb = bufSize bd
                 /\ Z.of_nat (length (LocalDataBuffer cb)) = bufSize bd
                 /\ LocalDataBuffer cb
                    = replicate (Z.to_nat (bufSize bd)) Byte.x00) as Hbuffers.
    { intros b bd Hbd.
      destruct (Forall2_lookup_l _ _ _ _ _ Hall Hbd) as (cb & Hcb & Hsz & Hzero).
      exists cb. split; [done |]. split; [done |]. split; [| done].
      rewrite Hzero. apply ZeroMemory_length.
      by eapply (proj1 (Forall_lookup _ _) Hsizes). }
    split; [| split; [symmetry; by eapply Forall2_length | done]].
    apply Forall_forall. intros cb Hcb.
    apply list_elem_of_lookup in Hcb as [b Hcb].
    destruct (Forall2_lookup_r _ _ _ _ _ Hall Hcb) as (bd & Hbd & _).
    destruct (Hbuffers b bd Hbd) as (cb' & Hcb' & Hsz & Hlen & _).
    rewrite Hcb in Hcb'. injection Hcb' as <-. by rewrite Hlen, Hsz.
  - intros E C dev file blob s0 s. apply LoadShaderFile_wf.
  - intros E C s c r s' Hsized Hexec.
    destruct (exec_inv c s r s' Hexec) as [(Hc & _) | Hrw].
    + unfold staging_sized. by rewrite Hc.
    + by eapply staging_sized_rewrite.
  - intros E C s c Hwf Hpay.
    destruct (exec_progress c s Hwf Hpay) as [[r s'] Hexec].
    exists r, s'. split; [done |].
    destruct (exec_inv c s r s' Hexec) as [Hsame | Hrw].
    + by eapply wf_same_store.
    + by eapply wf_rewrite.
  - intros oor c s. destruct c; simpl; try done.
    unfold SetUnorderedAccessView. by destruct (_ =? _).
  - intros dev c s. destruct c; simpl; [| done].
    unfold CreateCompatibleStreamOutBuffer. by destruct (_ || _).
  - intros E C dev file s s' ok Hsized Hsizes Hload.
    by eapply LoadShaderFile_sized.
  - intros E C s s' Hclean.
    destruct (decide (unfreed s)) as [Hun | Hun];
      [| by rewrite (CleanUp_freed s Hun) in Hclean].
    rewrite (CleanUp_unfreed s Hun) in Hclean. injection Hclean as <-.
    constructor.
Qed.

Lemma staging_length_invariant_witness :
  exists s cb,
    LoadShaderFile good_device "PixelShader.cso"
      (ISimpleShader_new ({| plainShader := None |} : PlainData PS))
    = Some (true, s)
    /\ length (constantBuffers s) = 2%nat
    /\ constantBuffers s !! 1%nat = Some cb
    /\ cbSize cb = 16 /\ Z.of_nat (length (LocalDataBuffer cb)) = 16
    /\ LocalDataBuffer cb !! 15%nat = Some Byte.x00
    /\ exists r s',
        exec (CallSetFloat3 "color" (sample_payload ++ sample_payload
                                     ++ sample_payload ++ sample_payload))
          s = Some (r, s')
        /\ staging_sized s'.
Proof.
  destruct staging_length_invariant
    as (Hbuild & Hnew & Hload & Hwf & _ & Hstep & _).
  destruct (Hbuild (PlainData PS) SimplePixelShader good_device "PixelShader.cso"
              sample_blob (ISimpleShader_new {| plainShader := None |}))
    as (s & Hs).
  - reflexivity.
  - apply Hnew.
  - reflexivity.
  - destruct (Hload (PlainData PS) SimplePixelShader good_device
                "PixelShader.cso" sample_blob _ s eq_refl Hs)
      as (_ & Hlen & Hbuffers).
    { apply (bool_decide_unpack _). vm_compute. exact I. }
    destruct (Hbuffers 1%nat
                {| bufName := "perFrame"; bufType := D3D11_CT_CBUFFER;
                   Variables :=
                     [ {| varName := "time"; StartOffset := 0; varSize := 4 |} ];
                   bufSize := 16 |} eq_refl)
      as (cb & Hcb & Hsize & Hlength & Hzero).
    exists s, cb. split; [exact Hs |]. split; [exact Hlen |].
    split; [exact Hcb |]. split; [exact Hsize |]. split; [exact Hlength |].
    split; [rewrite Hzero; reflexivity |].
    assert (wf s) as Hs_wf.
    { apply (Hwf (PlainData PS) SimplePixelShader good_device "PixelShader.cso"
               sample_blob _ s eq_refl Hs).
      apply (bool_decide_unpack _). vm_compute. exact I. }
    destruct (Hstep (PlainData PS) SimplePixelShader s
                (CallSetFloat3 "color" (sample_payload ++ sample_payload
                                        ++ sample_payload ++ sample_payload))
                Hs_wf)
      as (r & s' & Hexec & Hwf').
    + simpl. lia.
    + exists r, s'. split; [exact Hexec | apply Hwf'].
Defined.

(** ** Geometry: the compatible stream-output buffer *)

(** C9.  [CreateCompatibleStreamOutBuffer] returns false and makes no
    device call when stream output is off, the program is not valid or the
    stride is zero.  Otherwise it makes exactly one [CreateBuffer] call
    and returns whether that call succeeded.  The byte width it asks for
    is [stride * vertexCount] computed in [unsigned int]: that is the
    product only while the product is below [2^32].  For the sample
    stream-out shader, whose stride is 24, and 200000000 vertices the
    function asks for 505032704 bytes where 4800000000 are needed, and
    returns true. *)
Theorem CreateCompatibleStreamOutBuffer_spec :
  (forall dev vertexCount (s : ISimpleShader GeometryData),
      let stride := streamOutVertexSize (derived s) in
      (useStreamOut (derived s) = false \/ shaderValid s = false \/ stride = 0 ->
       CreateCompatibleStreamOutBuffer dev vertexCount s = (false, s))
      /\ (useStreamOut (derived s) = true -> shaderValid s = true ->
          stride <> 0 ->
          exists desc,
            ByteWidth desc = u32 (stride * vertexCount)
            /\ (0 <= stride * vertexCount < 2 ^ 32 ->
                ByteWidth desc = stride * vertexCount)
            /\ CreateCompatibleStreamOutBuffer dev vertexCount s
               = (bool_decide (is_Some (deviceCreate dev (CreateBufferCall desc))),
                  on_device [CreateBufferCall desc] s)))
  /\ (streamOutVertexSize (derived sample_stream_out_shader) = 24
      /\ CreateCompatibleStreamOutBuffer good_device 200000000
           sample_stream_out_shader
         = (true,
            on_device
              [CreateBufferCall {| ByteWidth := 505032704;
                                   BindFlags := BIND_STREAM_OUTPUT_VERTEX_BUFFER |}]
              sample_stream_out_shader)
      /\ 24 * 200000000 = 4800000000
      /\ 505032704 < 24 * 200000000).
Proof.
  split.
  - intros dev vertexCount s stride.
    unfold CreateCompatibleStreamOutBuffer. fold stride. split.
    + intros [-> | [-> | ->]]; [done | |].
      * by rewrite orb_true_r.
      * by rewrite orb_true_r.
    + intros -> -> Hstride. simpl.
      destruct (stride =? 0) eqn:Hz; [lia |].
      eexists. split; [| split; [| reflexivity]]; simpl; [done |].
      intros Hfit. unfold u32. by apply Z.mod_small.
  - split; [vm_compute; reflexivity |].
    split; [vm_compute; reflexivity |]. split; [reflexivity | lia].
Qed.

Lemma CreateCompatibleStreamOutBuffer_spec_witness :
  CreateCompatibleStreamOutBuffer rejecting_device 100 sample_geometry_shader
  = (false, sample_geometry_shader)
  /\ exists desc,
      ByteWidth desc = 2400
      /\ CreateCompatibleStreamOutBuffer good_device 100 sample_stream_out_shader
         = (true, on_device [CreateBufferCall desc] sample_stream_out_shader).
Proof.
  destruct CreateCompatibleStreamOutBuffer_spec as (Hspec & _).
  split.
  - apply (Hspec rejecting_device 100 sample_geometry_shader).
    left. reflexivity.
  - destruct (Hspec good_device 100 sample_stream_out_shader) as (_ & Hcreate).
    destruct Hcreate as (desc & _ & Hwidth & Hrun).
    + reflexivity.
    + reflexivity.
    + vm_compute. discriminate.
    + exists desc. split.
      * rewrite Hwidth; [reflexivity |].
        vm_compute. split; [discriminate | reflexivity].
      * exact Hrun.
Defined.

(** ** Vertex: validity and the synthesised layout *)

(** C10.  A vertex program constructed without an input layout is valid
    exactly when its file was read and the vertex shader object was
    created.  The outcome of [CreateInputLayout] is only stored: the
    program is valid with a null input layout when that call fails. *)
Theorem vertex_validity_ignores_layout dev file :
  let s := SimpleVertexShader_new dev file in
  (shaderValid s = true <->
   exists blob h,
     D3DReadFileToBlob dev file = Some blob
     /\ deviceCreate dev (CreateShaderCall VS blob) = Some h)
  /\ (forall blob h,
         D3DReadFileToBlob dev file = Some blob ->
         deviceCreate dev (CreateShaderCall VS blob) = Some h ->
         let layoutDesc :=
           (build_input_layout (InputParameters (D3DReflect blob)) false).1 in
         shaderValid s = true
         /\ inputLayout (derived s)
            = deviceCreate dev (CreateInputLayoutCall layoutDesc blob)
         /\ (deviceCreate dev (CreateInputLayoutCall layoutDesc blob) = None ->
             inputLayout (derived s) = None)).
Proof.
  intros s.
  assert (forall blob h,
             D3DReadFileToBlob dev file = Some blob ->
             deviceCreate dev (CreateShaderCall VS blob) = Some h ->
             shaderValid s = true
             /\ inputLayout (derived s)
                = deviceCreate dev
                    (CreateInputLayoutCall
                       (build_input_layout
                          (InputParameters (D3DReflect blob)) false).1 blob))
    as Hvalid.
  { intros blob h Hread Hcreate. unfold s, SimpleVertexShader_new.
    destruct (construct_created dev file blob
                {| vsShader := None; inputLayout := None;
                   perInstanceCompatible := false |} Hread) as [-> ->].
    cbn. unfold Vertex_CreateShader. rewrite Hcreate. simpl.
    by destruct (build_input_layout _ _). }
  split.
  - split.
    + unfold s, SimpleVertexShader_new.
      destruct (D3DReadFileToBlob dev file) as [blob |] eqn:Hread;
        [| by rewrite (construct_unreadable dev file _ Hread)].
      destruct (construct_created dev file blob
                  {| vsShader := None; inputLayout := None;
                     perInstanceCompatible := false |} Hread) as [-> _].
      cbn. unfold Vertex_CreateShader.
      destruct (deviceCreate dev (CreateShaderCall VS blob)) as [h |] eqn:Hcreate;
        [| done].
      intros _. by exists blob, h.
    + intros (blob & h & Hread & Hcreate).
      by destruct (Hvalid blob h Hread Hcreate).
  - intros blob h Hread Hcreate layoutDesc.
    destruct (Hvalid blob h Hread Hcreate) as [Hv Hl].
    split; [done |]. split; [done |]. intros Hfail. by rewrite Hl.
Qed.

Lemma vertex_validity_ignores_layout_witness :
  shaderValid (SimpleVertexShader_new no_layout_device "VertexShader.cso") = true
  /\ inputLayout
       (derived (SimpleVertexShader_new no_layout_device "VertexShader.cso"))
     = None.
Proof.
  destruct (vertex_validity_ignores_layout no_layout_device "VertexShader.cso")
    as (_ & Hlayout).
  destruct (Hlayout sample_blob 1%nat eq_refl eq_refl) as (Hvalid & _ & Hnull).
  split; [exact Hvalid | apply Hnull; reflexivity].
Defined.

(** * Further properties of the loader and of the binding operations *)

(** ** The variable table without the uniqueness of names *)

Lemma find_app_or {A} (f : A -> bool) (l1 l2 : list A) :
  find f (l1 ++ l2)
  = match find f l1 with Some x => Some x | None => find f l2 end.
Proof.
  induction l1 as [| x l1 IH]; simpl; [done |]. by destruct (f x).
Qed.

Lemma find_fmap {A B} (g : A -> B) (f : B -> bool) (l : list A) :
  find f (g <$> l) = g <$> find (fun x => f (g x)) l.
Proof.
  induction l as [| x l IH]; simpl; [done |]. by destruct (f (g x)).
Qed.

Lemma find_is_Some {A} (f : A -> bool) (l : list A) :
  is_Some (find f l) <-> exists x, x ∈ l /\ f x = true.
Proof.
  split.
  - intros [x Hx]. apply find_some in Hx as [Hin Hf].
    exists x. split; [by apply list_elem_of_In | done].
  - intros (x & Hin & Hf). destruct (find f l) as [y |] eqn:Hfind; [done |].
    apply list_elem_of_In in Hin.
    pose proof (find_none f l Hfind x Hin). congruence.
Qed.

Lemma indexed_variables_names b bds :
  (fun p => varName p.2) <$> indexed_variables b bds
  = bd ← bds; varName <$> Variables bd.
Proof.
  revert b. induction bds as [| bd bds IH]; intros b; simpl; [done |].
  rewrite fmap_app, IH, <- list_fmap_compose. done.
Qed.

Section FirstWins.
Context {E : Type} `{ShaderClass E}.
Variable dev : Device.
Implicit Type s : ISimpleShader E.

Lemma load_variables_first b vds m cb name :
  (fold_left (load_variable b) vds (m, cb)).1 !! name
  = match m !! name with
    | Some v => Some v
    | None => varStruct b <$> find (fun vd => String.eqb (varName vd) name) vds
    end.
Proof.
  revert m cb. induction vds as [| vd vds IH]; intros m cb; simpl.
  - by destruct (m !! name).
  - etrans; [apply IH |]. simpl.
    destruct (String.eqb (varName vd) name) eqn:Heq.
    + apply String.eqb_eq in Heq as <-.
      destruct (m !! varName vd) as [v |] eqn:Hm.
      * by rewrite (map_insert_pair_old _ _ _ _ _ Hm).
      * by rewrite (map_insert_pair_new _ _ _ Hm).
    + apply String.eqb_neq in Heq. by rewrite map_insert_pair_ne.
Qed.

Lemma load_buffers_first refl bds b s name :
  varTable (load_buffers dev refl b bds s) !! name
  = match varTable s !! name with
    | Some v => Some v
    | None => (fun p => varStruct p.1 p.2)
                <$> find (fun p => String.eqb (varName p.2) name)
                      (indexed_variables b bds)
    end.
Proof.
  revert b s. induction bds as [| bd bds IH]; intros b s; simpl.
  - by destruct (varTable s !! name).
  - rewrite IH. destruct (load_buffer_spec dev refl b bd s) as (cb & -> & _).
    rewrite load_variables_first.
    destruct (varTable s !! name) as [v |]; [done |].
    rewrite find_app_or, find_fmap. simpl.
    by destruct (find (fun vd => String.eqb (varName vd) name) (Variables bd)).
Qed.
End FirstWins.

(** X1.  After a successful load, looking a name up in the variable table
    gives the descriptor of the first reflected variable of that name, in
    buffer order and then in variable order (a later variable of the same
    name is not reachable), and nothing for a name that no reflected
    variable has; so [HasVariable] holds exactly for the reflected names. *)
Theorem first_reflected_variable_wins {E} `{ShaderClass E} dev file blob
    (s0 s : ISimpleShader E) name :
  D3DReadFileToBlob dev file = Some blob ->
  LoadShaderFile dev file s0 = Some (true, s) ->
  GetVariableInfo name s
  = (fun p => varStruct p.1 p.2) <$> first_variable (D3DReflect blob) name
  /\ (HasVariable name s = true
      <-> name ∈ variable_names (D3DReflect blob)).
Proof.
  intros Hread Hok.
  destruct (LoadShaderFile_success dev file s0 blob s Hread Hok)
    as (s3 & -> & _ & Hvars & _).
  assert (GetVariableInfo name
            (load_buffers dev (D3DReflect blob) 0
               (ConstantBuffers (D3DReflect blob)) s3)
          = (fun p => varStruct p.1 p.2) <$> first_variable (D3DReflect blob) name)
    as Hget.
  { unfold GetVariableInfo, FindVariable.
    rewrite load_buffers_first, Hvars, lookup_empty.
    unfold first_variable. by destruct (find _ _). }
  split; [exact Hget |].
  unfold HasVariable. fold (GetVariableInfo name
    (load_buffers dev (D3DReflect blob) 0 (ConstantBuffers (D3DReflect blob)) s3)).
  rewrite Hget, bool_decide_eq_true, fmap_is_Some.
  unfold first_variable, variable_names. rewrite find_is_Some.
  rewrite <- (indexed_variables_names 0). rewrite list_elem_of_fmap.
  split.
  - intros (p & Hin & Heq). exists p.
    apply String.eqb_eq in Heq. done.
  - intros (p & -> & Hin). exists p. split; [done | apply String.eqb_refl].
Qed.

Lemma first_reflected_variable_wins_witness :
  GetVariableInfo "$Element"
    (SimpleComputeShader_new structured_device "Simulate.cso")
  = Some {| ByteOffset := 0; Size := 12; ConstantBufferIndex := 0 |}.
Proof.
  destruct (first_reflected_variable_wins structured_device "Simulate.cso"
              structured_blob
              (ISimpleShader_new {| csShader := None; threadsX := 0;
                                    threadsY := 0; threadsZ := 0;
                                    threadsTotal := 0; uavTable := ∅ |})
              (SimpleComputeShader_new structured_device "Simulate.cso")
              "$Element") as (Hget & _).
  - reflexivity.
  - vm_compute. reflexivity.
  - exact Hget.
Defined.

(** ** The buffer store in closed form *)




Section BufferStore.
Context {E : Type} `{ShaderClass E}.
Variable dev : Device.
Implicit Type s : ISimpleShader E.

Lemma load_variables_list b vds m cb :
  (fold_left (load_variable b) vds (m, cb)).2
  = {| Name := Name cb; cbSize := cbSize cb; BindIndex := BindIndex cb;
       ConstantBuffer := ConstantBuffer cb;
       LocalDataBuffer := LocalDataBuffer cb;
       cbVariables := cbVariables cb ++ (varStruct b <$> vds);
       cbType := cbType cb |}.
Proof.
  revert m cb. induction vds as [| vd vds IH]; intros m cb; simpl.
  - rewrite app_nil_r. by destruct cb.
  - etrans; [apply IH |]. simpl. by rewrite <- app_assoc.
Qed.

Lemma load_buffer_store refl b bd s :
  constantBuffers (load_buffer dev refl b bd s)
  = constantBuffers s ++ [reflected_buffer dev refl b bd]
  /\ cbTable (load_buffer dev refl b bd s)
     = map_insert_pair (bufName bd) b (cbTable s)
  /\ deviceCalls (load_buffer dev refl b bd s)
     = deviceCalls s ++ [buffer_create bd].
Proof.
  unfold load_buffer.
  match goal with |- context [fold_left ?f ?l (?m, ?c)] =>
    pose proof (load_variables_list b l m c) as Hsnd;
    destruct (fold_left f l (m, c)) as [vars cb'] end.
  simpl in *. by subst cb'.
Qed.

Lemma load_buffers_store refl bds b s :
  constantBuffers (load_buffers dev refl b bds s)
  = constantBuffers s ++ reflected_buffers dev refl b bds
  /\ deviceCalls (load_buffers dev refl b bds s)
     = deviceCalls s ++ (buffer_create <$> bds).
Proof.
  revert b s. induction bds as [| bd bds IH]; intros b s; simpl.
  - by rewrite !app_nil_r.
  - destruct (IH (S b) (load_buffer dev refl b bd s)) as [-> ->].
    destruct (load_buffer_store refl b bd s) as (-> & _ & ->).
    by rewrite <- !app_assoc.
Qed.


Lemma load_resources_deviceCalls rds s :
  deviceCalls (fold_left (fun acc rd => load_resource rd acc) rds s)
  = deviceCalls s.
Proof.
  revert s. induction rds as [| rd rds IH]; intros s; simpl; [done |].
  rewrite IH. unfold load_resource. by destruct (bindType rd).
Qed.
End BufferStore.





(** ** The resource tables in closed form *)

Lemma srv_entries_index n rds (k : nat) p :
  srv_entries n rds !! k = Some p -> srvIndex p.2 = Z.of_nat (n + k).
Proof.
  revert n k. induction rds as [| rd rds IH]; intros n k Hk; simpl in Hk; [done |].
  destruct (is_texture (bindType rd)); [| by apply IH].
  destruct k as [| k]; simpl in Hk.
  - injection Hk as <-. simpl. f_equal. lia.
  - rewrite (IH _ _ Hk). f_equal. lia.
Qed.

Lemma srv_entries_first n rds name :
  (fun p => srvBindIndex p.2)
    <$> find (fun p => String.eqb p.1 name) (srv_entries n rds)
  = BindPoint
      <$> find (fun rd => is_texture (bindType rd) && String.eqb (bindName rd) name)
            rds.
Proof.
  revert n. induction rds as [| rd rds IH]; intros n; simpl; [done |].
  destruct (is_texture (bindType rd)); simpl; [| apply IH].
  destruct (String.eqb (bindName rd) name); [done | apply IH].
Qed.

Lemma sampler_entries_index n rds (k : nat) p :
  sampler_entries n rds !! k = Some p -> sampIndex p.2 = Z.of_nat (n + k).
Proof.
  revert n k. induction rds as [| rd rds IH]; intros n k Hk; simpl in Hk; [done |].
  destruct (is_sampler (bindType rd)); [| by apply IH].
  destruct k as [| k]; simpl in Hk.
  - injection Hk as <-. simpl. f_equal. lia.
  - rewrite (IH _ _ Hk). f_equal. lia.
Qed.

Lemma sampler_entries_first n rds name :
  (fun p => sampBindIndex p.2)
    <$> find (fun p => String.eqb p.1 name) (sampler_entries n rds)
  = BindPoint
      <$> find (fun rd => is_sampler (bindType rd) && String.eqb (bindName rd) name)
            rds.
Proof.
  revert n. induction rds as [| rd rds IH]; intros n; simpl; [done |].
  destruct (is_sampler (bindType rd)); simpl; [| apply IH].
  destruct (String.eqb (bindName rd) name); [done | apply IH].
Qed.

Section ResourceTables.
Context {E : Type} `{ShaderClass E}.
Variable dev : Device.
Implicit Type s : ISimpleShader E.

Lemma insert_pair_find {V} (m : gmap string V) k v name (rest : list (string * V)) :
  match map_insert_pair k v m !! name with
  | Some x => Some x
  | None => snd <$> find (fun p => String.eqb p.1 name) rest
  end
  = match m !! name with
    | Some x => Some x
    | None => snd <$> find (fun p => String.eqb p.1 name) ((k, v) :: rest)
    end.
Proof.
  simpl. destruct (String.eqb k name) eqn:Heq.
  - apply String.eqb_eq in Heq as <-.
    destruct (m !! k) as [x |] eqn:Hm.
    + by rewrite (map_insert_pair_old _ _ _ _ _ Hm).
    + by rewrite (map_insert_pair_new _ _ _ Hm).
  - apply String.eqb_neq in Heq. by rewrite map_insert_pair_ne.
Qed.

Lemma load_resources_views rds s :
  shaderResourceViews (fold_left (fun acc rd => load_resource rd acc) rds s)
  = shaderResourceViews s
    ++ ((fun p => Live p.2) <$> srv_entries (length (shaderResourceViews s)) rds).
Proof.
  revert s. induction rds as [| rd rds IH]; intros s; simpl.
  - by rewrite app_nil_r.
  - rewrite IH. unfold load_resource.
    destruct (bindType rd); simpl; try done;
      rewrite length_app, <- app_assoc; simpl;
      by replace (length (shaderResourceViews s) + 1)%nat
        with (S (length (shaderResourceViews s))) by lia.
Qed.

Lemma load_resources_textureTable rds s name :
  textureTable (fold_left (fun acc rd => load_resource rd acc) rds s) !! name
  = match textureTable s !! name with
    | Some srv => Some srv
    | None => snd <$> find (fun p => String.eqb p.1 name)
                        (srv_entries (length (shaderResourceViews s)) rds)
    end.
Proof.
  revert s. induction rds as [| rd rds IH]; intros s; simpl.
  - by destruct (textureTable s !! name).
  - rewrite IH. unfold load_resource.
    destruct (bindType rd); simpl; try done;
      rewrite length_app; simpl;
      replace (length (shaderResourceViews s) + 1)%nat
        with (S (length (shaderResourceViews s))) by lia;
      apply insert_pair_find.
Qed.

Lemma load_resources_samplers rds s :
  samplerStates (fold_left (fun acc rd => load_resource rd acc) rds s)
  = samplerStates s
    ++ ((fun p => Live p.2) <$> sampler_entries (length (samplerStates s)) rds).
Proof.
  revert s. induction rds as [| rd rds IH]; intros s; simpl.
  - by rewrite app_nil_r.
  - rewrite IH. unfold load_resource.
    destruct (bindType rd); simpl; try done.
    rewrite length_app, <- app_assoc. simpl.
    by replace (length (samplerStates s) + 1)%nat
      with (S (length (samplerStates s))) by lia.
Qed.

Lemma load_resources_samplerTable rds s name :
  samplerTable (fold_left (fun acc rd => load_resource rd acc) rds s) !! name
  = match samplerTable s !! name with
    | Some samp => Some samp
    | None => snd <$> find (fun p => String.eqb p.1 name)
                        (sampler_entries (length (samplerStates s)) rds)
    end.
Proof.
  revert s. induction rds as [| rd rds IH]; intros s; simpl.
  - by destruct (samplerTable s !! name).
  - rewrite IH. unfold load_resource.
    destruct (bindType rd); simpl; try done.
    rewrite length_app. simpl.
    replace (length (samplerStates s) + 1)%nat
      with (S (length (samplerStates s))) by lia.
    apply insert_pair_find.
Qed.

(** The object on which a successful load runs its two loops: cleaned up,
    marked valid, and with the derived members and the device calls of
    [CreateShader]. *)
Lemma LoadShaderFile_stages file s0 blob s :
  D3DReadFileToBlob dev file = Some blob ->
  LoadShaderFile dev file s0 = Some (true, s) ->
  exists s2,
    s = load_buffers dev (D3DReflect blob) 0 (ConstantBuffers (D3DReflect blob))
          (fold_left (fun acc rd => load_resource rd acc)
             (BoundResources (D3DReflect blob)) s2)
    /\ shaderValid s2 = true
    /\ constantBuffers s2 = []
    /\ textureTable s2 = ∅ /\ samplerTable s2 = ∅
    /\ shaderResourceViews s2 = (fun _ => Dangling) <$> shaderResourceViews s0
    /\ samplerStates s2 = (fun _ => Dangling) <$> samplerStates s0
    /\ contextCalls s2 = contextCalls s0
    /\ deviceCalls s2
       = deviceCalls s0
         ++ (CreateShaderDerived dev blob (cleaned (derived s0))).2
    /\ derived s2
       = (CreateShaderDerived dev blob (cleaned (derived s0))).1.2.
Proof.
  intros Hread Hload.
  destruct (LoadShaderFile_true dev file s0 blob s Hread Hload) as (_ & _ & ->).
  eexists. split; [reflexivity |]. done.
Qed.
End ResourceTables.

(** X4.  After a successful load, [SetShaderResourceView] on a name binds
    the handle on the program's own pipeline stage at the bind point of
    the first texture or structured-buffer resource of that name, and
    returns true; for any other name it returns false and issues no call.
    [SetSamplerState] does the same with the sampler resources. *)
Theorem binding_by_reflected_slot {E} `{ShaderClass E} dev file blob
    (s0 s : ISimpleShader E) name h :
  D3DReadFileToBlob dev file = Some blob ->
  LoadShaderFile dev file s0 = Some (true, s) ->
  SetShaderResourceView name h s
  = match first_resource is_texture (D3DReflect blob) name with
    | Some rd => (true, on_context [SetShaderResources stage (BindPoint rd) h] s)
    | None => (false, s)
    end
  /\ SetSamplerState name h s
     = match first_resource is_sampler (D3DReflect blob) name with
       | Some rd => (true, on_context [SetSamplers stage (BindPoint rd) h] s)
       | None => (false, s)
       end.
Proof.
  intros Hread Hok.
  destruct (LoadShaderFile_stages dev file s0 blob s Hread Hok)
    as (s2 & -> & _ & _ & Htex & Hsamp & _).
  match goal with |- context [load_buffers dev ?r 0 ?bds ?s] =>
    destruct (load_buffers_frame dev r bds 0%nat s)
      as (_ & _ & _ & _ & _ & Htex' & Hsamp') end.
  split.
  - unfold SetShaderResourceView, GetShaderResourceViewInfo. rewrite Htex'.
    rewrite load_resources_textureTable, Htex, lookup_empty.
    pose proof (srv_entries_first (length (shaderResourceViews s2))
                  (BoundResources (D3DReflect blob)) name) as Hfirst.
    unfold first_resource.
    destruct (find (fun p => String.eqb p.1 name) _) as [p |];
      destruct (find (fun rd => is_texture (bindType rd) && _) _) as [rd |];
      simpl in *; try done.
    by injection Hfirst as ->.
  - unfold SetSamplerState, GetSamplerInfo. rewrite Hsamp'.
    rewrite load_resources_samplerTable, Hsamp, lookup_empty.
    pose proof (sampler_entries_first (length (samplerStates s2))
                  (BoundResources (D3DReflect blob)) name) as Hfirst.
    unfold first_resource.
    destruct (find (fun p => String.eqb p.1 name) _) as [p |];
      destruct (find (fun rd => is_sampler (bindType rd) && _) _) as [rd |];
      simpl in *; try done.
    by injection Hfirst as ->.
Qed.

Lemma binding_by_reflected_slot_witness :
  SetShaderResourceView "diffuse" 7%nat sample_pixel_shader
  = (true, on_context [SetShaderResources PS 0 7%nat] sample_pixel_shader)
  /\ SetSamplerState "diffuse" 7%nat sample_pixel_shader
     = (false, sample_pixel_shader).
Proof.
  destruct (binding_by_reflected_slot good_device "PixelShader.cso" sample_blob
              (ISimpleShader_new ({| plainShader := None |} : PlainData PS))
              sample_pixel_shader "diffuse" 7%nat)
    as (Hsrv & Hsamp).
  - reflexivity.
  - vm_compute. reflexivity.
  - split; [exact Hsrv | exact Hsamp].
Defined.

(** The two vectors after a successful load: what they held before, now
    deleted, followed by the new descriptors. *)
Lemma LoadShaderFile_vectors {E} `{ShaderClass E} dev file blob
    (s0 s : ISimpleShader E) :
  D3DReadFileToBlob dev file = Some blob ->
  LoadShaderFile dev file s0 = Some (true, s) ->
  shaderResourceViews s
  = ((fun _ => Dangling) <$> shaderResourceViews s0)
    ++ ((fun p => Live p.2)
          <$> srv_entries (length (shaderResourceViews s0))
                (BoundResources (D3DReflect blob)))
  /\ samplerStates s
     = ((fun _ => Dangling) <$> samplerStates s0)
       ++ ((fun p => Live p.2)
             <$> sampler_entries (length (samplerStates s0))
                   (BoundResources (D3DReflect blob)))
  /\ (forall name,
         textureTable s !! name
         = snd <$> find (fun p => String.eqb p.1 name)
                     (srv_entries (length (shaderResourceViews s0))
                        (BoundResources (D3DReflect blob))))
  /\ (forall name,
         samplerTable s !! name
         = snd <$> find (fun p => String.eqb p.1 name)
                     (sampler_entries (length (samplerStates s0))
                        (BoundResources (D3DReflect blob))))
  /\ constantBuffersAlloc s = Allocated.
Proof.
  intros Hread Hload.
  destruct (LoadShaderFile_stages dev file s0 blob s Hread Hload)
    as (s2 & -> & _ & _ & Htex & Hsamp & Hv2 & Hs2 & _).
  destruct (LoadShaderFile_true dev file s0 blob _ Hread Hload) as (_ & _ & Hs).
  match goal with |- context [load_buffers dev ?r 0 ?bds ?s] =>
    destruct (load_buffers_frame dev r bds 0%nat s)
      as (_ & _ & _ & -> & -> & -> & ->) end.
  rewrite load_resources_views, load_resources_samplers, Hv2, Hs2.
  rewrite !length_fmap.
  split; [done |]. split; [done |]. split; [| split].
  - intros name. by rewrite load_resources_textureTable, Htex, lookup_empty, Hv2,
      length_fmap.
  - intros name. by rewrite load_resources_samplerTable, Hsamp, lookup_empty, Hs2,
      length_fmap.
  - by rewrite Hs, load_buffers_alloc, load_resources_alloc.
Qed.

(** X5.  After every load that returned true the two ways of looking a
    resource up agree: the descriptor found under a name is the live
    element of the ordered list at the descriptor's own [Index], for
    textures and for samplers.  This holds for the load behind a
    constructor and for a later load on the same object where that load
    is defined, which appends to the lists. *)
Theorem name_and_index_agree {E} `{ShaderClass E} dev file blob
    (s0 s : ISimpleShader E) name :
  D3DReadFileToBlob dev file = Some blob ->
  LoadShaderFile dev file s0 = Some (true, s) ->
  (forall srv,
      GetShaderResourceViewInfo name s = Some srv ->
      0 <= srvIndex srv
      /\ GetShaderResourceViewInfo_index (Z.to_nat (srvIndex srv)) s
         = Some (Live srv))
  /\ (forall samp,
         GetSamplerInfo name s = Some samp ->
         0 <= sampIndex samp
         /\ GetSamplerInfo_index (Z.to_nat (sampIndex samp)) s
            = Some (Live samp)).
Proof.
  intros Hread Hload.
  destruct (LoadShaderFile_vectors dev file blob s0 s Hread Hload)
    as (Hviews & Hstates & Htex & Hsamp & _).
  split.
  - intros srv. unfold GetShaderResourceViewInfo, GetShaderResourceViewInfo_index.
    rewrite Htex, Hviews.
    destruct (find _ _) as [p |] eqn:Hfind; [| done]. simpl. intros [= <-].
    apply find_some in Hfind as [Hin _]. apply list_elem_of_In in Hin.
    apply list_elem_of_lookup in Hin as [k Hk].
    rewrite (srv_entries_index _ _ _ _ Hk). split; [lia |].
    rewrite Nat2Z.id, length_app, !length_fmap.
    apply lookup_lt_Some in Hk as Hlt.
    rewrite decide_False by lia.
    rewrite lookup_app_r by (rewrite length_fmap; lia).
    rewrite length_fmap.
    replace (length (shaderResourceViews s0) + k - length (shaderResourceViews s0))%nat
      with k by lia.
    by rewrite list_lookup_fmap, Hk.
  - intros samp. unfold GetSamplerInfo, GetSamplerInfo_index.
    rewrite Hsamp, Hstates.
    destruct (find _ _) as [p |] eqn:Hfind; [| done]. simpl. intros [= <-].
    apply find_some in Hfind as [Hin _]. apply list_elem_of_In in Hin.
    apply list_elem_of_lookup in Hin as [k Hk].
    rewrite (sampler_entries_index _ _ _ _ Hk). split; [lia |].
    rewrite Nat2Z.id, length_app, !length_fmap.
    apply lookup_lt_Some in Hk as Hlt.
    rewrite decide_False by lia.
    rewrite lookup_app_r by (rewrite length_fmap; lia).
    rewrite length_fmap.
    replace (length (samplerStates s0) + k - length (samplerStates s0))%nat
      with k by lia.
    by rewrite list_lookup_fmap, Hk.
Qed.

Lemma name_and_index_agree_witness :
  LoadShaderFile good_device "PixelShader.cso" sample_pixel_shader
  = Some (true, reloaded_pixel_shader)
  /\ GetShaderResourceViewInfo "diffuse" reloaded_pixel_shader
     = Some {| srvIndex := 1; srvBindIndex := 0 |}
  /\ GetShaderResourceViewInfo_index 1 reloaded_pixel_shader
     = Some (Live {| srvIndex := 1; srvBindIndex := 0 |}).
Proof.
  assert (LoadShaderFile good_device "PixelShader.cso" sample_pixel_shader
          = Some (true, reloaded_pixel_shader)) as Hre
    by (vm_compute; reflexivity).
  assert (GetShaderResourceViewInfo "diffuse" reloaded_pixel_shader
          = Some {| srvIndex := 1; srvBindIndex := 0 |}) as Hname
    by (vm_compute; reflexivity).
  split; [exact Hre |]. split; [exact Hname |].
  destruct (name_and_index_agree good_device "PixelShader.cso" sample_blob
              sample_pixel_shader reloaded_pixel_shader "diffuse" eq_refl Hre)
    as (Hsrv & _).
  apply (Hsrv {| srvIndex := 1; srvBindIndex := 0 |} Hname).
Defined.

Lemma srv_entries_length n rds :
  length (srv_entries n rds)
  = length (filter (fun rd => is_texture (bindType rd) = true) rds).
Proof.
  revert n. induction rds as [| rd rds IH]; intros n; simpl; [done |].
  rewrite filter_cons.
  destruct (is_texture (bindType rd)) eqn:Hk; case_decide; simpl;
    rewrite ?IH; done.
Qed.

Lemma sampler_entries_length n rds :
  length (sampler_entries n rds)
  = length (filter (fun rd => is_sampler (bindType rd) = true) rds).
Proof.
  revert n. induction rds as [| rd rds IH]; intros n; simpl; [done |].
  rewrite filter_cons.
  destruct (is_sampler (bindType rd)) eqn:Hk; case_decide; simpl;
    rewrite ?IH; done.
Qed.

(** A vector that kept deleted elements and got new ones appended. *)
Lemma appended_vector {A B} (g : B -> A) (old : list (ptr A)) (new : list B)
    (i : nat) :
  let l := ((fun _ => Dangling) <$> old) ++ ((fun p => Live (g p)) <$> new) in
  ((i < length old)%nat -> l !! i = Some Dangling)
  /\ (forall a, l !! i = Some (Live a) ->
                (length old <= i)%nat
                /\ exists p, new !! (i - length old)%nat = Some p /\ a = g p).
Proof.
  simpl. split.
  - intros Hi. rewrite lookup_app_l by (rewrite length_fmap; lia).
    rewrite list_lookup_fmap.
    by destruct (lookup_lt_is_Some_2 _ _ Hi) as [x ->].
  - intros a. destruct (decide (i < length old)%nat) as [Hlt | Hge].
    + rewrite lookup_app_l by (rewrite length_fmap; lia).
      rewrite list_lookup_fmap.
      by destruct (lookup_lt_is_Some_2 _ _ Hlt) as [x ->].
    + rewrite lookup_app_r by (rewrite length_fmap; lia).
      rewrite length_fmap, list_lookup_fmap.
      destruct (new !! _) as [p |]; [| done]. simpl.
      intros [= <-]. split; [lia |]. by exists p.
Qed.

(** X6.  [CleanUp] deletes the descriptors of the two ordered lists but
    never clears the lists.  A load on an object that was loaded before
    (with nothing deleted twice so far, and a class that cleans up once)
    therefore succeeds and appends: each list grows by one element per
    texture-like (or sampler) resource, every index below the old length
    gives a deleted descriptor, and a live descriptor sits at its own
    [Index], which is not below the old length.  If the lists were not
    empty before, the object now holds descriptors that the next
    [CleanUp] deletes a second time: its destructor and every further
    load of a readable file are undefined. *)
Theorem reload_keeps_deleted_entries {E} `{ShaderClass E} dev file blob
    (s0 : ISimpleShader E) :
  D3DReadFileToBlob dev file = Some blob ->
  loadable s0 ->
  (CreateShaderDerived dev blob (cleaned (derived s0))).1.1 = true ->
  let rds := BoundResources (D3DReflect blob) in
  exists s,
    LoadShaderFile dev file s0 = Some (true, s)
    /\ (length (shaderResourceViews s)
        = (length (shaderResourceViews s0)
           + length (filter (fun rd => is_texture (bindType rd) = true) rds))%nat
        /\ (forall i : nat,
               (i < length (shaderResourceViews s0))%nat ->
               GetShaderResourceViewInfo_index i s = Some Dangling)
        /\ (forall (i : nat) srv,
               GetShaderResourceViewInfo_index i s = Some (Live srv) ->
               (length (shaderResourceViews s0) <= i)%nat
               /\ srvIndex srv = Z.of_nat i))
    /\ (length (samplerStates s)
        = (length (samplerStates s0)
           + length (filter (fun rd => is_sampler (bindType rd) = true) rds))%nat
        /\ (forall i : nat,
               (i < length (samplerStates s0))%nat ->
               GetSamplerInfo_index i s = Some Dangling)
        /\ (forall (i : nat) samp,
               GetSamplerInfo_index i s = Some (Live samp) ->
               (length (samplerStates s0) <= i)%nat
               /\ sampIndex samp = Z.of_nat i))
    /\ (shaderResourceViews s0 <> [] \/ samplerStates s0 <> [] ->
        Destructor s = None
        /\ forall dev' file' blob',
            D3DReadFileToBlob dev' file' = Some blob' ->
            LoadShaderFile dev' file' s = None).
Proof.
  intros Hread Hl Hcreated rds.
  assert (exists s, LoadShaderFile dev file s0 = Some (true, s)) as [s Hload].
  { rewrite (LoadShaderFile_loadable dev file s0 blob Hread Hl), Hcreated.
    by eexists. }
  exists s. split; [done |].
  destruct (LoadShaderFile_vectors dev file blob s0 s Hread Hload)
    as (Hviews & Hstates & _).
  fold rds in Hviews, Hstates.
  split; [| split].
  - unfold GetShaderResourceViewInfo_index.
    rewrite Hviews, !length_app, !length_fmap, srv_entries_length.
    split; [done |]. split.
    + intros i Hi. rewrite decide_False by lia.
      by apply (appended_vector snd (shaderResourceViews s0)).
    + intros i srv. case_decide as Hlen; [done |]. intros Hlook.
      apply (appended_vector snd (shaderResourceViews s0)) in Hlook
        as (Hge & p & Hp & ->).
      split; [done |].
      rewrite (srv_entries_index _ _ _ _ Hp). f_equal. lia.
  - unfold GetSamplerInfo_index.
    rewrite Hstates, !length_app, !length_fmap, sampler_entries_length.
    split; [done |]. split.
    + intros i Hi. rewrite decide_False by lia.
      by apply (appended_vector snd (samplerStates s0)).
    + intros i samp. case_decide as Hlen; [done |]. intros Hlook.
      apply (appended_vector snd (samplerStates s0)) in Hlook
        as (Hge & p & Hp & ->).
      split; [done |].
      rewrite (sampler_entries_index _ _ _ _ Hp). f_equal. lia.
  - intros Hne.
    assert (~ unfreed s) as Hun.
    { intros (_ & Hv & Hs). rewrite Hviews in Hv. rewrite Hstates in Hs.
      apply Forall_app in Hv as [Hv _]. apply Forall_app in Hs as [Hs _].
      apply deleted_not_live in Hv. apply deleted_not_live in Hs.
      by destruct Hne. }
    split; [by apply CleanUp_freed |].
    intros dev' file' blob' Hread'.
    apply (LoadShaderFile_not_loadable dev' file' s blob' Hread').
    by intros [? _].
Qed.

Lemma reload_keeps_deleted_entries_witness :
  exists s,
    LoadShaderFile good_device "PixelShader.cso" sample_pixel_shader
    = Some (true, s)
    /\ length (shaderResourceViews s) = 2%nat
    /\ GetShaderResourceViewInfo_index 0 s = Some Dangling
    /\ Destructor s = None.
Proof.
  destruct (reload_keeps_deleted_entries good_device "PixelShader.cso"
              sample_blob sample_pixel_shader eq_refl)
    as (s & Hs & (Hlen & Hold & _) & _ & Hnext).
  - apply (bool_decide_unpack _). vm_compute. exact I.
  - reflexivity.
  - exists s. split; [exact Hs |]. split; [exact Hlen |].
    split; [apply Hold; vm_compute; lia |].
    apply Hnext. left. vm_compute. discriminate.
Defined.

(** ** What a load does to the device and to the device context *)

(** X7.  The outcomes of [LoadShaderFile].  When the file cannot be read
    it returns false and the object is untouched, whatever its state.
    When the file is read, the [CleanUp] of [CreateShader] runs first: if
    the object holds something that was deleted before (the buffer array
    after an earlier [CleanUp], a descriptor of an earlier load), or if
    the class cleans up twice and the object owns anything at all, the
    load is undefined.  Otherwise it returns what the creation of the
    shader object returned and never calls the device context: on
    failure the object is left not valid, with no buffers and empty
    tables, the buffer array released, and the device has seen the
    creation calls only; on success the object is valid with a new
    buffer array, and the device has seen the creation calls followed by
    exactly one [CreateBuffer] per reflected buffer, in reflected order,
    for the reflected size. *)
Theorem load_outcomes {E} `{ShaderClass E} dev file (s0 : ISimpleShader E) :
  (D3DReadFileToBlob dev file = None ->
   LoadShaderFile dev file s0 = Some (false, s0))
  /\ (forall blob,
         D3DReadFileToBlob dev file = Some blob ->
         (~ loadable s0 -> LoadShaderFile dev file s0 = None)
         /\ (loadable s0 ->
             let created := CreateShaderDerived dev blob (cleaned (derived s0)) in
             exists s,
               LoadShaderFile dev file s0 = Some (created.1.1, s)
               /\ contextCalls s = contextCalls s0
               /\ shaderValid s = created.1.1
               /\ derived s = created.1.2
               /\ if created.1.1
                  then deviceCalls s
                       = deviceCalls s0 ++ created.2
                         ++ (buffer_create <$> ConstantBuffers (D3DReflect blob))
                       /\ constantBuffersAlloc s = Allocated
                  else deviceCalls s = deviceCalls s0 ++ created.2
                       /\ constantBuffers s = []
                       /\ varTable s = ∅ /\ cbTable s = ∅
                       /\ textureTable s = ∅ /\ samplerTable s = ∅
                       /\ constantBuffersAlloc s
                          = released (constantBuffersAlloc s0)))
  /\ (CleanUpTwice (CleanUpDerived (derived s0)) = true ->
      constantBuffersAlloc s0 = Allocated -> ~ loadable s0).
Proof.
  split; [apply LoadShaderFile_unreadable |]. split.
  - intros blob Hread. split; [by apply (LoadShaderFile_not_loadable dev file s0 blob) |].
    intros Hl created.
    pose proof (LoadShaderFile_loadable dev file s0 blob Hread Hl) as Hload.
    simpl in Hload. fold created in Hload.
    destruct created as [[[] e'] calls] eqn:Hcreated; simpl in *.
    + eexists. split; [exact Hload |].
      destruct (LoadShaderFile_vectors dev file blob s0 _ Hread Hload)
        as (_ & _ & _ & _ & Halloc).
      match goal with |- context [load_buffers dev ?r 0 ?bds ?s] =>
        destruct (load_buffers_frame dev r bds 0%nat s) as (-> & -> & -> & _);
        destruct (load_buffers_store dev r bds 0 s) as [_ ->] end.
      rewrite load_resources_deviceCalls.
      match goal with |- context [fold_left _ ?rds ?s] =>
        destruct (load_resources_frame rds s) as (-> & -> & _ & _ & _ & ->) end.
      simpl. by rewrite <- app_assoc.
    + eexists. split; [exact Hload |]. done.
  - intros Htwice Halloc (_ & Hnothing).
    destruct (Hnothing Htwice) as (Hnull & _). congruence.
Qed.

Lemma load_outcomes_witness :
  LoadShaderFile good_device "Geometry.cso" sample_stream_out_shader = None
  /\ exists s,
      LoadShaderFile rejecting_device "PixelShader.cso" sample_pixel_shader
      = Some (false, s)
      /\ constantBuffersAlloc s = Freed.
Proof.
  split.
  - destruct (load_outcomes good_device "Geometry.cso" sample_stream_out_shader)
      as (_ & Hread & Hnot).
    destruct (Hread sample_blob eq_refl) as (Hundefined & _).
    apply Hundefined. apply Hnot; reflexivity.
  - destruct (load_outcomes rejecting_device "PixelShader.cso"
                sample_pixel_shader) as (_ & Hread & _).
    destruct (Hread sample_blob eq_refl) as (_ & Hdefined).
    destruct Hdefined as (s & Hs & _ & _ & _ & Hfailed).
    + apply (bool_decide_unpack _). vm_compute. exact I.
    + exists s. split; [exact Hs |].
      destruct Hfailed as (_ & _ & _ & _ & _ & _ & Halloc).
      rewrite Halloc. vm_compute. reflexivity.
Defined.

Section Activation.
Context {E : Type} `{ShaderClass E}.
Variable dev : Device.
Implicit Type s : ISimpleShader E.

Lemma reflected_bindings refl bds b :
  omap bind_cbuffer (reflected_buffers dev refl b bds)
  = omap (reflected_binding dev refl stage) bds.
Proof.
  revert b. induction bds as [| bd bds IH]; intros b; simpl; [done |].
  rewrite IH. unfold bind_cbuffer, reflected_binding. simpl.
  by destruct (bufType bd).
Qed.
End Activation.

(** X8.  Activating a successfully loaded program appends to the context
    log the calls that set the shader object and then one
    [SetConstantBuffers] for each reflected buffer that is a true constant
    buffer, in reflected order, on the program's stage, at the bind point
    of the bound resource of the buffer's name, with the handle that
    [CreateBuffer] returned; buffers of the other kinds are not bound and
    nothing else in the object changes. *)
Theorem activation_after_load {E} `{ShaderClass E} dev file blob
    (s0 s : ISimpleShader E) :
  D3DReadFileToBlob dev file = Some blob ->
  LoadShaderFile dev file s0 = Some (true, s) ->
  SetShader s
  = on_context
      (SetShaderCalls (derived s)
       ++ omap (reflected_binding dev (D3DReflect blob) stage)
            (ConstantBuffers (D3DReflect blob))) s.
Proof.
  intros Hread Hok.
  destruct (LoadShaderFile_stages dev file s0 blob s Hread Hok)
    as (s2 & Hs & Hvalid & Hcbs & _).
  unfold SetShader, SetShaderAndCBs.
  assert (shaderValid s = true) as ->.
  { rewrite Hs.
    match goal with |- context [load_buffers dev ?r 0 ?bds ?s] =>
      destruct (load_buffers_frame dev r bds 0%nat s) as (-> & _) end.
    match goal with |- context [fold_left _ ?rds ?s] =>
      by destruct (load_resources_frame rds s) as (-> & _) end. }
  simpl. f_equal. f_equal.
  assert (constantBuffers s
          = reflected_buffers dev (D3DReflect blob) 0
              (ConstantBuffers (D3DReflect blob))) as ->.
  { rewrite Hs.
    match goal with |- context [load_buffers dev ?r 0 ?bds ?s] =>
      destruct (load_buffers_store dev r bds 0 s) as [-> _] end.
    match goal with |- context [fold_left _ ?rds ?s] =>
      destruct (load_resources_frame rds s) as (_ & _ & -> & _) end.
    by rewrite Hcbs. }
  apply reflected_bindings.
Qed.

Lemma activation_after_load_witness :
  contextCalls (SetShader sample_pixel_shader)
  = [SetShaderCall PS (Some 1%nat);
     SetConstantBuffers PS 0 (Some 1%nat);
     SetConstantBuffers PS 1 (Some 1%nat)].
Proof.
  rewrite (activation_after_load good_device "PixelShader.cso" sample_blob
             (ISimpleShader_new ({| plainShader := None |} : PlainData PS))
             sample_pixel_shader eq_refl).
  - vm_compute. reflexivity.
  - vm_compute. reflexivity.
Defined.

(** ** Staging writes: how they compose and when they reach the device *)

Section Staging.
Context {E : Type}.
Implicit Type s : ISimpleShader E.

Lemma SetData_effect s name var data size :
  wf s -> varTable s !! name = Some var ->
  0 <= size <= Size var -> size <= Z.of_nat (length data) ->
  exists cb buf,
    constantBuffers s !! Z.to_nat (ConstantBufferIndex var) = Some cb
    /\ memcpy (LocalDataBuffer cb) (ByteOffset var) data size = Some buf
    /\ SetData name data size s
       = Some (true,
               set_constantBuffers
                 (<[Z.to_nat (ConstantBufferIndex var)
                    := set_LocalDataBuffer buf cb]> (constantBuffers s)) s).
Proof.
  intros (Hsized & Hvars & _) Hvar Hsize Hdata.
  pose proof (Hvars _ _ Hvar) as Hin. unfold var_in_bounds in Hin.
  destruct (constantBuffers s !! Z.to_nat (ConstantBufferIndex var))
    as [cb |] eqn:Hcb; [| done].
  destruct Hin as (Hoff & HS & Hfit).
  assert (Z.of_nat (length (LocalDataBuffer cb)) = cbSize cb) as Hlen.
  { eapply (proj1 (Forall_lookup _ _) Hsized); eauto. }
  eexists cb, _. split; [done |].
  split; [apply memcpy_defined; lia |].
  unfold SetData, FindVariable. rewrite Hvar. simpl.
  destruct (Size var <? size) eqn:Hlt; [lia |].
  rewrite Hcb. simpl. by rewrite memcpy_defined by lia.
Qed.

(** A successful write, seen through [staging]. *)
Lemma SetData_staging s name var data size :
  wf s -> varTable s !! name = Some var ->
  0 <= size <= Size var -> size <= Z.of_nat (length data) ->
  exists s',
    SetData name data size s = Some (true, s')
    /\ wf s' /\ varTable s' = varTable s
    /\ contextCalls s' = contextCalls s /\ shaderValid s' = shaderValid s
    /\ forall b i : nat,
        staging s' b i =
          if decide (in_variable var size b i)
          then data !! (i - Z.to_nat (ByteOffset var))%nat
          else staging s b i.
Proof.
  intros Hwf Hvar Hsize Hdata.
  destruct (SetData_effect s name var data size Hwf Hvar Hsize Hdata)
    as (cb & buf & Hcb & Hcpy & Hset).
  eexists. split; [exact Hset |]. split.
  { eapply wf_rewrite; [exact Hwf |].
    exists (Z.to_nat (ConstantBufferIndex var)), cb, buf.
    split; [exact Hcb |]. split; [by eapply memcpy_length | done]. }
  split; [done |]. split; [done |]. split; [done |].
  intros b i. unfold staging, in_variable. simpl.
  destruct (decide (b = Z.to_nat (ConstantBufferIndex var))) as [-> | Hne].
  - rewrite list_lookup_insert_eq by (by eapply lookup_lt_Some).
    rewrite Hcb. simpl. rewrite (memcpy_lookup _ _ _ _ _ i Hcpy).
    repeat case_decide; try done; tauto.
  - rewrite list_lookup_insert_ne by done.
    case_decide as Hc; [tauto | done].
Qed.
End Staging.

(** X9.  On a valid, well-formed program a successful [SetData] issues no
    call on the device context; the next upload of the variable's buffer
    issues exactly one [UpdateSubresource] on that buffer's handle whose
    data are the buffer's staging bytes with the payload at the
    variable's offset and the former bytes elsewhere. *)
Theorem staged_bytes_reach_the_upload {E} (s : ISimpleShader E)
    name var data size :
  wf s -> shaderValid s = true ->
  varTable s !! name = Some var ->
  0 <= size <= Size var -> size <= Z.of_nat (length data) ->
  exists s' cb bytes,
    SetData name data size s = Some (true, s')
    /\ contextCalls s' = contextCalls s
    /\ constantBuffers s !! Z.to_nat (ConstantBufferIndex var) = Some cb
    /\ contextCalls (CopyBufferData (Z.to_nat (ConstantBufferIndex var)) s')
       = contextCalls s ++ [UpdateSubresource (ConstantBuffer cb) bytes]
    /\ length bytes = length (LocalDataBuffer cb)
    /\ forall i : nat,
        bytes !! i =
          if decide (Z.to_nat (ByteOffset var) <= i
                     < Z.to_nat (ByteOffset var) + Z.to_nat size)%nat
          then data !! (i - Z.to_nat (ByteOffset var))%nat
          else LocalDataBuffer cb !! i.
Proof.
  intros Hwf Hvalid Hvar Hsize Hdata.
  destruct (SetData_effect s name var data size Hwf Hvar Hsize Hdata)
    as (cb & buf & Hcb & Hcpy & Hset).
  eexists _, cb, buf. split; [exact Hset |]. split; [done |].
  split; [exact Hcb |].
  pose proof (lookup_lt_Some _ _ _ Hcb) as Hlt.
  split; [| split; [by eapply memcpy_length | intros i; by eapply memcpy_lookup]].
  unfold CopyBufferData. simpl. rewrite Hvalid. simpl.
  rewrite length_insert, decide_False by lia.
  by rewrite list_lookup_insert_eq by done.
Qed.

Lemma staged_bytes_reach_the_upload_witness :
  exists s' bytes,
    SetData "time" sample_payload 3 sample_pixel_shader = Some (true, s')
    /\ contextCalls (CopyBufferData 1 s')
       = [UpdateSubresource (Some 1%nat) bytes]
    /\ bytes !! 2%nat = Some Byte.x03 /\ bytes !! 3%nat = Some Byte.x00.
Proof.
  destruct (staged_bytes_reach_the_upload sample_pixel_shader "time"
              {| ByteOffset := 0; Size := 4; ConstantBufferIndex := 1 |}
              sample_payload 3)
    as (s' & cb & bytes & Hset & _ & Hcb & Hup & _ & Hbytes).
  - apply (bool_decide_unpack _). vm_compute. exact I.
  - reflexivity.
  - vm_compute. reflexivity.
  - simpl. lia.
  - simpl. lia.
  - exists s', bytes. split; [exact Hset |].
    vm_compute in Hcb. injection Hcb as <-.
    split; [exact Hup |]. rewrite !Hbytes. split; reflexivity.
Defined.

(** X10.  Setting a variable twice leaves the second payload over the
    first: a byte covered by the second write holds the second payload, a
    byte covered only by the first (a longer first write) still holds the
    first payload, and every other byte is what it was before both. *)
Theorem second_write_wins {E} (s : ISimpleShader E) name var
    data1 size1 data2 size2 :
  wf s -> varTable s !! name = Some var ->
  0 <= size1 <= Size var -> size1 <= Z.of_nat (length data1) ->
  0 <= size2 <= Size var -> size2 <= Z.of_nat (length data2) ->
  exists s1 s2,
    SetData name data1 size1 s = Some (true, s1)
    /\ SetData name data2 size2 s1 = Some (true, s2)
    /\ forall b i : nat,
        staging s2 b i =
          if decide (in_variable var size2 b i)
          then data2 !! (i - Z.to_nat (ByteOffset var))%nat
          else if decide (in_variable var size1 b i)
               then data1 !! (i - Z.to_nat (ByteOffset var))%nat
               else staging s b i.
Proof.
  intros Hwf Hvar Hs1 Hd1 Hs2 Hd2.
  destruct (SetData_staging s name var data1 size1 Hwf Hvar Hs1 Hd1)
    as (s1 & Hset1 & Hwf1 & Hvars1 & _ & _ & Hst1).
  rewrite <- Hvars1 in Hvar.
  destruct (SetData_staging s1 name var data2 size2 Hwf1 Hvar Hs2 Hd2)
    as (s2 & Hset2 & _ & _ & _ & _ & Hst2).
  exists s1, s2. split; [done |]. split; [done |].
  intros b i. by rewrite Hst2, Hst1.
Qed.

Lemma second_write_wins_witness :
  exists s1 s2,
    SetData "color" sample_payload 3 sample_pixel_shader = Some (true, s1)
    /\ SetData "color" [Byte.x09] 1 s1 = Some (true, s2)
    /\ staging s2 0 64 = Some Byte.x09
    /\ staging s2 0 65 = Some Byte.x02.
Proof.
  destruct (second_write_wins sample_pixel_shader "color"
              {| ByteOffset := 64; Size := 16; ConstantBufferIndex := 0 |}
              sample_payload 3 [Byte.x09] 1)
    as (s1 & s2 & Hset1 & Hset2 & Hbytes).
  - apply (bool_decide_unpack _). vm_compute. exact I.
  - vm_compute. reflexivity.
  - simpl. lia.
  - simpl. lia.
  - simpl. lia.
  - simpl. lia.
  - exists s1, s2. split; [exact Hset1 |]. split; [exact Hset2 |].
    rewrite !Hbytes. split; reflexivity.
Defined.

(** X11.  Writes to byte ranges that do not overlap commute: setting two
    variables in either order succeeds both times and leaves the same
    staging bytes. *)
Theorem disjoint_writes_commute {E} (s : ISimpleShader E)
    name1 var1 data1 size1 name2 var2 data2 size2 :
  wf s ->
  varTable s !! name1 = Some var1 -> varTable s !! name2 = Some var2 ->
  0 <= size1 <= Size var1 -> size1 <= Z.of_nat (length data1) ->
  0 <= size2 <= Size var2 -> size2 <= Z.of_nat (length data2) ->
  disjoint_writes var1 size1 var2 size2 ->
  exists s1 s12 s2 s21,
    SetData name1 data1 size1 s = Some (true, s1)
    /\ SetData name2 data2 size2 s1 = Some (true, s12)
    /\ SetData name2 data2 size2 s = Some (true, s2)
    /\ SetData name1 data1 size1 s2 = Some (true, s21)
    /\ forall b i : nat, staging s12 b i = staging s21 b i.
Proof.
  intros Hwf Hv1 Hv2 Hs1 Hd1 Hs2 Hd2 Hdisj.
  destruct (SetData_staging s name1 var1 data1 size1 Hwf Hv1 Hs1 Hd1)
    as (s1 & Hset1 & Hwf1 & Hvars1 & _ & _ & Hst1).
  destruct (SetData_staging s name2 var2 data2 size2 Hwf Hv2 Hs2 Hd2)
    as (s2 & Hset2 & Hwf2 & Hvars2 & _ & _ & Hst2).
  pose proof Hv2 as Hv2'. rewrite <- Hvars1 in Hv2'.
  pose proof Hv1 as Hv1'. rewrite <- Hvars2 in Hv1'.
  destruct (SetData_staging s1 name2 var2 data2 size2 Hwf1 Hv2' Hs2 Hd2)
    as (s12 & Hset12 & _ & _ & _ & _ & Hst12).
  destruct (SetData_staging s2 name1 var1 data1 size1 Hwf2 Hv1' Hs1 Hd1)
    as (s21 & Hset21 & _ & _ & _ & _ & Hst21).
  exists s1, s12, s2, s21. repeat (split; [done |]).
  intros b i. rewrite Hst12, Hst21, Hst1, Hst2.
  pose proof (proj1 (proj2 Hwf) _ _ Hv1) as Hb1.
  pose proof (proj1 (proj2 Hwf) _ _ Hv2) as Hb2.
  unfold var_in_bounds in Hb1, Hb2.
  destruct (constantBuffers s !! Z.to_nat (ConstantBufferIndex var1));
    [| done].
  destruct (constantBuffers s !! Z.to_nat (ConstantBufferIndex var2));
    [| done].
  unfold in_variable, disjoint_writes in *.
  repeat case_decide; try done.
  exfalso.
  repeat match goal with Hc : _ /\ _ |- _ => destruct Hc end.
  destruct Hdisj as [Hne | [Hlt | Hlt]]; [congruence | lia | lia].
Qed.

Lemma disjoint_writes_commute_witness :
  exists s12 s21,
    (s1 ← snd <$> SetData "world" sample_payload 3 sample_pixel_shader;
     snd <$> SetData "color" [Byte.x09] 1 s1) = Some s12
    /\ (s2 ← snd <$> SetData "color" [Byte.x09] 1 sample_pixel_shader;
        snd <$> SetData "world" sample_payload 3 s2) = Some s21
    /\ staging s12 0 64 = staging s21 0 64.
Proof.
  destruct (disjoint_writes_commute sample_pixel_shader
              "world" {| ByteOffset := 0; Size := 64; ConstantBufferIndex := 0 |}
              sample_payload 3
              "color" {| ByteOffset := 64; Size := 16; ConstantBufferIndex := 0 |}
              [Byte.x09] 1)
    as (s1 & s12 & s2 & s21 & H1 & H12 & H2 & H21 & Hsame).
  - apply (bool_decide_unpack _). vm_compute. exact I.
  - vm_compute. reflexivity.
  - vm_compute. reflexivity.
  - simpl. lia.
  - simpl. lia.
  - simpl. lia.
  - simpl. lia.
  - right. left. simpl. lia.
  - exists s12, s21. rewrite H1, H2. simpl. rewrite H12, H21. simpl.
    split; [reflexivity |]. split; [reflexivity | apply Hsame].
Defined.

(** ** Uploads *)

Section Uploads.
Context {E : Type}.
Implicit Type s : ISimpleShader E.

Lemma on_context_nil s : on_context [] s = s.
Proof. destruct s. unfold on_context. simpl. by rewrite app_nil_r. Qed.

Lemma on_context_app l1 l2 s :
  on_context l2 (on_context l1 s) = on_context (l1 ++ l2) s.
Proof. unfold on_context. simpl. by rewrite app_assoc. Qed.

Lemma upload_prefix s (n : nat) :
  shaderValid s = true -> (n <= length (constantBuffers s))%nat ->
  fold_left (fun acc i => CopyBufferData i acc) (seq 0 n) s
  = on_context (upload <$> take n (constantBuffers s)) s.
Proof.
  intros Hvalid. induction n as [| n IH]; intros Hn.
  - simpl. by rewrite on_context_nil.
  - rewrite seq_S, fold_left_app, IH by lia. simpl.
    destruct (lookup_lt_is_Some_2 (constantBuffers s) n ltac:(lia)) as [cb Hcb].
    unfold CopyBufferData. simpl. rewrite Hvalid. simpl.
    rewrite decide_False by lia. rewrite Hcb.
    rewrite on_context_app. by rewrite (take_S_r _ _ _ Hcb), fmap_app.
Qed.
End Uploads.

(** X12.  Uploading all buffers is uploading buffer 0, 1, ... in turn;
    uploading by name is uploading by the index that the buffer table
    holds for the name, and nothing for an unknown name; an index at or
    beyond the buffer count uploads nothing. *)
Theorem uploads_agree {E} (s : ISimpleShader E) :
  CopyAllBufferData s
  = fold_left (fun acc i => CopyBufferData i acc)
      (seq 0 (length (constantBuffers s))) s
  /\ (forall i : nat, (length (constantBuffers s) <= i)%nat -> CopyBufferData i s = s)
  /\ (wf s ->
      forall name,
        CopyBufferData_name name s
        = Some match FindConstantBuffer name s with
               | Some i => CopyBufferData i s
               | None => s
               end).
Proof.
  split; [| split].
  - destruct (shaderValid s) eqn:Hvalid.
    + rewrite upload_prefix by done. rewrite firstn_all.
      unfold CopyAllBufferData. by rewrite Hvalid.
    + unfold CopyAllBufferData. rewrite Hvalid. simpl.
      induction (seq 0 (length (constantBuffers s))) as [| i l IH]; simpl; [done |].
      unfold CopyBufferData at 2. rewrite Hvalid. simpl. exact IH.
  - intros i Hi. unfold CopyBufferData.
    destruct (shaderValid s); simpl; [| done]. by rewrite decide_True.
  - intros (_ & _ & Hcbt) name.
    unfold CopyBufferData_name, CopyBufferData.
    destruct (shaderValid s); simpl; [| by destruct (FindConstantBuffer name s)].
    destruct (FindConstantBuffer name s) as [i |] eqn:Hi; [| done].
    apply Hcbt in Hi. simpl in Hi.
    destruct (lookup_lt_is_Some_2 _ _ Hi) as [cb ->]. simpl.
    by rewrite decide_False by lia.
Qed.

Lemma uploads_agree_witness :
  CopyBufferData_name "perFrame" sample_pixel_shader
  = Some (CopyBufferData 1 sample_pixel_shader).
Proof.
  destruct (uploads_agree sample_pixel_shader) as (_ & _ & Hname).
  rewrite Hname.
  - vm_compute. reflexivity.
  - apply (bool_decide_unpack _). vm_compute. exact I.
Defined.

(** ** What the operations leave alone *)

Section Structure.
Context {E : Type} `{ShaderClass E}.
Implicit Type s : ISimpleShader E.

Lemma SetData_shape name data size s b s' :
  SetData name data size s = Some (b, s') -> s' = s \/ rewrites_buffer s s'.
Proof.
  unfold SetData.
  destruct (FindVariable name (-1) s) as [var |]; [| by intros [= <- <-]; left].
  destruct (Size var <? size); [by intros [= <- <-]; left |].
  destruct (constantBuffers s !! Z.to_nat (ConstantBufferIndex var))
    as [cb |] eqn:Hcb; [| done]. simpl.
  destruct (memcpy (LocalDataBuffer cb) (ByteOffset var) data size)
    as [buf |] eqn:Hcpy; [| done]. simpl.
  intros [= <- <-]. right.
  exists (Z.to_nat (ConstantBufferIndex var)), cb, buf.
  split; [exact Hcb |]. split; [by eapply memcpy_length | done].
Qed.

(** Every operation either appends calls to the context log or rewrites
    one staging array. *)
Lemma exec_shape c s r s' :
  exec c s = Some (r, s') ->
  (exists calls, s' = on_context calls s
                 /\ (reads_only c || writes_staging c = true -> calls = []))
  \/ (writes_staging c = true /\ rewrites_buffer s s').
Proof.
  destruct c; unfold exec, ret_bool, SetInt, SetFloat, SetFloat2, SetFloat3,
    SetFloat4, SetMatrix4x4; simpl;
    try (intros [= <- <-]; left; exists []; by rewrite on_context_nil);
    try (match goal with
         | |- context [SetData ?n ?d ?z s] =>
             destruct (SetData n d z s) as [[b s1] |] eqn:Hset; [| done];
             simpl; intros [= <- <-];
             destruct (SetData_shape _ _ _ _ _ _ Hset) as [-> | Hrw];
             [left; exists []; by rewrite on_context_nil | by right]
         end).
  - intros [= <- <-]. left. unfold SetShader, SetShaderAndCBs.
    destruct (shaderValid s); simpl; [by eexists |].
    exists []. by rewrite on_context_nil.
  - intros [= <- <-]. left. unfold CopyAllBufferData.
    destruct (shaderValid s); simpl; [by eexists |].
    exists []. by rewrite on_context_nil.
  - intros [= <- <-]. left. unfold CopyBufferData.
    destruct (shaderValid s); simpl;
      [| exists []; by rewrite on_context_nil].
    case_decide; [exists []; by rewrite on_context_nil |].
    destruct (constantBuffers s !! index); [by eexists |].
    exists []. by rewrite on_context_nil.
  - unfold CopyBufferData_name.
    destruct (shaderValid s); simpl;
      [| intros [= <- <-]; left; exists []; by rewrite on_context_nil].
    destruct (FindConstantBuffer bufferName s) as [i |];
      [| intros [= <- <-]; left; exists []; by rewrite on_context_nil].
    destruct (constantBuffers s !! i); [| done].
    simpl. intros [= <- <-]. left. by eexists.
  - unfold SetShaderResourceView.
    destruct (GetShaderResourceViewInfo name s); intros [= <- <-]; left;
      [by eexists | exists []; by rewrite on_context_nil].
  - unfold SetSamplerState.
    destruct (GetSamplerInfo name s); intros [= <- <-]; left;
      [by eexists | exists []; by rewrite on_context_nil].
Qed.

Lemma same_descriptor_refl cbs : Forall2 same_descriptor cbs cbs.
Proof. apply Forall_Forall2_diag, Forall_forall. by intros cb _. Qed.
End Structure.

(** X13.  No public operation of the base class changes the structure of
    a program: the validity flag, the four tables, the two ordered lists,
    the members of the subclass and the device log stay as they are, and
    the buffer store keeps its length and, entry by entry, name, size,
    bind index, handle, kind, variable list and staging length.  An
    operation that writes staging memory or only reads issues no call on
    the device context, and one that only reads changes nothing at all. *)
Theorem operations_keep_structure {E} `{ShaderClass E}
    (s : ISimpleShader E) c r s' :
  exec c s = Some (r, s') ->
  shaderValid s' = shaderValid s /\ shaderBlob s' = shaderBlob s
  /\ varTable s' = varTable s /\ cbTable s' = cbTable s
  /\ textureTable s' = textureTable s /\ samplerTable s' = samplerTable s
  /\ shaderResourceViews s' = shaderResourceViews s
  /\ samplerStates s' = samplerStates s
  /\ derived s' = derived s /\ deviceCalls s' = deviceCalls s
  /\ Forall2 same_descriptor (constantBuffers s) (constantBuffers s')
  /\ (reads_only c || writes_staging c = true ->
      contextCalls s' = contextCalls s)
  /\ (reads_only c = true -> s' = s).
Proof.
  intros Hexec.
  destruct (exec_shape c s r s' Hexec)
    as [(calls & -> & Hquiet) | (Hwrites & i & cb & buf & Hcb & Hlen & ->)].
  - simpl. repeat (split; [done |]).
    split; [apply same_descriptor_refl |]. split.
    + intros Hc. rewrite (Hquiet Hc). apply app_nil_r.
    + intros Hc. rewrite Hquiet by (by rewrite Hc).
      apply on_context_nil.
  - simpl. repeat (split; [done |]). split; [| split; [done |]].
    + rewrite <- (list_insert_id _ _ _ Hcb) at 1.
      apply Forall2_insert; [apply same_descriptor_refl |].
      by repeat split.
    + intros Hc. by destruct c.
Qed.

Lemma operations_keep_structure_witness :
  exists r s',
    exec (CallSetInt "time" [Byte.x05; Byte.x00; Byte.x00; Byte.x00])
      sample_pixel_shader = Some (r, s')
    /\ contextCalls s' = contextCalls sample_pixel_shader
    /\ cbTable s' = cbTable sample_pixel_shader.
Proof.
  destruct (exec (CallSetInt "time" [Byte.x05; Byte.x00; Byte.x00; Byte.x00])
              sample_pixel_shader) as [[r s'] |] eqn:Hexec;
    [| vm_compute in Hexec; discriminate].
  exists r, s'. split; [reflexivity |].
  destruct (operations_keep_structure sample_pixel_shader _ r s' Hexec)
    as (_ & _ & _ & Hcbt & _ & _ & _ & _ & _ & _ & _ & Hquiet & _).
  split; [apply Hquiet; reflexivity | exact Hcbt].
Defined.

(** ** The typed setters *)

Lemma SetData_returns {E} (s : ISimpleShader E) name data size :
  wf s -> 0 <= size <= Z.of_nat (length data) ->
  exists b s',
    SetData name data size s = Some (b, s') /\ (b = true <-> fits s name size).
Proof.
  intros Hwf Hsize. unfold fits.
  destruct (varTable s !! name) as [var |] eqn:Hvar.
  - destruct (decide (size <= Size var)) as [Hle | Hgt].
    + destruct (SetData_effect s name var data size Hwf Hvar) as (cb & buf & _ & _ & ->);
        [lia | lia |].
      eexists _, _. split; [done |]. split; [| done]. intros _. by exists var.
    + exists false, s. split.
      * unfold SetData, FindVariable. rewrite Hvar. simpl.
        destruct (Size var <? size) eqn:Hcmp; [done | lia].
      * split; [done |]. intros (var' & [= <-] & Hle). lia.
  - exists false, s. split.
    + unfold SetData, FindVariable. by rewrite Hvar.
    + split; [done |]. by intros (var' & Hvar' & _).
Qed.

(** X14.  On a well-formed program each typed setter returns, and returns
    true exactly when the variable table has the name with a size of at
    least the width of the setter's type (4 bytes for an integer or a
    float, 8, 12 and 16 for the float vectors, 64 for the matrix): the
    size need not be equal, so a narrower value can be set into a wider
    variable, and a wider value is refused. *)
Theorem typed_setters_need_room {E} (s : ISimpleShader E) :
  wf s ->
  Forall (fun '(setter, width) =>
            forall name data,
              width <= Z.of_nat (length data) ->
              exists b s',
                setter name data s = Some (b, s')
                /\ (b = true <-> fits s name width))
         typed_setters.
Proof.
  intros Hwf. unfold typed_setters.
  repeat (constructor;
          [intros name data Hlen;
           unfold SetInt, SetFloat, SetFloat2, SetFloat3, SetFloat4, SetMatrix4x4;
           apply SetData_returns; [done | lia] |]).
  constructor.
Qed.

Lemma typed_setters_need_room_witness :
  SetMatrix4x4 "color" (replicate 64 Byte.x01) sample_pixel_shader
  = Some (false, sample_pixel_shader)
  /\ exists s', SetFloat "color" (replicate 4 Byte.x01) sample_pixel_shader
                = Some (true, s').
Proof.
  assert (wf sample_pixel_shader) as Hwf
    by (apply (bool_decide_unpack _); vm_compute; exact I).
  pose proof (typed_setters_need_room sample_pixel_shader Hwf) as Hall.
  unfold typed_setters in Hall.
  apply Forall_cons in Hall as [_ Hall].
  apply Forall_cons in Hall as [Hfloat Hall].
  do 3 apply Forall_cons in Hall as [_ Hall].
  apply Forall_cons in Hall as [Hmatrix _].
  split.
  - vm_compute. reflexivity.
  - destruct (Hfloat "color" (replicate 4 Byte.x01)) as (b & s' & Hset & Hb);
      [simpl; lia |].
    exists s'. rewrite Hset. do 2 f_equal. apply Hb.
    exists {| ByteOffset := 64; Size := 16; ConstantBufferIndex := 0 |}.
    split; [vm_compute; reflexivity | simpl; lia].
Defined.

(** ** The vertex shader with a layout made by the caller *)

(** X15.  When the caller supplies an input layout, creating the vertex
    shader keeps that layout and the instancing flag as supplied, whatever
    the input signature says, and the device sees the shader creation and
    the buffer creations but no [CreateInputLayout] call. *)
Theorem supplied_layout_is_kept dev file blob h layout flag :
  D3DReadFileToBlob dev file = Some blob ->
  deviceCreate dev (CreateShaderCall VS blob) = Some h ->
  let s := SimpleVertexShader_new_layout dev file (Some layout) flag in
  shaderValid s = true
  /\ derived s = {| vsShader := Some h; inputLayout := Some layout;
                    perInstanceCompatible := flag |}
  /\ deviceCalls s
     = CreateShaderCall VS blob
       :: (buffer_create <$> ConstantBuffers (D3DReflect blob)).
Proof.
  intros Hread Hcreate s. subst s. unfold SimpleVertexShader_new_layout.
  rewrite (construct_readable dev file blob _ Hread).
  cbn [cleaned CleanUpTwice CleanUpDerived CreateShaderDerived SimpleVertexShader].
  unfold Vertex_CreateShader. rewrite Hcreate. cbn [fst snd inputLayout].
  match goal with |- context [load_buffers dev ?r 0 ?bds ?s] =>
    destruct (load_buffers_frame dev r bds 0%nat s) as (-> & -> & _);
    destruct (load_buffers_store dev r bds 0 s) as [_ ->] end.
  rewrite load_resources_deviceCalls.
  match goal with |- context [fold_left _ ?rds ?s] =>
    destruct (load_resources_frame rds s) as (-> & -> & _) end.
  done.
Qed.

Lemma supplied_layout_is_kept_witness :
  inputLayout (derived sample_layout_shader) = Some 9%nat
  /\ perInstanceCompatible (derived sample_layout_shader) = false.
Proof.
  destruct (supplied_layout_is_kept good_device "VertexShader.cso" sample_blob
              1%nat 9%nat false eq_refl eq_refl) as (_ & Hderived & _).
  split;
    [exact (f_equal inputLayout Hderived)
    | exact (f_equal perInstanceCompatible Hderived)].
Defined.

(** ** The format of a synthesised layout element *)

(** X16.  For a mask from 1 to 15 and a known scalar type the format of a
    layout element has the scalar type of the parameter and as many
    components as the position of the highest set bit of the mask (so a
    mask with a gap, such as x and z, gets the three-component format); a
    mask of 0 gets the two-component format; an unknown scalar type or a
    mask above 15 leaves the format unset. *)
Theorem format_follows_highest_component mask t :
  (1 <= mask <= 15 -> t <> D3D_REGISTER_COMPONENT_UNKNOWN ->
   format_components (format_of mask t) = Z.log2 mask + 1
   /\ format_scalar (format_of mask t) = t)
  /\ (t <> D3D_REGISTER_COMPONENT_UNKNOWN ->
      format_components (format_of 0 t) = 2)
  /\ (15 < mask \/ t = D3D_REGISTER_COMPONENT_UNKNOWN ->
      format_of mask t = DXGI_FORMAT_UNKNOWN).
Proof.
  split; [| split].
  - intros Hmask Ht.
    assert (mask = 1 \/ mask = 2 \/ mask = 3 \/ mask = 4 \/ mask = 5
            \/ mask = 6 \/ mask = 7 \/ mask = 8 \/ mask = 9 \/ mask = 10
            \/ mask = 11 \/ mask = 12 \/ mask = 13 \/ mask = 14 \/ mask = 15)
      as Hcases by lia.
    repeat (destruct Hcases as [-> | Hcases]; [by destruct t |]).
    subst. by destruct t.
  - intros Ht. by destruct t.
  - intros [Hmask | ->].
    + unfold format_of.
      destruct (mask =? 1) eqn:H1; [lia |].
      destruct (mask <=? 3) eqn:H3; [lia |].
      destruct (mask <=? 7) eqn:H7; [lia |].
      destruct (mask <=? 15) eqn:H15; [lia | done].
    + unfold format_of. by repeat case_match.
Qed.

Lemma format_follows_highest_component_witness :
  format_of 5 D3D_REGISTER_COMPONENT_FLOAT32 = DXGI_FORMAT_R32G32B32_FLOAT
  /\ format_of 16 D3D_REGISTER_COMPONENT_FLOAT32 = DXGI_FORMAT_UNKNOWN.
Proof.
  destruct (format_follows_highest_component 16 D3D_REGISTER_COMPONENT_FLOAT32)
    as (_ & _ & Hunset).
  split; [reflexivity | apply Hunset; left; lia].
Defined.

(** ** The unordered-access table of a compute shader *)

Lemma load_uavs_first rds (t : gmap string Z) name :
  fold_left load_uav rds t !! name
  = match t !! name with
    | Some slot => Some slot
    | None => BindPoint
                <$> find (fun rd => is_uav (bindType rd)
                                    && String.eqb (bindName rd) name) rds
    end.
Proof.
  revert t. induction rds as [| rd rds IH]; intros t; simpl.
  - by destruct (t !! name).
  - rewrite IH. unfold load_uav.
    destruct (is_uav (bindType rd)); simpl; [| done].
    destruct (String.eqb (bindName rd) name) eqn:Heq.
    + apply String.eqb_eq in Heq as <-.
      destruct (t !! bindName rd) as [x |] eqn:Ht.
      * by rewrite (map_insert_pair_old _ _ _ _ _ Ht).
      * by rewrite (map_insert_pair_new _ _ _ Ht).
    + apply String.eqb_neq in Heq. by rewrite map_insert_pair_ne.
Qed.

Lemma slot_round_trip slot :
  0 <= slot < 2 ^ 32 - 1 ->
  u32 (s32 slot) = slot /\ (s32 slot =? -1) = false
  /\ (u32 (s32 slot) =? u32 (-1)) = false.
Proof.
  intros Hslot.
  assert (u32 (-1) = 2 ^ 32 - 1) as Hminus by reflexivity.
  assert (u32 (s32 slot) = slot) as Hback.
  { unfold s32, u32. destruct (slot <? 2 ^ 31) eqn:Hlt.
    - apply Z.mod_small. lia.
    - replace (slot - 2 ^ 32) with (slot + (-1) * 2 ^ 32) by lia.
      rewrite Z_mod_plus_full. apply Z.mod_small. lia. }
  split; [done |]. split.
  - apply Z.eqb_neq. unfold s32. destruct (slot <? 2 ^ 31) eqn:Hlt; lia.
  - rewrite Hback, Hminus. apply Z.eqb_neq. lia.
Qed.

(** X17.  A successfully loaded compute shader stores the reflected
    thread-group size.  [HasUnorderedAccessView] holds for a name exactly
    when some bound resource of an unordered-access kind has it, and
    [SetUnorderedAccessView] then binds the view at the bind point of the
    first such resource with the given counter offset; for any other name
    it returns false and issues no call.  (Bind points are below
    [2^32 - 1], the value that the lookup uses for a missing name.) *)
Theorem unordered_access_by_reflected_slot dev file blob
    (s0 s : ISimpleShader ComputeData) name uav offset :
  D3DReadFileToBlob dev file = Some blob ->
  LoadShaderFile dev file s0 = Some (true, s) ->
  Forall (fun rd => 0 <= BindPoint rd < 2 ^ 32 - 1)
         (BoundResources (D3DReflect blob)) ->
  (threadsX (derived s), threadsY (derived s), threadsZ (derived s))
  = ThreadGroupSize (D3DReflect blob)
  /\ match first_resource is_uav (D3DReflect blob) name with
     | Some rd =>
         HasUnorderedAccessView name s = true
         /\ SetUnorderedAccessView name uav offset s
            = (true,
               on_context [CSSetUnorderedAccessViews (BindPoint rd) uav offset] s)
     | None =>
         HasUnorderedAccessView name s = false
         /\ SetUnorderedAccessView name uav offset s = (false, s)
     end.
Proof.
  intros Hread Hok Hslots.
  destruct (LoadShaderFile_stages dev file s0 blob s Hread Hok)
    as (s2 & Hs & _ & _ & _ & _ & _ & _ & _ & _ & Hderived).
  assert (derived s
          = (Compute_CreateShader dev blob (Compute_CleanUp (derived s0))).1.2)
    as Hd.
  { rewrite Hs.
    match goal with |- context [load_buffers dev ?r 0 ?bds ?s] =>
      destruct (load_buffers_frame dev r bds 0%nat s) as (_ & -> & _) end.
    match goal with |- context [fold_left _ ?rds ?s] =>
      by destruct (load_resources_frame rds s) as (_ & -> & _) end. }
  assert (deviceCreate dev (CreateShaderCall CS blob) <> None) as Hcreated.
  { intros Hnone.
    destruct (LoadShaderFile_true dev file s0 blob s Hread Hok) as (_ & Htrue & _).
    revert Htrue. cbn. unfold Compute_CreateShader. by rewrite Hnone. }
  unfold Compute_CreateShader in Hd.
  destruct (deviceCreate dev (CreateShaderCall CS blob)) as [h |]; [| done].
  destruct (ThreadGroupSize (D3DReflect blob)) as [[x y] z] eqn:Hsize.
  simpl in Hd.
  unfold HasUnorderedAccessView, SetUnorderedAccessView,
    GetUnorderedAccessViewIndex.
  rewrite Hd. simpl. split; [done |].
  rewrite load_uavs_first, lookup_empty. unfold first_resource.
  destruct (find _ _) as [rd |] eqn:Hfind; simpl; [| done].
  apply find_some in Hfind as [Hin _]. apply list_elem_of_In in Hin.
  pose proof (proj1 (Forall_forall _ _) Hslots rd Hin) as Hslot. simpl in Hslot.
  destruct (slot_round_trip _ Hslot) as (Hback & Hhas & Hset).
  by rewrite Hhas, Hset, Hback.
Qed.

Lemma unordered_access_by_reflected_slot_witness :
  HasUnorderedAccessView "particles" sample_compute_shader = true
  /\ SetUnorderedAccessView "diffuse" 3%nat 0 sample_compute_shader
     = (false, sample_compute_shader).
Proof.
  split.
  - apply (unordered_access_by_reflected_slot good_device "ComputeShader.cso"
             sample_blob
             (ISimpleShader_new {| csShader := None; threadsX := 0;
                                   threadsY := 0; threadsZ := 0;
                                   threadsTotal := 0; uavTable := ∅ |})
             sample_compute_shader "particles" 3%nat 0 eq_refl).
    + vm_compute. reflexivity.
    + apply (bool_decide_unpack _). vm_compute. exact I.
  - apply (unordered_access_by_reflected_slot good_device "ComputeShader.cso"
             sample_blob
             (ISimpleShader_new {| csShader := None; threadsX := 0;
                                   threadsY := 0; threadsZ := 0;
                                   threadsTotal := 0; uavTable := ∅ |})
             sample_compute_shader "diffuse" 3%nat 0 eq_refl).
    + vm_compute. reflexivity.
    + apply (bool_decide_unpack _). vm_compute. exact I.
Defined.

(** ** Sequences of operations *)

Section Sequences.
Context {E : Type} `{ShaderClass E}.
Implicit Type s : ISimpleShader E.

Lemma run_wf cs s :
  wf s -> Forall payload_ok cs -> exists s', run cs s = Some s' /\ wf s'.
Proof.
  intros Hwf Hcs. revert s Hwf.
  induction Hcs as [| c cs Hc _ IH]; intros s Hwf; simpl; [by exists s |].
  destruct (exec_progress c s Hwf Hc) as [[r s1] Hexec].
  rewrite Hexec. simpl. apply IH.
  destruct (exec_inv c s r s1 Hexec) as [Hsame | Hrw].
  - by eapply wf_same_store.
  - by eapply wf_rewrite.
Qed.

Lemma SetData_cases name data size s b s' :
  SetData name data size s = Some (b, s') ->
  s' = s
  \/ exists var cb buf,
      varTable s !! name = Some var /\ size <= Size var
      /\ constantBuffers s !! Z.to_nat (ConstantBufferIndex var) = Some cb
      /\ memcpy (LocalDataBuffer cb) (ByteOffset var) data size = Some buf
      /\ s' = set_constantBuffers
                (<[Z.to_nat (ConstantBufferIndex var)
                   := set_LocalDataBuffer buf cb]> (constantBuffers s)) s.
Proof.
  unfold SetData, FindVariable.
  destruct (varTable s !! name) as [var |] eqn:Hvar; [| by intros [= <- <-]; left].
  simpl. destruct (Size var <? size) eqn:Hcmp; [by intros [= <- <-]; left |].
  destruct (constantBuffers s !! Z.to_nat (ConstantBufferIndex var))
    as [cb |] eqn:Hcb; [| done]. simpl.
  destruct (memcpy (LocalDataBuffer cb) (ByteOffset var) data size)
    as [buf |] eqn:Hcpy; [| done]. simpl.
  intros [= <- <-]. right. exists var, cb, buf.
  repeat split; try done. lia.
Qed.

Lemma SetData_outside name data size s b s' (k i : nat) :
  SetData name data size s = Some (b, s') ->
  outside_variables s k i -> staging s' k i = staging s k i.
Proof.
  intros Hset Hout.
  destruct (SetData_cases _ _ _ _ _ _ Hset)
    as [-> | (var & cb & buf & Hvar & Hle & Hcb & Hcpy & ->)]; [done |].
  unfold staging. simpl.
  destruct (decide (k = Z.to_nat (ConstantBufferIndex var))) as [-> | Hne];
    [| by rewrite list_lookup_insert_ne].
  rewrite list_lookup_insert_eq by (by eapply lookup_lt_Some).
  rewrite Hcb. simpl. rewrite (memcpy_lookup _ _ _ _ _ i Hcpy).
  case_decide as Hin; [| done].
  exfalso. apply (Hout _ _ Hvar). unfold in_variable. split; [done |].
  unfold memcpy in Hcpy. case_decide as Hguard; [| done]. lia.
Qed.

Lemma exec_writes c s r s' :
  exec c s = Some (r, s') -> writes_staging c = true ->
  exists name data size b, SetData name data size s = Some (b, s').
Proof.
  destruct c; try done; unfold exec, ret_bool, SetInt, SetFloat, SetFloat2,
    SetFloat3, SetFloat4, SetMatrix4x4;
    match goal with
    | |- context [SetData ?n ?d ?z s] =>
        destruct (SetData n d z s) as [[b s1] |] eqn:Hset; [| done];
        simpl; intros [= <- <-] _; by exists n, d, z, b
    end.
Qed.

Lemma exec_outside c s r s' (k i : nat) :
  exec c s = Some (r, s') ->
  outside_variables s k i ->
  staging s' k i = staging s k i /\ varTable s' = varTable s.
Proof.
  intros Hexec Hout.
  destruct (exec_shape c s r s' Hexec)
    as [(calls & -> & _) | (Hwrites & j & cb & buf & _ & _ & Hs')]; [done |].
  split; [| by rewrite Hs'].
  destruct (exec_writes c s r s' Hexec Hwrites) as (name & data & size & b & Hset).
  by eapply SetData_outside.
Qed.

Lemma run_outside cs s s' (k i : nat) :
  run cs s = Some s' ->
  outside_variables s k i -> staging s' k i = staging s k i.
Proof.
  revert s. induction cs as [| c cs IH]; intros s; simpl.
  - by intros [= <-].
  - destruct (exec c s) as [[r s1] |] eqn:Hexec; [| done]. simpl.
    intros Hrun Hout.
    destruct (exec_outside c s r s1 k i Hexec Hout) as [Hst Hvars].
    rewrite <- Hst. apply IH; [done |].
    unfold outside_variables. by rewrite Hvars.
Qed.
End Sequences.

(** X18.  A program loaded successfully from consistent reflection data
    can run any sequence of base-class operations whose payloads hold the
    bytes they read: no operation of the sequence copies outside a
    staging array or follows a table entry outside the buffer store, and
    the program is well-formed again at the end. *)
Theorem loaded_program_runs_safely {E} `{ShaderClass E} dev file blob
    (s0 s : ISimpleShader E) cs :
  D3DReadFileToBlob dev file = Some blob ->
  LoadShaderFile dev file s0 = Some (true, s) ->
  reflection_ok (D3DReflect blob) ->
  Forall payload_ok cs ->
  exists s', run cs s = Some s' /\ wf s'.
Proof.
  intros Hread Hok Hrefl Hcs. apply run_wf; [| done].
  by eapply LoadShaderFile_wf.
Qed.

Lemma loaded_program_runs_safely_witness :
  exists s',
    run [CallSetFloat "time" (replicate 4 Byte.x01); CallCopyAllBufferData;
         CallSetShader; CallSetMatrix4x4 "world" (replicate 64 Byte.x02)]
      sample_pixel_shader = Some s'
    /\ wf s'.
Proof.
  apply (loaded_program_runs_safely good_device "PixelShader.cso" sample_blob
           (ISimpleShader_new ({| plainShader := None |} : PlainData PS))
           sample_pixel_shader).
  - reflexivity.
  - vm_compute. reflexivity.
  - apply (bool_decide_unpack _). vm_compute. exact I.
  - repeat constructor; simpl; lia.
Defined.

(** X19.  A staging byte that lies in no variable of the variable table
    (padding between or after the variables) is never written: after any
    sequence of base-class operations it is what it was, so after a load
    it is still the zero byte that the loader put there. *)
Theorem padding_is_never_written {E} `{ShaderClass E} :
  (forall (s : ISimpleShader E) cs s' (b i : nat),
      run cs s = Some s' ->
      outside_variables s b i -> staging s' b i = staging s b i)
  /\ (forall dev file blob (s0 s : ISimpleShader E) cs s' (b i : nat) x,
         D3DReadFileToBlob dev file = Some blob ->
         LoadShaderFile dev file s0 = Some (true, s) ->
         run cs s = Some s' ->
         outside_variables s b i ->
         staging s' b i = Some x -> x = Byte.x00).
Proof.
  split.
  - intros s cs s' b i. apply run_outside.
  - intros dev file blob s0 s cs s' b i x Hread Hok Hrun Hout.
    rewrite (run_outside cs _ s' b i Hrun Hout).
    destruct (LoadShaderFile_success dev file s0 blob s Hread Hok)
      as (s3 & -> & Hcbs & _).
    destruct (load_buffers_buffers dev (D3DReflect blob)
                (ConstantBuffers (D3DReflect blob)) 0 s3) as (cbs & Heq & Hall).
    unfold staging. rewrite Heq, Hcbs. simpl.
    destruct (cbs !! b) as [cb |] eqn:Hcb; [| done]. simpl.
    destruct (Forall2_lookup_r _ _ _ _ _ Hall Hcb) as (bd & _ & _ & ->).
    unfold ZeroMemory. intros Hx. by apply lookup_replicate in Hx as [-> _].
Qed.

Lemma padding_is_never_written_witness :
  exists s',
    run [CallSetFloat "time" (replicate 4 Byte.x01); CallCopyAllBufferData]
      sample_pixel_shader = Some s'
    /\ staging s' 1 4 = staging sample_pixel_shader 1 4.
Proof.
  destruct (run [CallSetFloat "time" (replicate 4 Byte.x01); CallCopyAllBufferData]
              sample_pixel_shader) as [s' |] eqn:Hrun;
    [| vm_compute in Hrun; discriminate].
  exists s'. split; [reflexivity |].
  destruct (@padding_is_never_written (PlainData PS) SimplePixelShader)
    as (Hframe & _).
  apply (Hframe sample_pixel_shader _ s' 1%nat 4%nat Hrun).
  apply (bool_decide_unpack _). vm_compute. exact I.
Defined.
